(** * vnstat-dashboard: time-series bucketing and aggregation

    A shallow embedding of the chart aggregation code of the dashboard
    front end:

    - [normalizeTimestamp], [formatTimestamp], [retryRequest], the response
      interceptor, [getAllData]                  (services/apiService.js)
    - [standardizeTimestamp], [getTimeBucketFunction], [getTargetDataPoints],
      [getTimeRangeCutoff], [aggregateDataByTime],
      [aggregateCombinedServerData], [getBackendTimeRange],
      [getBackendLimit]                          (utils/dataAggregation.js)
    - [aggregateRealtimeData]                    (components/RealtimeChart.js)
    - [parseTimeRangeToHours]                    (backend/index.template.js)

    JavaScript numbers are IEEE-754 binary64 values and are modelled by Rocq's
    primitive floats.  A [Date] object is its time value: either NaN (an
    "Invalid Date") or an integral number of milliseconds since the epoch,
    modelled by [Z].  A JavaScript [Map] is an association list in insertion
    order.  The wall clock ([new Date()]) is an explicit argument.

    The functions of the engine and of date-fns that read or write text
    ([Number] on a string, [parseISO], [Date.parse], the rendering of a
    format pattern) are parameters, gathered in [Host] with the offset of the
    browser's time zone, which is taken to be fixed.  The date-fns functions
    on instants ([startOfMinute], [addHours], ...) are written out on time
    values; those that move the calendar day ([addDays], [subDays]) are
    written for any time zone ([Zone]) and used at the fixed offset of the
    host, and the cutoff of a look-back window is stated for both.

    The first part holds the definitions: the embedding of the code, then
    the declarative descriptions of what it computes.  The second part
    holds the proofs. *)

From Stdlib Require Import ZArith List String Ascii Bool Lia.
From Stdlib Require Import Permutation Sorted.
From Stdlib Require Import PrimFloat FloatOps SpecFloat Uint63.
From Stdlib Require DecimalString FloatAxioms.
Import ListNotations.
Open Scope Z_scope.

Set Implicit Arguments.

(* ------------------------------------------------------------------ *)
(** * JavaScript numbers *)

Module JsNumber.

Definition num := float.

Definition NaN : num := PrimFloat.nan.
Definition zero : num := PrimFloat.zero.

(** Integers of magnitude below 2^53 (all time values, counts and hours
    used here) convert exactly. *)
Definition of_Z (z : Z) : num :=
  if z <? 0 then PrimFloat.opp (PrimFloat.of_uint63 (Uint63.of_Z (- z)))
  else PrimFloat.of_uint63 (Uint63.of_Z z).

Definition of_nat (n : nat) : num := of_Z (Z.of_nat n).

(** ToBoolean on a number: NaN, +0 and -0 are falsy. *)
Definition truthy (x : num) : bool :=
  negb (PrimFloat.is_nan x || PrimFloat.is_zero x).

(** ToIntegerOrInfinity restricted to finite values: truncation toward
    zero; [None] for NaN and the infinities. *)
Definition to_Z (x : num) : option Z :=
  match Prim2SF x with
  | S754_zero _ => Some 0
  | S754_finite s m e =>
      let a := match e with
               | Zneg p => Z.pos m / 2 ^ Z.pos p
               | _ => Z.pos m * 2 ^ e
               end in
      Some (if s then - a else a)
  | _ => None
  end.

(** [Math.floor].  A finite value with a non-negative exponent is already
    integral; NaN, the infinities and the zeros are returned unchanged. *)
Definition Math_floor (x : num) : num :=
  match Prim2SF x with
  | S754_finite s m (Zneg p) =>
      if s then of_Z (- ((Z.pos m + 2 ^ Z.pos p - 1) / 2 ^ Z.pos p))
      else of_Z (Z.pos m / 2 ^ Z.pos p)
  | _ => x
  end.

(** [a || 0] on numbers. *)
Definition or_zero (x : num) : num := if truthy x then x else zero.

(** [values.reduce((sum, val) => sum + val, 0)] *)
Definition sum (values : list num) : num :=
  fold_left PrimFloat.add values zero.

(** [values.reduce((sum, val) => sum + val, 0) / values.length] *)
Definition mean (values : list num) : num :=
  PrimFloat.div (sum values) (of_nat (List.length values)).

(** [values.length > 0 ? mean : 0] *)
Definition mean_or_zero (values : list num) : num :=
  match values with
  | [] => zero
  | _ => mean values
  end.

End JsNumber.

Import JsNumber.

(* ------------------------------------------------------------------ *)
(** * Control: exceptions *)

Inductive result (A : Type) : Type :=
| Ok (a : A)
| Throw.

Arguments Ok {A} a.
Arguments Throw {A}.

Definition bind {A B} (r : result A) (k : A -> result B) : result B :=
  match r with
  | Ok a => k a
  | Throw => Throw
  end.

(** [try { body } catch (error) { handler }] with a handler that cannot
    throw. *)
Definition try_catch {A} (body : result A) (handler : A) : A :=
  match body with
  | Ok a => a
  | Throw => handler
  end.


(** [array.map(f)] where [f] may throw: the first exception aborts. *)
Fixpoint map_throwing {A B} (f : A -> result B) (l : list A) : result (list B) :=
  match l with
  | [] => Ok []
  | x :: l' =>
      bind (f x) (fun y => bind (map_throwing f l') (fun ys => Ok (y :: ys)))
  end.

(* ------------------------------------------------------------------ *)
(** * Dates *)

(** The time value of a [Date]: [InvalidDate] is NaN.  The range limit of
    ECMAScript time values (8.64e15 ms either side of the epoch) is applied
    where a number is turned into a date and not on date arithmetic. *)
Inductive JsDate : Type :=
| InvalidDate
| DateAt (ms : Z).

(** [date.getTime()]; [None] is NaN. *)
Definition getTime (d : JsDate) : option Z :=
  match d with
  | InvalidDate => None
  | DateAt t => Some t
  end.

(** [new Date(timeValue)] for a number that is NaN or integral. *)
Definition Date_of_time (k : option Z) : JsDate :=
  match k with
  | None => InvalidDate
  | Some t => DateAt t
  end.

Definition maxTime : Z := 8640000000000000.

(** TimeClip *)
Definition TimeClip (x : num) : JsDate :=
  match to_Z x with
  | Some t => if Z.abs t <=? maxTime then DateAt t else InvalidDate
  | None => InvalidDate
  end.

(** [a < b] on two dates (both converted to their time values; a comparison
    with NaN is false). *)
Definition date_lt (a b : JsDate) : bool :=
  match a, b with
  | DateAt x, DateAt y => x <? y
  | _, _ => false
  end.

(* ------------------------------------------------------------------ *)
(** * JavaScript values found in the fields of a sample *)

Inductive JsVal : Type :=
| JUndefined                    (* the field is missing *)
| JNull
| JBool (b : bool)
| JNum (x : num)
| JStr (s : string)
| JDate (d : JsDate)
| JObj.                         (* a plain object such as {} *)

(** ToBoolean *)
Definition truthy (v : JsVal) : bool :=
  match v with
  | JUndefined | JNull => false
  | JBool b => b
  | JNum x => JsNumber.truthy x
  | JStr s => negb (String.eqb s "")
  | JDate _ | JObj => true
  end.

(** [v !== 0] *)
Definition strict_ne_zero (v : JsVal) : bool :=
  match v with
  | JNum x => negb (PrimFloat.eqb x zero)
  | _ => true
  end.

(** [s.includes(sub)] *)
Definition includes (s sub : string) : bool :=
  match String.index 0 sub s with
  | Some _ => true
  | None => false
  end.

(* ------------------------------------------------------------------ *)
(** * The host: engine and library functions on text, and the time zone *)

(** The functions below belong to the JavaScript engine and to date-fns;
    they are taken as given.  The browser's time zone, which is also the
    "user time zone" returned by [getUserTimezone], is assumed to have a
    fixed offset from UTC. *)
Class Host : Type := {
  (** [Number(s)] on a string *)
  StringToNumber : string -> num;
  (** date-fns [parseISO] *)
  parseISO : string -> JsDate;
  (** [new Date(s)] on a string, that is [Date.parse] *)
  DateParse : string -> JsDate;
  (** date-fns [format(date, 'MMM dd, HH:mm:ss')] on a valid date *)
  formatPattern : Z -> string;
  (** milliseconds to add to UTC to obtain local time *)
  tzOffset : Z
}.

(* ------------------------------------------------------------------ *)
(** * Samples and output points *)

Module Sample.
(** One record of the history endpoint, [{timestamp, rx_rate, tx_rate}].
    A missing field reads as [JUndefined]. *)
Record t : Type := mk {
  timestamp : JsVal;
  rx_rate : JsVal;
  tx_rate : JsVal
}.
End Sample.

Module Point.
(** A point of [aggregateDataByTime]. *)
Record t : Type := mk {
  timestamp : JsDate;
  rx_rate : num;
  tx_rate : num;
  data_points : nat;
  timestamp_formatted : string
}.
End Point.

Module CombinedPoint.
(** A point of [aggregateCombinedServerData]. *)
Record t : Type := mk {
  timestamp : JsDate;
  total_rx : num;
  total_tx : num;
  server_count : nat;
  timestamp_formatted : string
}.
End CombinedPoint.

Module RealtimePoint.
(** A point of [aggregateRealtimeData]. *)
Record t : Type := mk {
  timestamp : JsDate;
  total_throughput : num;
  data_points : nat
}.
End RealtimePoint.

(* ------------------------------------------------------------------ *)
(** * Map: an association list in insertion order *)

Module JsMap.
Section Ops.
Variables (K V : Type) (eqb : K -> K -> bool).

Definition t := list (K * V).

(** [m.has(k)] *)
Fixpoint has (k : K) (m : t) : bool :=
  match m with
  | [] => false
  | (k', _) :: m' => if eqb k k' then true else has k m'
  end.

(** [m.get(k)]; [None] is undefined. *)
Fixpoint get (k : K) (m : t) : option V :=
  match m with
  | [] => None
  | (k', v) :: m' => if eqb k k' then Some v else get k m'
  end.

(** [m.set(k, v)]: an existing key keeps its position. *)
Fixpoint set (k : K) (v : V) (m : t) : t :=
  match m with
  | [] => [(k, v)]
  | (k', v') :: m' => if eqb k k' then (k', v) :: m' else (k', v') :: set k v m'
  end.

(** In-place mutation of the object stored under [k] (the object returned
    by [m.get(k)] is the one the map holds). *)
Fixpoint modify (k : K) (f : V -> V) (m : t) : t :=
  match m with
  | [] => []
  | (k', v) :: m' => if eqb k k' then (k', f v) :: m' else (k', v) :: modify k f m'
  end.

(** [Array.from(m.values())] *)
Definition values (m : t) : list V := map snd m.

Definition keys (m : t) : list K := map fst m.

End Ops.
End JsMap.

(** Keys of the bucket maps are time values, compared by SameValueZero (NaN
    equals NaN). *)
Definition key : Type := option Z.

Definition key_eqb (a b : key) : bool :=
  match a, b with
  | None, None => true
  | Some x, Some y => x =? y
  | _, _ => false
  end.

(* ------------------------------------------------------------------ *)
(** * Sorting and truncation *)

Section Sort.
Variable A : Type.
(** [compareFn a b <= 0]: [a] may stay before [b]. *)
Variable le : A -> A -> bool.

Fixpoint insert_sorted (x : A) (l : list A) : list A :=
  match l with
  | [] => [x]
  | y :: l' => if le x y then x :: y :: l' else y :: insert_sorted x l'
  end.

(** [array.sort(compareFn)]: the sort is stable, so on a comparator that is
    a total preorder its result is that of insertion sort. *)
Fixpoint sort (l : list A) : list A :=
  match l with
  | [] => []
  | x :: l' => insert_sorted x (sort l')
  end.

(** [array.slice(-n)] *)
Definition slice_last (n : nat) (l : list A) : list A :=
  skipn (List.length l - n) l.

End Sort.

(** Whether the comparator
    [(a, b) => new Date(a.timestamp) - new Date(b.timestamp)] is at most 0;
    a NaN difference counts as 0. *)
Definition date_le (a b : JsDate) : bool :=
  match a, b with
  | DateAt x, DateAt y => x - y <=? 0
  | _, _ => true
  end.

(* ------------------------------------------------------------------ *)
(** * Time zones *)

(** A time zone as the engine sees it: [offset_at t] is what is added to
    the instant [t] to obtain its local reading, and [utc_of_local l] is the
    instant that the local reading [l] stands for (where the zone repeats or
    skips an hour, the one the engine picks). *)
Record Zone : Type := mkZone {
  offset_at : Z -> Z;
  utc_of_local : Z -> Z
}.

(** A zone that keeps one offset. *)
Definition fixed_zone (offset : Z) : Zone :=
  mkZone (fun _ => offset) (fun l => l - offset).

(* ------------------------------------------------------------------ *)
(** * Local time and date-fns *)

Section DateFns.
Context {host : Host}.

Definition LocalTime (t : Z) : Z := t + tzOffset.
Definition UTC (l : Z) : Z := l - tzOffset.

Definition msPerSecond : Z := 1000.
Definition msPerMinute : Z := 60000.
Definition msPerHour : Z := 3600000.
Definition msPerDay : Z := 86400000.

Definition local_field (f : Z -> Z) (d : JsDate) : num :=
  match d with
  | InvalidDate => NaN
  | DateAt t => of_Z (f (LocalTime t))
  end.

(** [date.getSeconds()], [date.getMinutes()], [date.getHours()] *)
Definition getSeconds : JsDate -> num :=
  local_field (fun l => (l / msPerSecond) mod 60).
Definition getMinutes : JsDate -> num :=
  local_field (fun l => (l / msPerMinute) mod 60).
Definition getHours : JsDate -> num :=
  local_field (fun l => (l / msPerHour) mod 24).

(** Replace the local fields below [unit] by [rest] milliseconds. *)
Definition set_below (unit : Z) (d : JsDate) (rest : option Z) : JsDate :=
  match d, rest with
  | DateAt t, Some r => DateAt (UTC (LocalTime t / unit * unit + r))
  | _, _ => InvalidDate
  end.

(** [date.setSeconds(sec, 0)] *)
Definition setSeconds (d : JsDate) (sec : num) : JsDate :=
  set_below msPerMinute d (option_map (fun s => s * msPerSecond) (to_Z sec)).

(** date-fns [startOfMinute]: [date.setSeconds(0, 0)] *)
Definition startOfMinute (d : JsDate) : JsDate := set_below msPerMinute d (Some 0).
(** date-fns [startOfHour]: [date.setMinutes(0, 0, 0)] *)
Definition startOfHour (d : JsDate) : JsDate := set_below msPerHour d (Some 0).
(** date-fns [startOfDay]: [date.setHours(0, 0, 0, 0)] *)
Definition startOfDay (d : JsDate) : JsDate := set_below msPerDay d (Some 0).

(** date-fns [addMilliseconds] with the amount already scaled; a NaN or
    infinite amount gives an Invalid Date. *)
Definition add_scaled (unit : Z) (d : JsDate) (amount : num) : JsDate :=
  match d, to_Z amount with
  | DateAt t, Some n => DateAt (t + n * unit)
  | _, _ => InvalidDate
  end.

Definition addSeconds : JsDate -> num -> JsDate := add_scaled msPerSecond.
Definition addMinutes : JsDate -> num -> JsDate := add_scaled msPerMinute.
Definition addHours : JsDate -> num -> JsDate := add_scaled msPerHour.
(** date-fns [addDays(date, amount)] in a zone: for a non-zero amount,
    [date.setDate(date.getDate() + amount)], which moves the local reading
    by whole days of 24 hours and reads the result back as an instant; the
    amount 0 returns the date as it is. *)
Definition addDays_in (zone : Zone) (d : JsDate) (amount : num) : JsDate :=
  match d, to_Z amount with
  | DateAt t, Some n =>
      if n =? 0 then DateAt t
      else DateAt (utc_of_local zone (t + offset_at zone t + n * msPerDay))
  | DateAt _, None => InvalidDate
  | InvalidDate, _ => InvalidDate
  end.

Definition subDays_in (zone : Zone) (d : JsDate) (n : num) : JsDate :=
  addDays_in zone d (PrimFloat.opp n).

(** [addDays] and [subDays] in the zone of the host. *)
Definition addDays : JsDate -> num -> JsDate := addDays_in (fixed_zone tzOffset).

Definition subMinutes (d : JsDate) (n : num) : JsDate := addMinutes d (PrimFloat.opp n).
Definition subHours (d : JsDate) (n : num) : JsDate := addHours d (PrimFloat.opp n).
Definition subDays : JsDate -> num -> JsDate := subDays_in (fixed_zone tzOffset).

(** date-fns [format(date, 'MMM dd, HH:mm:ss')]: throws RangeError
    ("Invalid time value") on an Invalid Date. *)
Definition format (d : JsDate) : result string :=
  match d with
  | InvalidDate => Throw
  | DateAt t => Ok (formatPattern t)
  end.

(** date-fns-tz [utcToZonedTime(date, userTz)]: a date whose local fields
    are the wall-clock reading of [date] in the user's zone, which is the
    zone of the browser, so that at the fixed offset of the host the result
    is the instant itself.  For an Invalid Date the offset computed is NaN
    and the result is an Invalid Date; nothing is thrown.  Not modelled:
    instants within a zone offset of the ends of the range of time values,
    and local readings before the year 1, which the library misreads. *)
Definition utcToZonedTime (d : JsDate) : result JsDate :=
  match d with
  | InvalidDate => Ok InvalidDate
  | DateAt t => Ok (DateAt (UTC (t + tzOffset)))
  end.

(** [Number(v)] *)
Definition ToNumber (v : JsVal) : num :=
  match v with
  | JUndefined => NaN
  | JNull => zero
  | JBool b => if b then PrimFloat.one else zero
  | JNum x => x
  | JStr s => StringToNumber s
  | JDate d => match getTime d with Some t => of_Z t | None => NaN end
  | JObj => NaN
  end.

(** [new Date(v)] *)
Definition newDate (v : JsVal) : JsDate :=
  match v with
  | JDate d => d
  | JStr s => DateParse s
  | JObj => InvalidDate
  | _ => TimeClip (ToNumber v)
  end.

(* ------------------------------------------------------------------ *)
(** * apiService.normalizeTimestamp *)

(** The date built in the [try] block before the zone conversion. *)
Definition parsed_date (timestamp : JsVal) : JsDate :=
  match timestamp with
  | JStr s =>
      if includes s "T" || includes s "Z" then parseISO s
      else parseISO (s ++ "Z")
  | JDate d => d
  | _ => newDate timestamp
  end.

(** [normalizeTimestamp] on the value of a sample field; [None] is [null].
    On these values [new Date(timestamp)] does not throw, in the [try]
    block or in the handler. *)
Definition normalizeTimestamp (timestamp : JsVal) : option JsDate :=
  if negb (truthy timestamp) then None
  else Some (try_catch (utcToZonedTime (parsed_date timestamp))
                       (newDate timestamp)).

(** ** normalizeTimestamp on any argument *)






End DateFns.


(* ------------------------------------------------------------------ *)
(** * utils/dataAggregation.js *)

Module Bucket.
(** A bucket of [aggregateDataByTime] and of [aggregateRealtimeData]. *)
Record t : Type := mk {
  timestamp : JsDate;
  rx_values : list num;
  tx_values : list num;
  count : nat
}.
End Bucket.

Module ServerBucket.
Record t : Type := mk {
  rx_values : list num;
  tx_values : list num
}.
End ServerBucket.

Module CombinedBucket.
(** A bucket of [aggregateCombinedServerData]; [servers] is keyed by the
    index of the server in the input. *)
Record t : Type := mk {
  timestamp : JsDate;
  servers : JsMap.t nat ServerBucket.t;
  total_rx : num;
  total_tx : num;
  server_count : nat
}.
End CombinedBucket.

(** [switch (timeRange)] over the six labels, with a default. *)
Definition switch_range {A} (timeRange : string)
  (c1h c6h c12h c1d c3d c1w default : A) : A :=
  if String.eqb timeRange "1h" then c1h
  else if String.eqb timeRange "6h" then c6h
  else if String.eqb timeRange "12h" then c12h
  else if String.eqb timeRange "1d" then c1d
  else if String.eqb timeRange "3d" then c3d
  else if String.eqb timeRange "1w" then c1w
  else default.

(** [Math.floor(x / step) * step] *)
Definition floor_multiple (x step : num) : num :=
  PrimFloat.mul (Math_floor (PrimFloat.div x step)) step.

(** The value of a date or [null] in a comparison and in [new Date(v)]:
    [null] counts as time value 0. *)
Definition date_of_nullable (v : option JsDate) : JsDate :=
  match v with
  | None => DateAt 0
  | Some d => d
  end.

(** [!rate && rate !== 0] *)
Definition rate_rejected (rate : JsVal) : bool :=
  negb (truthy rate) && strict_ne_zero rate.

(** The guard at the head of each [forEach] callback:
    [!point.timestamp || (!point.rx_rate && point.rx_rate !== 0)
     || (!point.tx_rate && point.tx_rate !== 0)]. *)
Definition point_rejected (point : Sample.t) : bool :=
  negb (truthy (Sample.timestamp point))
  || rate_rejected (Sample.rx_rate point)
  || rate_rejected (Sample.tx_rate point).

Section Aggregation.
Context {host : Host}.

(** The argument is the normalized time of the caller, a date or [null];
    [date] is [new Date(timestamp)]. *)
Definition standardizeTimestamp (timestamp : option JsDate) (timeRange : string)
  : JsDate :=
  let date := date_of_nullable timestamp in
  let intervalSeconds : num :=
    (switch_range timeRange 5 5 30 30 60 60 5)%float in
  let seconds := getSeconds date in
  let standardizedSeconds := floor_multiple seconds intervalSeconds in
  setSeconds date standardizedSeconds.

(** The functions returned for 6h, 12h and 1d:
    [addMinutes(startOfHour(date), Math.floor(date.getMinutes() / width) * width)]. *)
Definition minute_bucket (width : num) (date : JsDate) : JsDate :=
  let start := startOfHour date in
  let minutes := floor_multiple (getMinutes date) width in
  addMinutes start minutes.

(** The functions returned for 3d and 1w: with
    [hours = Math.floor(date.getHours() / width) * width],
    [addHours(startOfDay(date), Math.floor(hours))]. *)
Definition hour_bucket (width : num) (date : JsDate) : JsDate :=
  let hours := floor_multiple (getHours date) width in
  addHours (startOfDay date) (Math_floor hours).

Definition getTimeBucketFunction (timeRange : string) : JsDate -> JsDate :=
  switch_range timeRange
    startOfMinute
    (minute_bucket 6%float)
    (minute_bucket 12%float)
    (minute_bucket 24%float)
    (hour_bucket 0x1.3333333333333p+0%float)   (* 1.2 *)
    (hour_bucket 0x1.6666666666666p+1%float)   (* 2.8 *)
    startOfMinute.

Definition getTargetDataPoints (timeRange : string) : nat :=
  (switch_range timeRange 60 60 60 60 60 60 60)%nat.

(** [getTimeRangeCutoff] in a zone; [now] is the value of [new Date()]. *)
Definition getTimeRangeCutoff_in (zone : Zone) (now : JsDate) (timeRange : string)
  : JsDate :=
  switch_range timeRange
    (subHours now 1%float)
    (subHours now 6%float)
    (subHours now 12%float)
    (subHours now 24%float)
    (subDays_in zone now 3%float)
    (subDays_in zone now 7%float)
    (subHours now 1%float).

(** [getTimeRangeCutoff] in the zone of the host. *)
Definition getTimeRangeCutoff (now : JsDate) (timeRange : string) : JsDate :=
  getTimeRangeCutoff_in (fixed_zone tzOffset) now timeRange.

(** [Number(v) || 0] *)
Definition rate_value (v : JsVal) : num := or_zero (ToNumber v).

(** The bucket a sample that passed the guard is sent to, or [None] when the
    cutoff filter drops it. *)
Definition bucket_time_of (timeRange : string) (cutoffTime : JsDate)
  (point : Sample.t) : option JsDate :=
  let normalizedTime := normalizeTimestamp (Sample.timestamp point) in
  if date_lt (date_of_nullable normalizedTime) cutoffTime then None
  else
    let standardizedTime := standardizeTimestamp normalizedTime timeRange in
    Some (getTimeBucketFunction timeRange standardizedTime).

Definition push_sample (point : Sample.t) (bucket : Bucket.t) : Bucket.t :=
  Bucket.mk (Bucket.timestamp bucket)
    (Bucket.rx_values bucket ++ [rate_value (Sample.rx_rate point)])
    (Bucket.tx_values bucket ++ [rate_value (Sample.tx_rate point)])
    (S (Bucket.count bucket)).

(** The callback of [rawData.forEach] in [aggregateDataByTime]. *)
Definition collect_point (timeRange : string) (cutoffTime : JsDate)
  (buckets : JsMap.t key Bucket.t) (point : Sample.t) : JsMap.t key Bucket.t :=
  if point_rejected point then buckets
  else
    match bucket_time_of timeRange cutoffTime point with
    | None => buckets
    | Some bucketTime =>
        let bucketKey := getTime bucketTime in
        let buckets :=
          if JsMap.has key_eqb bucketKey buckets then buckets
          else JsMap.set key_eqb bucketKey (Bucket.mk bucketTime [] [] 0%nat) buckets in
        JsMap.modify key_eqb bucketKey (push_sample point) buckets
    end.

Definition bucket_point (bucket : Bucket.t) : result Point.t :=
  bind (format (Bucket.timestamp bucket)) (fun formatted =>
  Ok (Point.mk (Bucket.timestamp bucket)
        (mean_or_zero (Bucket.rx_values bucket))
        (mean_or_zero (Bucket.tx_values bucket))
        (Bucket.count bucket)
        formatted)).

(** [aggregatedData]: the sorted points before the limit is applied. *)
Definition aggregatedData (now : Z) (rawData : list Sample.t) (timeRange : string)
  : result (list Point.t) :=
  let cutoffTime := getTimeRangeCutoff (DateAt now) timeRange in
  let buckets := fold_left (collect_point timeRange cutoffTime) rawData [] in
  bind (map_throwing bucket_point (JsMap.values buckets)) (fun points =>
  Ok (sort (fun a b => date_le (Point.timestamp a) (Point.timestamp b)) points)).

(** [if (data.length > targetPoints) return data.slice(-targetPoints)] *)
Definition limit_points {A} (timeRange : string) (data : list A) : list A :=
  let targetPoints := getTargetDataPoints timeRange in
  if (targetPoints <? List.length data)%nat then slice_last targetPoints data
  else data.

Definition aggregateDataByTime (now : Z) (rawData : list Sample.t) (timeRange : string)
  : result (list Point.t) :=
  match rawData with
  | [] => Ok []
  | _ => bind (aggregatedData now rawData timeRange) (fun data =>
         Ok (limit_points timeRange data))
  end.

(** ** The combined view *)

Definition push_server_sample (point : Sample.t) (serverBucket : ServerBucket.t)
  : ServerBucket.t :=
  ServerBucket.mk
    (ServerBucket.rx_values serverBucket ++ [rate_value (Sample.rx_rate point)])
    (ServerBucket.tx_values serverBucket ++ [rate_value (Sample.tx_rate point)]).

Definition push_combined (serverIndex : nat) (point : Sample.t)
  (bucket : CombinedBucket.t) : CombinedBucket.t :=
  let servers := CombinedBucket.servers bucket in
  let servers :=
    if JsMap.has Nat.eqb serverIndex servers then servers
    else JsMap.set Nat.eqb serverIndex (ServerBucket.mk [] []) servers in
  CombinedBucket.mk (CombinedBucket.timestamp bucket)
    (JsMap.modify Nat.eqb serverIndex (push_server_sample point) servers)
    (CombinedBucket.total_rx bucket)
    (CombinedBucket.total_tx bucket)
    (CombinedBucket.server_count bucket).

(** The callback of [serverData.forEach] in [aggregateCombinedServerData]. *)
Definition collect_server_point (timeRange : string) (cutoffTime : JsDate)
  (serverIndex : nat) (buckets : JsMap.t key CombinedBucket.t) (point : Sample.t)
  : JsMap.t key CombinedBucket.t :=
  if point_rejected point then buckets
  else
    match bucket_time_of timeRange cutoffTime point with
    | None => buckets
    | Some bucketTime =>
        let bucketKey := getTime bucketTime in
        let buckets :=
          if JsMap.has key_eqb bucketKey buckets then buckets
          else JsMap.set key_eqb bucketKey
                 (CombinedBucket.mk bucketTime [] zero zero 0%nat) buckets in
        JsMap.modify key_eqb bucketKey (push_combined serverIndex point) buckets
    end.

(** [allServerData.forEach((serverData, serverIndex) => ...)] from index
    [serverIndex] on. *)
Fixpoint collect_servers (timeRange : string) (cutoffTime : JsDate)
  (serverIndex : nat) (allServerData : list (list Sample.t))
  (buckets : JsMap.t key CombinedBucket.t) : JsMap.t key CombinedBucket.t :=
  match allServerData with
  | [] => buckets
  | serverData :: rest =>
      collect_servers timeRange cutoffTime (S serverIndex) rest
        (fold_left (collect_server_point timeRange cutoffTime serverIndex)
           serverData buckets)
  end.

(** The callback of [bucket.servers.forEach] on the running
    [(totalRx, totalTx, serverCount)]. *)
Definition add_server (acc : num * num * nat) (serverData : ServerBucket.t)
  : num * num * nat :=
  let '(totalRx, totalTx, serverCount) := acc in
  match ServerBucket.rx_values serverData, ServerBucket.tx_values serverData with
  | _ :: _, _ :: _ =>
      let avgRx := mean (ServerBucket.rx_values serverData) in
      let avgTx := mean (ServerBucket.tx_values serverData) in
      (PrimFloat.add totalRx avgRx, PrimFloat.add totalTx avgTx, S serverCount)
  | _, _ => acc
  end.

Definition combined_point (bucket : CombinedBucket.t) : result CombinedPoint.t :=
  let '(totalRx, totalTx, serverCount) :=
    fold_left add_server (JsMap.values (CombinedBucket.servers bucket))
      (zero, zero, 0%nat) in
  bind (format (CombinedBucket.timestamp bucket)) (fun formatted =>
  Ok (CombinedPoint.mk (CombinedBucket.timestamp bucket)
        totalRx totalTx serverCount formatted)).

(** [combinedData]: mapped, filtered and sorted, before the limit. *)
Definition combinedData (now : Z) (allServerData : list (list Sample.t))
  (timeRange : string) : result (list CombinedPoint.t) :=
  let cutoffTime := getTimeRangeCutoff (DateAt now) timeRange in
  let buckets := collect_servers timeRange cutoffTime 0 allServerData [] in
  bind (map_throwing combined_point (JsMap.values buckets)) (fun points =>
  Ok (sort (fun a b => date_le (CombinedPoint.timestamp a) (CombinedPoint.timestamp b))
        (filter (fun point => (0 <? CombinedPoint.server_count point)%nat) points))).

Definition aggregateCombinedServerData (now : Z) (allServerData : list (list Sample.t))
  (timeRange : string) : result (list CombinedPoint.t) :=
  match allServerData with
  | [] => Ok []
  | _ => bind (combinedData now allServerData timeRange) (fun data =>
         Ok (limit_points timeRange data))
  end.

End Aggregation.

(* ------------------------------------------------------------------ *)
(** * components/RealtimeChart.js *)

(** [Math.floor(t / 30000) * 30000] on a time value.  For an integral [t]
    in the range of time values the rounded quotient [t / 30000] never
    reaches the next integer (it stays at least 1/30000 below it, more than
    half a unit in the last place), so the floor is the integer quotient and
    the product is exact. *)
Definition floor_30s (t : option Z) : option Z :=
  option_map (fun t => t / 30000 * 30000) t.

(** date-fns [toDate] on a date or [null]. *)
Definition toDate (v : option JsDate) : JsDate :=
  match v with
  | None => InvalidDate
  | Some d => d
  end.

Section Realtime.
Context {host : Host}.

(** The body of the loop [for (let i = 0; i < 30; i++)]. *)
Definition create_bucket (startTime : JsDate) (buckets : JsMap.t key Bucket.t)
  (i : nat) : JsMap.t key Bucket.t :=
  let bucketTime := addSeconds startTime (of_Z (Z.of_nat i * 30)) in
  let bucketKey := floor_30s (getTime bucketTime) in
  JsMap.set key_eqb bucketKey (Bucket.mk (Date_of_time bucketKey) [] [] 0%nat) buckets.

(** The callback of [rawData.forEach] in [aggregateRealtimeData].  A [null]
    [pointTime] cannot occur after the guard, which rejects a falsy
    timestamp. *)
Definition collect_realtime (startTime : JsDate)
  (buckets : JsMap.t key Bucket.t) (point : Sample.t) : JsMap.t key Bucket.t :=
  if point_rejected point then buckets
  else
    match normalizeTimestamp (Sample.timestamp point) with
    | None => buckets
    | Some pointTime =>
        if date_lt pointTime startTime then buckets
        else
          let bucketKey := floor_30s (getTime pointTime) in
          match JsMap.get key_eqb bucketKey buckets with
          | Some _ => JsMap.modify key_eqb bucketKey (push_sample point) buckets
          | None => buckets
          end
    end.

Definition realtime_point (bucket : Bucket.t) : RealtimePoint.t :=
  let avgRx := mean_or_zero (Bucket.rx_values bucket) in
  let avgTx := mean_or_zero (Bucket.tx_values bucket) in
  RealtimePoint.mk (Bucket.timestamp bucket) (PrimFloat.add avgRx avgTx)
    (Bucket.count bucket).

(** The 30 buckets created before the samples are read. *)
Definition realtime_buckets (startTime : JsDate) : JsMap.t key Bucket.t :=
  fold_left (create_bucket startTime) (seq 0 30) [].

(** [clock] is the value of [new Date()]. *)
Definition aggregateRealtimeData (clock : Z) (rawData : list Sample.t)
  : list RealtimePoint.t :=
  match rawData with
  | [] => []
  | _ =>
      let now := normalizeTimestamp (JDate (DateAt clock)) in
      let startTime := subMinutes (toDate now) 15%float in
      let buckets :=
        fold_left (collect_realtime startTime) rawData (realtime_buckets startTime) in
      sort (fun a b => date_le (RealtimePoint.timestamp a) (RealtimePoint.timestamp b))
        (map realtime_point (JsMap.values buckets))
  end.

End Realtime.

(* ------------------------------------------------------------------ *)
(** * Declarative description of the bucket maps *)

(** A loop that sends each item [x] selected by [sel] to the entry of its
    key, creating the entry with [init] on first use and then applying
    [upd x] to it, builds one entry per distinct key, in order of first
    appearance, holding the items of that key in input order. *)
Section Grouping.
Variables (K V X : Type) (eqb : K -> K -> bool).
Variables (sel : X -> option K) (init : K -> V) (upd : X -> V -> V).

(** The has / set / get / mutate idiom of the [forEach] callbacks. *)
Definition gstep (m : JsMap.t K V) (x : X) : JsMap.t K V :=
  match sel x with
  | None => m
  | Some k =>
      JsMap.modify eqb k (upd x)
        (if JsMap.has eqb k m then m else JsMap.set eqb k (init k) m)
  end.

Definition mem (k : K) (ks : list K) : bool := existsb (eqb k) ks.

Definition note_key (ks : list K) (x : X) : list K :=
  match sel x with
  | None => ks
  | Some k => if mem k ks then ks else ks ++ [k]
  end.

(** The distinct keys of [l] in order of first appearance. *)
Definition first_keys (l : list X) : list K := fold_left note_key l [].

Definition selects (k : K) (x : X) : bool :=
  match sel x with
  | Some k' => eqb k k'
  | None => false
  end.

(** The items of [l] sent to key [k], in input order. *)
Definition members (k : K) (l : list X) : list X := filter (selects k) l.

Definition group (k : K) (l : list X) : V :=
  fold_left (fun v x => upd x v) (members k l) (init k).

Definition grouped (l : list X) : JsMap.t K V :=
  map (fun k => (k, group k l)) (first_keys l).

End Grouping.

(* ------------------------------------------------------------------ *)
(** * Declarative description of aggregateDataByTime *)

(** The time values of a list of keys, unless one of them is NaN. *)
Fixpoint all_valid (ks : list key) : option (list Z) :=
  match ks with
  | [] => Some []
  | None :: _ => None
  | Some t :: ks' => option_map (cons t) (all_valid ks')
  end.

Section AggregationSpec.
Context {host : Host}.

(** The bucket key of a sample, or [None] when the guard or the cutoff
    filter drops the sample. *)
Definition sample_key (timeRange : string) (cutoffTime : JsDate)
  (point : Sample.t) : option key :=
  if point_rejected point then None
  else option_map getTime (bucket_time_of timeRange cutoffTime point).

Definition empty_bucket (k : key) : Bucket.t :=
  Bucket.mk (Date_of_time k) [] [] 0%nat.

(** The distinct bucket keys of the input, in order of first appearance. *)
Definition bucket_keys (timeRange : string) (cutoffTime : JsDate)
  (rawData : list Sample.t) : list key :=
  first_keys key_eqb (sample_key timeRange cutoffTime) rawData.

(** The samples of [rawData] that land in the bucket of key [k], in input
    order. *)
Definition bucket_samples (timeRange : string) (cutoffTime : JsDate)
  (rawData : list Sample.t) (k : key) : list Sample.t :=
  members key_eqb (sample_key timeRange cutoffTime) k rawData.

Definition rx_of (point : Sample.t) : num := rate_value (Sample.rx_rate point).
Definition tx_of (point : Sample.t) : num := rate_value (Sample.tx_rate point).

(** The output point of the bucket that starts at [t]. *)
Definition point_at (timeRange : string) (cutoffTime : JsDate)
  (rawData : list Sample.t) (t : Z) : Point.t :=
  let samples := bucket_samples timeRange cutoffTime rawData (Some t) in
  Point.mk (DateAt t)
    (mean_or_zero (map rx_of samples))
    (mean_or_zero (map tx_of samples))
    (List.length samples)
    (formatPattern t).

End AggregationSpec.

(** [timestamps] is strictly ascending under the [<] of dates. *)
Definition ascending (timestamps : list JsDate) : Prop :=
  StronglySorted (fun a b => date_lt a b = true) timestamps.

(* ------------------------------------------------------------------ *)
(** * Declarative description of aggregateCombinedServerData *)

Definition nonempty {A} (l : list A) : bool :=
  match l with
  | [] => false
  | _ :: _ => true
  end.

(** The samples of all servers, each with the index of its server, in the
    order in which the nested [forEach] visits them. *)
Fixpoint tagged_from (serverIndex : nat) (allServerData : list (list Sample.t))
  : list (nat * Sample.t) :=
  match allServerData with
  | [] => []
  | serverData :: rest =>
      map (pair serverIndex) serverData ++ tagged_from (S serverIndex) rest
  end.

Section CombinedSpec.
Context {host : Host}.

Definition empty_combined (k : key) : CombinedBucket.t :=
  CombinedBucket.mk (Date_of_time k) [] zero zero 0%nat.

(** The update of [bucket.servers] made for one sample of server [fst x]. *)
Definition server_step (servers : JsMap.t nat ServerBucket.t) (x : nat * Sample.t)
  : JsMap.t nat ServerBucket.t :=
  JsMap.modify Nat.eqb (fst x) (push_server_sample (snd x))
    (if JsMap.has Nat.eqb (fst x) servers then servers
     else JsMap.set Nat.eqb (fst x) (ServerBucket.mk [] []) servers).

(** The entries of [bucket.servers] for servers [serverIndex], ... given the
    samples of each server in the bucket. *)
Fixpoint server_entries (serverIndex : nat) (lists : list (list Sample.t))
  : JsMap.t nat ServerBucket.t :=
  match lists with
  | [] => []
  | samples :: rest =>
      (if nonempty samples
       then [(serverIndex, ServerBucket.mk (map rx_of samples) (map tx_of samples))]
       else [])
      ++ server_entries (S serverIndex) rest
  end.

(** For the bucket of key [k]: the sample lists of the servers that have at
    least one sample in it, in server order. *)
Definition contributing (timeRange : string) (cutoffTime : JsDate)
  (allServerData : list (list Sample.t)) (k : key) : list (list Sample.t) :=
  filter nonempty
    (map (fun serverData => bucket_samples timeRange cutoffTime serverData k)
       allServerData).

(** The combined point of the bucket that starts at [t]: the sums, over the
    contributing servers, of each server's own mean. *)
Definition combined_point_at (timeRange : string) (cutoffTime : JsDate)
  (allServerData : list (list Sample.t)) (t : Z) : CombinedPoint.t :=
  let servers := contributing timeRange cutoffTime allServerData (Some t) in
  CombinedPoint.mk (DateAt t)
    (sum (map (fun samples => mean (map rx_of samples)) servers))
    (sum (map (fun samples => mean (map tx_of samples)) servers))
    (List.length servers)
    (formatPattern t).

End CombinedSpec.

(* ------------------------------------------------------------------ *)
(** * Worked examples: host and inputs *)

(** The month (1 to 12) and the day of the month of a day counted from
    1970-01-01 in the proleptic Gregorian calendar. *)
Definition civil_month_day (days : Z) : Z * Z :=
  let z := days + 719468 in
  let era := z / 146097 in
  let doe := z - era * 146097 in
  let yoe := (doe - doe / 1460 + doe / 36524 - doe / 146096) / 365 in
  let doy := doe - (365 * yoe + yoe / 4 - yoe / 100) in
  let mp := (5 * doy + 2) / 153 in
  let d := doy - (153 * mp + 2) / 5 + 1 in
  let m := if mp <? 10 then mp + 3 else mp - 9 in
  (m, d).

Definition two_digits (n : Z) : string :=
  String (ascii_of_nat (48 + Z.to_nat (n / 10)))
    (String (ascii_of_nat (48 + Z.to_nat (n mod 10))) EmptyString).

Definition month_names : list string :=
  ["Jan"; "Feb"; "Mar"; "Apr"; "May"; "Jun";
   "Jul"; "Aug"; "Sep"; "Oct"; "Nov"; "Dec"]%string.

(** The pattern 'MMM dd, HH:mm:ss' on a local time in milliseconds. *)
Definition render_MMM_dd_HH_mm_ss (l : Z) : string :=
  let '(m, d) := civil_month_day (l / 86400000) in
  let s := (l / 1000) mod 86400 in
  (nth (Z.to_nat (m - 1)) month_names EmptyString ++ " " ++ two_digits d ++ ", "
   ++ two_digits (s / 3600) ++ ":" ++ two_digits (s / 60 mod 60) ++ ":"
   ++ two_digits (s mod 60))%string.

(** A browser one hour east of UTC.  Its text functions reject every text;
    the examples below hand them either no text at all or a text that the
    real functions reject as well. *)
Definition example_host : Host := {|
  StringToNumber := fun _ => NaN;
  parseISO := fun _ => InvalidDate;
  DateParse := fun _ => InvalidDate;
  formatPattern := fun t => render_MMM_dd_HH_mm_ss (t + 3600000);
  tzOffset := 3600000
|}.

(** 2023-11-14T22:13:20Z *)
Definition example_now : Z := 1700000000000.

(** A sample with a [Date] timestamp, as [getServerHistory] delivers it. *)
Definition sample_at (t : Z) (rx tx : JsVal) : Sample.t :=
  Sample.mk (JDate (DateAt t)) rx tx.

(** The values of a rate field that the guard rejects: a missing field,
    [null], [false], the empty text and NaN.  The number 0 is accepted, and
    so is every truthy value, numeric or not. *)
Definition rejected_rate (rate : JsVal) : Prop :=
  rate = JUndefined \/ rate = JNull \/ rate = JBool false
  \/ rate = JStr EmptyString
  \/ exists x, rate = JNum x /\ PrimFloat.is_nan x = true.

(** A sample that the guard lets through. *)
Definition accepted_sample (point : Sample.t) : Prop :=
  truthy (Sample.timestamp point) = true
  /\ ~ rejected_rate (Sample.rx_rate point)
  /\ ~ rejected_rate (Sample.tx_rate point).

(** The length of each look-back window in milliseconds. *)
Definition window_duration (timeRange : string) : Z :=
  switch_range timeRange
    (1 * 3600000)      (* 1h: 1 hour *)
    (6 * 3600000)      (* 6h: 6 hours *)
    (12 * 3600000)     (* 12h: 12 hours *)
    (24 * 3600000)     (* 1d: 24 hours *)
    (3 * 86400000)     (* 3d: 3 days *)
    (7 * 86400000)     (* 1w: 7 days *)
    (1 * 3600000).     (* any other label: 1 hour *)

(** A zone like New York's at the end of daylight time in 2023: four hours
    behind UTC before 2023-11-05T06:00:00Z and five hours behind from then
    on.  A local reading of the repeated hour stands for its first
    occurrence. *)
Definition offset_change : Z := 1699164000000.

Definition example_zone : Zone :=
  mkZone
    (fun t => if t <? offset_change then -14400000 else -18000000)
    (fun l => if l + 14400000 <? offset_change then l + 14400000
              else l + 18000000).

(** 2023-11-06T12:00:00Z, thirty hours after the change of offset. *)
Definition after_the_change : Z := 1699272000000.

(* ------------------------------------------------------------------ *)
(** * Worked examples: inputs and series *)

(** One server: a sample in the minute before, and three samples of the
    current minute with rx rates 10, 20 and 30. *)
Definition example_samples : list Sample.t :=
  [sample_at (example_now - 61000) (JNum 7%float) (JNum 1%float);
   sample_at (example_now - 3000) (JNum 10%float) (JNum 1%float);
   sample_at (example_now - 2000) (JNum 20%float) (JNum 2%float);
   sample_at (example_now - 1000) (JNum 30%float) (JNum 3%float)].

Definition example_series : list Point.t :=
  [Point.mk (DateAt 1699999920000) 7%float 1%float 1%nat "Nov 14, 23:12:00"%string;
   Point.mk (DateAt 1699999980000) 20%float 2%float 3%nat "Nov 14, 23:13:00"%string].

(** Two servers with samples in the same minute: the first reports twice
    (rx 5 and 15, mean 10), the second once (rx 7). *)
Definition example_servers : list (list Sample.t) :=
  [[sample_at (example_now - 1000) (JNum 5%float) (JNum 1%float);
    sample_at (example_now - 2000) (JNum 15%float) (JNum 3%float)];
   [sample_at (example_now - 2000) (JNum 7%float) (JNum 2%float)]].

Definition example_combined : list CombinedPoint.t :=
  [CombinedPoint.mk (DateAt 1699999980000) 17%float 4%float 2%nat "Nov 14, 23:13:00"%string].

(** Sixty-one samples one minute apart, the newest first: the sample
    number [i] is [i] minutes old and has the rx rate [i].  The oldest is
    exactly one hour old, which the cutoff of the 1h range still admits, so
    the samples fill 61 buckets of one minute. *)
Definition crowded_samples : list Sample.t :=
  map (fun i => sample_at (example_now - 60000 * Z.of_nat i)
                  (JNum (of_nat i)) (JNum 1%float))
    (seq 0 61).

(** The series of the 60 newest of these buckets, the oldest first. *)
Definition crowded_series : list Point.t :=
  map (fun i =>
         let t := 1699999980000 - 60000 * Z.of_nat i in
         Point.mk (DateAt t) (of_nat i) 1%float 1%nat
           (formatPattern (Host := example_host) t))
    (rev (seq 0 60)).

(** Two servers that both report the crowded samples. *)
Definition crowded_servers : list (list Sample.t) :=
  [crowded_samples; crowded_samples].

Definition crowded_combined : list CombinedPoint.t :=
  map (fun i =>
         let t := 1699999980000 - 60000 * Z.of_nat i in
         CombinedPoint.mk (DateAt t)
           (PrimFloat.add (of_nat i) (of_nat i)) 2%float 2%nat
           (formatPattern (Host := example_host) t))
    (rev (seq 0 60)).

(* ------------------------------------------------------------------ *)
(** * Declarative description of aggregateRealtimeData *)

(** A loop that sends each item selected by [sel] to the entry of its key
    when there is one, and drops it otherwise. *)
Section Filling.
Variables (K V X : Type) (eqb : K -> K -> bool).
Variables (sel : X -> option K) (upd : X -> V -> V).

Definition fstep (m : JsMap.t K V) (x : X) : JsMap.t K V :=
  match sel x with
  | None => m
  | Some k =>
      match JsMap.get eqb k m with
      | Some _ => JsMap.modify eqb k (upd x) m
      | None => m
      end
  end.

End Filling.

(** The start of the window: 15 minutes before the clock reading. *)
Definition realtime_start (clock : Z) : Z := clock - 15 * 60000.

(** The start of the [i]-th bucket created ahead of the samples: the window
    start rounded down to a multiple of 30 seconds, plus [i] times
    30 seconds. *)
Definition realtime_bucket_start (clock : Z) (i : nat) : Z :=
  realtime_start clock / 30000 * 30000 + 30000 * Z.of_nat i.

Definition realtime_bucket_keys (clock : Z) : list key :=
  map (fun i => Some (realtime_bucket_start clock i)) (seq 0 30).

Section RealtimeSpec.
Context {host : Host}.

(** The 30-second key of a sample, or [None] when the guard or the
    15-minute filter drops the sample. *)
Definition realtime_key (startTime : JsDate) (point : Sample.t) : option key :=
  if point_rejected point then None
  else
    match normalizeTimestamp (Sample.timestamp point) with
    | None => None
    | Some pointTime =>
        if date_lt pointTime startTime then None
        else Some (floor_30s (getTime pointTime))
    end.

(** The samples of [rawData] whose key is [k], in input order. *)
Definition realtime_samples (clock : Z) (rawData : list Sample.t) (k : key)
  : list Sample.t :=
  members key_eqb (realtime_key (DateAt (realtime_start clock))) k rawData.

(** The [i]-th point of the real-time series. *)
Definition realtime_point_at (clock : Z) (rawData : list Sample.t) (i : nat)
  : RealtimePoint.t :=
  let t := realtime_bucket_start clock i in
  let samples := realtime_samples clock rawData (Some t) in
  RealtimePoint.mk (DateAt t)
    (PrimFloat.add (mean_or_zero (map rx_of samples))
       (mean_or_zero (map tx_of samples)))
    (List.length samples).

End RealtimeSpec.

(* ------------------------------------------------------------------ *)
(** * Declarative description of the bucket key functions *)

(** The hour of the day, from 0 to 23, to the hour that labels its bucket:
    [Math.floor(Math.floor(h / 1.2) * 1.2)] for the 3d range and
    [Math.floor(Math.floor(h / 2.8) * 2.8)] for the 1w range. *)
Definition hours_3d : list Z :=
  [0; 0; 1; 2; 3; 4; 6; 6; 7; 8; 9; 10; 12; 12; 13; 14; 15; 16; 18; 18; 19; 20; 21; 22].

Definition hours_1w : list Z :=
  [0; 0; 0; 2; 2; 2; 5; 5; 5; 8; 8; 8; 11; 11; 14; 14; 14; 16; 16; 16; 19; 19; 19; 22].

Section BucketKeySpec.
Context {host : Host}.

(** The instant [t] rounded down to a multiple of [width] milliseconds of
    local time. *)
Definition window_floor (width t : Z) : Z :=
  (t + tzOffset) / width * width - tzOffset.

Definition local_minute (t : Z) : Z := ((t + tzOffset) / 60000) mod 60.
Definition local_hour (t : Z) : Z := ((t + tzOffset) / 3600000) mod 24.

End BucketKeySpec.

(** Checks, by evaluation, that the floating-point [Math.floor(m / w) * w]
    is the integer [m / w * w], and that the hour computed for [h] is the
    entry of [table]. *)
Definition minutes_checked (w : Z) (m : Z) : bool :=
  match to_Z (floor_multiple (of_Z m) (of_Z w)) with
  | Some r => r =? m / w * w
  | None => false
  end.

Definition hours_checked (w : num) (table : list Z) (h : Z) : bool :=
  match to_Z (Math_floor (floor_multiple (of_Z h) w)) with
  | Some r => r =? nth (Z.to_nat h) table 0
  | None => false
  end.

(* ------------------------------------------------------------------ *)
(** * Declarative description of standardization and of the bucket starts *)

(** The standardization interval of a range, in milliseconds. *)
Definition standard_interval (timeRange : string) : Z :=
  switch_range timeRange 5000 5000 30000 30000 60000 60000 5000.

(** An upper bound, in milliseconds, on the distance from an instant back
    to the start of its bucket. *)
Definition bucket_span (timeRange : string) : Z :=
  switch_range timeRange 60000 360000 720000 1440000 7200000 14400000 60000.

(** Checks, by evaluation, that the hour [k] a table gives for [h] lies at
    most [span] hours back ([k <= h < k + span]) and that the table does
    not decrease. *)
Definition hour_table_bounded (table : list Z) (span : Z) (h : Z) : bool :=
  let k := nth (Z.to_nat h) table 0 in
  (0 <=? k) && (k <=? h) && (h <? k + span).

Definition hour_table_monotone (table : list Z) (h : Z) : bool :=
  forallb (fun h' => (h' <? h) || (nth (Z.to_nat h) table 0 <=? nth (Z.to_nat h') table 0))
    (map Z.of_nat (seq 0 24)).

Section BucketStartSpec.
Context {host : Host}.

(** The start of the bucket of the instant [t]. *)
Definition bucket_start (timeRange : string) (t : Z) : Z :=
  switch_range timeRange
    (window_floor 60000 t)
    (window_floor 360000 t)
    (window_floor 720000 t)
    (window_floor 3600000 t + local_minute t / 24 * 1440000)
    (window_floor 86400000 t + nth (Z.to_nat (local_hour t)) hours_3d 0 * 3600000)
    (window_floor 86400000 t + nth (Z.to_nat (local_hour t)) hours_1w 0 * 3600000)
    (window_floor 60000 t).

(** Whether a sample is kept: it passes the guard and the cutoff filter. *)
Definition kept (timeRange : string) (cutoffTime : JsDate) (point : Sample.t) : bool :=
  match sample_key timeRange cutoffTime point with
  | Some _ => true
  | None => false
  end.

End BucketStartSpec.

(* ------------------------------------------------------------------ *)
(** * Further declarative descriptions *)

(** The combined point of a single server, from the point of its own
    series: the totals are the rates added to the initial 0. *)
Definition single_server_point (p : Point.t) : CombinedPoint.t :=
  CombinedPoint.mk (Point.timestamp p)
    (PrimFloat.add zero (Point.rx_rate p))
    (PrimFloat.add zero (Point.tx_rate p))
    1%nat
    (Point.timestamp_formatted p).

Section FurtherSpec.
Context {host : Host}.

(** Whether a sample belongs to the [i]-th real-time bucket: it passes the
    guard, its normalized time is a valid instant not before the window
    start, and that instant lies in the 30 seconds from the bucket start. *)
Definition in_realtime_bucket (clock : Z) (i : nat) (point : Sample.t) : bool :=
  negb (point_rejected point)
  && match normalizeTimestamp (Sample.timestamp point) with
     | Some (DateAt t) =>
         (realtime_start clock <=? t)
         && (realtime_bucket_start clock i <=? t)
         && (t <? realtime_bucket_start clock i + 30000)
     | _ => false
     end.

(** The sample as [getServerHistory] hands it on: the timestamp replaced by
    its normalized value, a [Date] or [null]. *)
Definition history_sample (point : Sample.t) : Sample.t :=
  Sample.mk
    (match normalizeTimestamp (Sample.timestamp point) with
     | Some d => JDate d
     | None => JNull
     end)
    (Sample.rx_rate point)
    (Sample.tx_rate point).

End FurtherSpec.

(* ------------------------------------------------------------------ *)
(** * The range sent to the backend and its reading there *)

(** [getBackendTimeRange]: the [range] query parameter of the history
    request for a displayed range. *)
Definition getBackendTimeRange (frontendTimeRange : string) : string :=
  switch_range frontendTimeRange
    "75m"%string "8h"%string "15h"%string "30h"%string "4d"%string
    "10d"%string "75m"%string.

(** [getBackendLimit]: the [limit] query parameter. *)
Definition getBackendLimit (timeRange : string) : nat :=
  (switch_range timeRange 900 600 800 1440 720 840 900)%nat.

(** [\d]: an ASCII digit. *)
Definition is_digit (c : ascii) : bool :=
  ((48 <=? nat_of_ascii c) && (nat_of_ascii c <=? 57))%nat.

(** [[hdmwy]] *)
Definition is_unit (c : ascii) : bool :=
  (Ascii.eqb c "h" || Ascii.eqb c "d" || Ascii.eqb c "m"
   || Ascii.eqb c "w" || Ascii.eqb c "y")%char.

(** The longest prefix of digits and what follows it. *)
Fixpoint leading_digits (s : string) : string * string :=
  match s with
  | EmptyString => (EmptyString, EmptyString)
  | String c rest =>
      if is_digit c then
        let (digits, tail) := leading_digits rest in (String c digits, tail)
      else (EmptyString, s)
  end.

(** [range.match(/^(\d+)([hdmwy])$/)]: the two groups of the match, [None]
    for no match.  No unit letter is a digit, so the greedy [\d+] never has
    to give a character back. *)
Definition match_range (range : string) : option (string * ascii) :=
  match leading_digits range with
  | (String d digits, String unit EmptyString) =>
      if is_unit unit then Some (String d digits, unit) else None
  | _ => None
  end.

(** The integer written by a string of digits. *)
Definition decimal_value (digits : string) : Z :=
  fold_left (fun acc c => 10 * acc + (Z.of_nat (nat_of_ascii c) - 48))
    (list_ascii_of_string digits) 0.

(** The number nearest to a non-negative integer (ties to even, infinity
    beyond the largest finite number). *)
Definition nearest_num (z : Z) : num :=
  SF2Prim (binary_normalize prec emax z 0 false).

(** [parseInt(digits)] on a non-empty string of digits. *)
Definition parseInt_digits (digits : string) : num :=
  nearest_num (decimal_value digits).

(** [parseTimeRangeToHours(range)] of the backend; [None] is a missing
    query parameter. *)
Definition parseTimeRangeToHours (range : option string) : num :=
  match range with
  | None => 24%float
  | Some EmptyString => 24%float
  | Some s =>
      match match_range s with
      | None => 24%float
      | Some (digits, unit) =>
          let value := parseInt_digits digits in
          (if Ascii.eqb unit "h" then value
           else if Ascii.eqb unit "d" then PrimFloat.mul value 24%float
           else if Ascii.eqb unit "w"
                then PrimFloat.mul (PrimFloat.mul value 24%float) 7%float
           else if Ascii.eqb unit "m"
                then PrimFloat.mul (PrimFloat.mul value 24%float) 30%float
           else if Ascii.eqb unit "y"
                then PrimFloat.mul (PrimFloat.mul value 24%float) 365%float
           else 24%float)%char
      end
  end.

(** The hours the backend looks back for the history request of a
    displayed range. *)
Definition backend_hours (timeRange : string) : Z :=
  switch_range timeRange 54000 8 15 30 96 240 54000.

(* ------------------------------------------------------------------ *)
(** * apiService: errors, the response interceptor and retryRequest *)

Module JsError.
(** What the code reads of a thrown error: its [code] property ([None]
    when the error has none) and its message. *)
Record t : Type := mk {
  code : option string;
  message : string
}.
End JsError.

Module Response.
(** [error.response]: the status and [data?.message] ([None] when [data] or
    its message is missing). *)
Record t : Type := mk {
  status : Z;
  data_message : option string
}.
End Response.

Module AxiosError.
(** The error handed to the response interceptor; [request] tells whether
    [error.request] is set. *)
Record t : Type := mk {
  code : option string;
  message : string;
  response : option Response.t;
  request : bool
}.
End AxiosError.

(** [new Error(message)]: it has no [code] property. *)
Definition new_Error (message : string) : JsError.t :=
  JsError.mk None message.

(** [`${status}`] of an integer status. *)
Definition status_text (status : Z) : string :=
  DecimalString.NilZero.string_of_int (Z.to_int status).

(** [error.code === 'ECONNABORTED'] *)
Definition code_is_ECONNABORTED (code : option string) : bool :=
  match code with
  | Some c => String.eqb c "ECONNABORTED"
  | None => false
  end.

(** The rejection handler of [apiClient.interceptors.response]: the error
    that a failed [apiClient.get] rejects with. *)
Definition response_interceptor (error : AxiosError.t) : JsError.t :=
  if code_is_ECONNABORTED (AxiosError.code error) then
    new_Error "Request timeout - server took too long to respond"
  else
    match AxiosError.response error with
    | Some r =>
        new_Error
          ("Server error (" ++ status_text (Response.status r) ++ "): "
           ++ match Response.data_message r with
              | Some m => if String.eqb m EmptyString then "Unknown error" else m
              | None => "Unknown error"
              end)
    | None =>
        if AxiosError.request error then
          new_Error "Network error - unable to connect to server"
        else new_Error ("Request failed: " ++ AxiosError.message error)
    end.

(** What one call of [requestFn] does: it returns a value or throws. *)
Inductive outcome (A E : Type) : Type :=
| Returns (a : A)
| Fails (error : E).

Arguments Returns {A E} a.
Arguments Fails {A E} error.

(** How the promise of [retryRequest] settles: [Fulfilled (Some a)] with
    the value [a] that the request function returned (which may itself be
    [undefined]), [Fulfilled None] with the [undefined] of falling out of
    the loop, [Rejected error] with the error thrown. *)
Inductive settled (A : Type) : Type :=
| Fulfilled (value : option A)
| Rejected (error : JsError.t).

Arguments Fulfilled {A} value.
Arguments Rejected {A} error.

(** A run of [retryRequest]: the settlement, the number of calls of
    [requestFn] and the waits between them in milliseconds. *)
Record run (A : Type) : Type := mk_run {
  settlement : settled A;
  calls : nat;
  waits : list num
}.

(** The request functions handed to [retryRequest] await [apiClient.get]
    and return [response.data]: their errors come from the interceptor. *)
Definition through_client {A} (attempt : nat -> outcome A AxiosError.t)
  : nat -> outcome A JsError.t :=
  fun i =>
    match attempt i with
    | Returns a => Returns a
    | Fails error => Fails (response_interceptor error)
    end.

(** The loop of [retryRequest] from index [i] on, with [remaining]
    iterations left before [i < retries] fails.  [requestFn i] is the
    outcome of the call made in iteration [i]. *)
Fixpoint retry_loop {A} (requestFn : nat -> outcome A JsError.t)
  (retries : Z) (remaining : nat) (i : nat) (delay : num) : run A :=
  match remaining with
  | O => mk_run (Fulfilled None) 0 []
  | S rest =>
      match requestFn i with
      | Returns a => mk_run (Fulfilled (Some a)) 1 []
      | Fails error =>
          if code_is_ECONNABORTED (JsError.code error) && (0 <? Z.of_nat i)
          then mk_run (Rejected error) 1 []
          else if Z.of_nat i =? retries - 1
          then mk_run (Rejected error) 1 []
          else
            let later :=
              retry_loop requestFn retries rest (S i)
                (PrimFloat.mul delay 1.5%float) in
            mk_run (settlement later) (S (calls later)) (delay :: waits later)
      end
  end.

(** [retryRequest(requestFn, retries, delay)] for an integer [retries]. *)
Definition retryRequest {A} (requestFn : nat -> outcome A JsError.t)
  (retries : Z) (delay : num) : run A :=
  retry_loop requestFn retries (Z.to_nat retries) 0 delay.

(** The first [n] waits: [delay], then 1.5 times the one before. *)
Fixpoint backoff (delay : num) (n : nat) : list num :=
  match n with
  | O => []
  | S n' => delay :: backoff (PrimFloat.mul delay 1.5%float) n'
  end.

(** An error that the loop answers by waiting and trying again: not a
    timeout after the first attempt. *)
Definition retried_at (i : nat) (error : JsError.t) : bool :=
  negb (code_is_ECONNABORTED (JsError.code error) && (0 <? Z.of_nat i)).

(* ------------------------------------------------------------------ *)
(** * apiService.formatTimestamp *)

Section FormatTimestamp.
Context {host : Host}.

(** [formatTimestamp(timestamp)] with the default pattern
    ['MMM dd, HH:mm:ss'], which has no time-zone token, so that
    date-fns-tz [format] is date-fns [format]. *)
Definition formatTimestamp (timestamp : JsVal) : result string :=
  match normalizeTimestamp timestamp with
  | None => Ok "Unknown"%string
  | Some normalized => format normalized
  end.

End FormatTimestamp.

(** Whether every character is a digit. *)
Fixpoint all_digits (s : string) : bool :=
  match s with
  | EmptyString => true
  | String c rest => is_digit c && all_digits rest
  end.

(** The loop invariant of [retryRequest]: no iteration is left, or the
    index and the iterations left add up to [retries]. *)
Definition in_step (retries : Z) (remaining i : nat) : Prop :=
  remaining = O \/ Z.of_nat i + Z.of_nat remaining = retries.

(** Example errors and request functions. *)
Definition timeout_error : JsError.t :=
  JsError.mk (Some "ECONNABORTED"%string) "timeout of 30000ms exceeded".

Definition other_error : JsError.t :=
  JsError.mk None "Network Error".

(** A timeout, then the value 7. *)
Definition timeout_then_value (i : nat) : outcome nat JsError.t :=
  match i with
  | O => Fails timeout_error
  | _ => Returns 7%nat
  end.

(** An error without code, then timeouts. *)
Definition error_then_timeouts (i : nat) : outcome nat JsError.t :=
  match i with
  | O => Fails other_error
  | _ => Fails timeout_error
  end.

(** Every request through the client times out. *)
Definition client_timeouts (i : nat) : outcome nat AxiosError.t :=
  Fails (AxiosError.mk (Some "ECONNABORTED"%string)
           "timeout of 30000ms exceeded" None true).

(* ------------------------------------------------------------------ *)
(** * apiService.getAllData *)

Module AllData.
(** The object [{ servers, aggregate }]. *)
Record t (Server Aggregate : Type) : Type := mk {
  servers : list Server;
  aggregate : Aggregate
}.
End AllData.

(** [reason?.message || 'Unknown error'] *)
Definition reason_message (reason : JsError.t) : string :=
  if String.eqb (JsError.message reason) EmptyString then "Unknown error"
  else JsError.message reason.

Section GetAllData.
Variables Server Aggregate : Type.
(** The object [{ total_rx: 0, total_tx: 0, server_count: 0 }]. *)
Variable empty_aggregate : Aggregate.

(** [getAllData], from the two results of [Promise.allSettled]: how
    [getServers] and [getAggregate] settled. *)
Definition getAllData (serversResult : outcome (list Server) JsError.t)
  (aggregateResult : outcome Aggregate JsError.t)
  : outcome (AllData.t Server Aggregate) JsError.t :=
  let servers :=
    match serversResult with Returns value => value | Fails _ => [] end in
  let aggregate :=
    match aggregateResult with
    | Returns value => value
    | Fails _ => empty_aggregate
    end in
  let body : outcome (AllData.t Server Aggregate) JsError.t :=
    match serversResult, aggregateResult with
    | Fails reason, Fails _ =>
        Fails (new_Error ("Failed to fetch data: " ++ reason_message reason))
    | _, _ => Returns (AllData.mk servers aggregate)
    end in
  match body with
  | Returns value => Returns value
  | Fails error =>
      Fails (new_Error ("Failed to fetch data: " ++ JsError.message error))
  end.

End GetAllData.

(* ================================================================== *)
(** * Proofs *)

(* ------------------------------------------------------------------ *)
(** * Facts on maps and grouping *)

Section GroupingFacts.
Variables (K V X : Type) (eqb : K -> K -> bool).
Hypothesis eqb_spec : forall a b, reflect (a = b) (eqb a b).
Variables (sel : X -> option K) (init : K -> V) (upd : X -> V -> V).

Lemma eqb_refl_true (k : K) : eqb k k = true.
Proof. destruct (eqb_spec k k); congruence. Qed.

Lemma mem_In (k : K) (ks : list K) : mem eqb k ks = true <-> In k ks.
Proof.
  unfold mem. rewrite existsb_exists. split.
  - intros [k' [Hin Hk]]. destruct (eqb_spec k k'); congruence.
  - intros Hin. exists k. split; [assumption | apply eqb_refl_true].
Qed.

(** Operations on a map given as a function tabulated over its keys. *)
Lemma has_tabulated (g : K -> V) (k : K) (ks : list K) :
  JsMap.has eqb k (map (fun k' => (k', g k')) ks) = mem eqb k ks.
Proof.
  induction ks as [|k' ks IH]; simpl; [reflexivity|].
  destruct (eqb k k'); simpl; [reflexivity | exact IH].
Qed.

Lemma set_tabulated_new (g : K -> V) (k : K) (v : V) (ks : list K) :
  mem eqb k ks = false ->
  JsMap.set eqb k v (map (fun k' => (k', g k')) ks)
  = map (fun k' => (k', g k')) ks ++ [(k, v)].
Proof.
  induction ks as [|k' ks IH]; simpl; [reflexivity|].
  destruct (eqb k k'); simpl; [discriminate|].
  intros Hm. rewrite IH by assumption. reflexivity.
Qed.

Lemma modify_app_absent (f : V -> V) (k : K) (m m' : JsMap.t K V) :
  JsMap.has eqb k m = false ->
  JsMap.modify eqb k f (m ++ m') = m ++ JsMap.modify eqb k f m'.
Proof.
  induction m as [|[k' v] m IH]; simpl; [reflexivity|].
  destruct (eqb k k'); [discriminate|].
  intros Hm. rewrite IH by assumption. reflexivity.
Qed.

Lemma modify_tabulated (g g' : K -> V) (f : V -> V) (k : K) (ks : list K) :
  NoDup ks ->
  g' k = f (g k) ->
  (forall k', k' <> k -> g' k' = g k') ->
  JsMap.modify eqb k f (map (fun k' => (k', g k')) ks)
  = map (fun k' => (k', g' k')) ks.
Proof.
  intros Hnd Hk Hother. induction ks as [|k' ks IH]; simpl; [reflexivity|].
  inversion Hnd as [|? ? Hnotin Hnd']; subst.
  destruct (eqb_spec k k') as [->|Hne].
  - rewrite Hk. f_equal. apply map_ext_in. intros a Ha.
    rewrite Hother; [reflexivity|]. intros ->. contradiction.
  - rewrite IH by assumption. rewrite Hother by congruence. reflexivity.
Qed.

Lemma first_keys_snoc (l : list X) (x : X) :
  first_keys eqb sel (l ++ [x]) = note_key eqb sel (first_keys eqb sel l) x.
Proof. unfold first_keys. rewrite fold_left_app. reflexivity. Qed.

Lemma first_keys_NoDup (l : list X) : NoDup (first_keys eqb sel l).
Proof.
  induction l as [|x l IH] using rev_ind; [constructor|].
  rewrite first_keys_snoc. unfold note_key.
  destruct (sel x) as [k|]; [|assumption].
  destruct (mem eqb k (first_keys eqb sel l)) eqn:Hm; [assumption|].
  apply NoDup_app; [assumption | repeat constructor; intros [] | ].
  intros a Ha [<-|[]]. apply mem_In in Ha. congruence.
Qed.

Lemma first_keys_In (l : list X) (k : K) :
  In k (first_keys eqb sel l) <-> exists x, In x l /\ sel x = Some k.
Proof.
  induction l as [|x l IH] using rev_ind.
  - simpl. split; [intros [] | intros [x [[] _]]].
  - rewrite first_keys_snoc. unfold note_key.
    assert (Hsplit : (exists y, In y (l ++ [x]) /\ sel y = Some k)
                     <-> (exists y, In y l /\ sel y = Some k) \/ sel x = Some k).
    { split.
      - intros [y [Hy Hs]]. apply in_app_or in Hy. destruct Hy as [Hy|[<-|[]]].
        + left. exists y. auto.
        + right. assumption.
      - intros [[y [Hy Hs]]|Hs].
        + exists y. split; [apply in_or_app; auto | assumption].
        + exists x. split; [apply in_or_app; simpl; auto | assumption]. }
    rewrite Hsplit, <- IH. clear Hsplit IH.
    destruct (sel x) as [k'|].
    + destruct (mem eqb k' (first_keys eqb sel l)) eqn:Hm.
      * split; [auto|]. intros [H|H]; [assumption|].
        injection H as ->. apply mem_In. assumption.
      * rewrite in_app_iff. simpl. split.
        -- intros [H|[->|[]]]; auto.
        -- intros [H|H]; [auto|]. injection H as ->. auto.
    + split; [auto|]. intros [H|H]; [assumption | discriminate].
Qed.

Lemma members_snoc (k : K) (l : list X) (x : X) :
  members eqb sel k (l ++ [x])
  = members eqb sel k l ++ (if selects eqb sel k x then [x] else []).
Proof. unfold members. rewrite filter_app. reflexivity. Qed.

Lemma group_snoc (k : K) (l : list X) (x : X) :
  group eqb sel init upd k (l ++ [x])
  = if selects eqb sel k x then upd x (group eqb sel init upd k l)
    else group eqb sel init upd k l.
Proof.
  unfold group. rewrite members_snoc.
  destruct (selects eqb sel k x).
  - rewrite fold_left_app. reflexivity.
  - rewrite app_nil_r. reflexivity.
Qed.

Lemma filter_none (A : Type) (f : A -> bool) (l : list A) :
  (forall x, In x l -> f x = false) -> filter f l = [].
Proof.
  induction l as [|a l IH]; simpl; [reflexivity|].
  intros Hall. rewrite (Hall a) by auto. apply IH. auto.
Qed.

Lemma members_absent (k : K) (l : list X) :
  mem eqb k (first_keys eqb sel l) = false -> members eqb sel k l = [].
Proof.
  intros Hm. apply filter_none. intros x Hx.
  unfold selects. destruct (sel x) as [k'|] eqn:Hs; [|reflexivity].
  destruct (eqb_spec k k') as [->|]; [|reflexivity].
  assert (In k' (first_keys eqb sel l)) by (apply first_keys_In; eauto).
  apply mem_In in H. congruence.
Qed.

Lemma group_absent (k : K) (l : list X) :
  mem eqb k (first_keys eqb sel l) = false ->
  group eqb sel init upd k l = init k.
Proof. intros Hm. unfold group. rewrite members_absent by assumption. reflexivity. Qed.

(** The loop builds the grouped map. *)
Lemma fold_gstep_grouped (l : list X) :
  fold_left (gstep eqb sel init upd) l [] = grouped eqb sel init upd l.
Proof.
  induction l as [|x l IH] using rev_ind; [reflexivity|].
  rewrite fold_left_app. simpl. rewrite IH. clear IH.
  unfold grouped. rewrite first_keys_snoc.
  unfold gstep, note_key.
  destruct (sel x) as [k|] eqn:Hsel.
  - rewrite has_tabulated.
    destruct (mem eqb k (first_keys eqb sel l)) eqn:Hm.
    + apply modify_tabulated.
      * apply first_keys_NoDup.
      * rewrite group_snoc. unfold selects. rewrite Hsel, eqb_refl_true. reflexivity.
      * intros k' Hne. rewrite group_snoc. unfold selects. rewrite Hsel.
        destruct (eqb_spec k' k); [contradiction | reflexivity].
    + rewrite set_tabulated_new by assumption.
      rewrite modify_app_absent by (rewrite has_tabulated; assumption).
      rewrite map_app. simpl. rewrite eqb_refl_true. f_equal.
      * apply map_ext_in. intros k' Hk'. rewrite group_snoc. unfold selects.
        rewrite Hsel. destruct (eqb_spec k' k) as [->|]; [|reflexivity].
        apply mem_In in Hk'. congruence.
      * rewrite group_snoc. unfold selects. rewrite Hsel, eqb_refl_true.
        rewrite group_absent by assumption. reflexivity.
  - apply map_ext. intros k. rewrite group_snoc. unfold selects. rewrite Hsel. reflexivity.
Qed.

End GroupingFacts.

(* ------------------------------------------------------------------ *)
(** * Facts on sorting *)

Section SortFacts.
Variable A : Type.

Lemma insert_sorted_perm (le : A -> A -> bool) (x : A) (l : list A) :
  Permutation (insert_sorted le x l) (x :: l).
Proof.
  induction l as [|y l IH]; simpl; [reflexivity|].
  destruct (le x y); [reflexivity|].
  rewrite IH. apply perm_swap.
Qed.

Lemma sort_perm (le : A -> A -> bool) (l : list A) : Permutation (sort le l) l.
Proof.
  induction l as [|x l IH]; simpl; [reflexivity|].
  rewrite insert_sorted_perm. constructor. exact IH.
Qed.

Lemma insert_sorted_ext (le le' : A -> A -> bool) (x : A) (l : list A) :
  (forall b, In b l -> le x b = le' x b) ->
  insert_sorted le x l = insert_sorted le' x l.
Proof.
  induction l as [|y l IH]; simpl; [reflexivity|].
  intros Hext. rewrite (Hext y) by auto.
  destruct (le' x y); [reflexivity|]. f_equal. apply IH. auto.
Qed.

Lemma sort_ext_in (le le' : A -> A -> bool) (l : list A) :
  (forall a b, In a l -> In b l -> le a b = le' a b) ->
  sort le l = sort le' l.
Proof.
  induction l as [|x l IH]; simpl; [reflexivity|].
  intros Hext. rewrite <- IH by auto.
  apply insert_sorted_ext. intros b Hb. apply Hext; [auto|].
  right. apply (Permutation_in _ (sort_perm le l)). exact Hb.
Qed.

Lemma insert_sorted_map (B : Type) (g : B -> A) (le : A -> A -> bool) (x : B) (l : list B) :
  insert_sorted le (g x) (map g l)
  = map g (insert_sorted (fun a b => le (g a) (g b)) x l).
Proof.
  induction l as [|y l IH]; simpl; [reflexivity|].
  destruct (le (g x) (g y)); simpl; [reflexivity|]. rewrite IH. reflexivity.
Qed.

Lemma sort_map (B : Type) (g : B -> A) (le : A -> A -> bool) (l : list B) :
  sort le (map g l) = map g (sort (fun a b => le (g a) (g b)) l).
Proof.
  induction l as [|x l IH]; simpl; [reflexivity|].
  rewrite IH. apply insert_sorted_map.
Qed.

End SortFacts.

Lemma insert_sorted_Z_sorted (x : Z) (l : list Z) :
  StronglySorted Z.le l -> StronglySorted Z.le (insert_sorted Z.leb x l).
Proof.
  induction l as [|y l IH]; simpl; intros Hs.
  - repeat constructor.
  - inversion Hs as [|? ? Hs' Hall]; subst.
    destruct (Z.leb_spec x y).
    + constructor; [assumption|]. constructor; [assumption|].
      eapply Forall_impl; [|exact Hall]. simpl. intros; lia.
    + constructor; [auto|].
      apply (Permutation_Forall (Permutation_sym (insert_sorted_perm Z.leb x l))).
      constructor; [lia | assumption].
Qed.

Lemma sort_Z_sorted (l : list Z) : StronglySorted Z.le (sort Z.leb l).
Proof.
  induction l as [|x l IH]; simpl; [constructor|].
  apply insert_sorted_Z_sorted, IH.
Qed.

Lemma sorted_Z_unique (l l' : list Z) :
  StronglySorted Z.le l -> StronglySorted Z.le l' -> Permutation l l' -> l = l'.
Proof.
  revert l'. induction l as [|x l IH]; intros l' Hs Hs' Hp.
  - apply Permutation_nil in Hp. congruence.
  - destruct l' as [|y l'].
    + apply Permutation_sym, Permutation_nil in Hp. discriminate.
    + inversion Hs as [|? ? Hsl Hx]; subst.
      inversion Hs' as [|? ? Hsl' Hy]; subst.
      assert (x = y).
      { assert (Hinx : In x (y :: l')) by (apply (Permutation_in _ Hp); simpl; auto).
        assert (Hiny : In y (x :: l))
          by (apply (Permutation_in _ (Permutation_sym Hp)); simpl; auto).
        rewrite Forall_forall in Hx, Hy.
        destruct Hinx as [->|Hinx]; [reflexivity|].
        destruct Hiny as [->|Hiny]; [reflexivity|].
        specialize (Hx _ Hiny). specialize (Hy _ Hinx). lia. }
      subst y. f_equal. apply IH; [assumption..|].
      eapply Permutation_cons_inv. exact Hp.
Qed.

Lemma sort_Z_perm_eq (l l' : list Z) :
  Permutation l l' -> sort Z.leb l = sort Z.leb l'.
Proof.
  intros Hp. apply sorted_Z_unique; try apply sort_Z_sorted.
  rewrite (sort_perm Z.leb l), (sort_perm Z.leb l'). exact Hp.
Qed.

Lemma sorted_NoDup_strict (l : list Z) :
  StronglySorted Z.le l -> NoDup l -> StronglySorted Z.lt l.
Proof.
  induction 1 as [|x l Hs IH Hall]; intros Hnd; [constructor|].
  inversion Hnd as [|? ? Hnotin Hnd']; subst.
  constructor; [auto|].
  rewrite Forall_forall in *. intros y Hy.
  specialize (Hall y Hy). assert (x <> y) by (intros ->; contradiction). lia.
Qed.

Lemma sort_Z_strict (l : list Z) : NoDup l -> StronglySorted Z.lt (sort Z.leb l).
Proof.
  intros Hnd. apply sorted_NoDup_strict; [apply sort_Z_sorted|].
  apply (Permutation_NoDup (Permutation_sym (sort_perm Z.leb l))). exact Hnd.
Qed.

Lemma StronglySorted_skipn (A : Type) (R : A -> A -> Prop) (n : nat) (l : list A) :
  StronglySorted R l -> StronglySorted R (skipn n l).
Proof.
  revert l. induction n as [|n IH]; intros l Hs; [exact Hs|].
  destruct l as [|x l]; [constructor|]. simpl. apply IH.
  inversion Hs; assumption.
Qed.

(* ------------------------------------------------------------------ *)
(** * aggregateDataByTime builds one point per bucket *)

Lemma key_eqb_spec (a b : key) : reflect (a = b) (key_eqb a b).
Proof.
  destruct a as [x|], b as [y|]; simpl; try (constructor; congruence).
  destruct (Z.eqb_spec x y); constructor; congruence.
Qed.

Lemma Date_of_time_getTime (d : JsDate) : Date_of_time (getTime d) = d.
Proof. destruct d; reflexivity. Qed.

Lemma fold_left_ext_fun (A B : Type) (f g : A -> B -> A) (l : list B) (a : A) :
  (forall a b, f a b = g a b) -> fold_left f l a = fold_left g l a.
Proof.
  intros Hext. revert a. induction l as [|b l IH]; intros a; simpl; [reflexivity|].
  rewrite Hext. apply IH.
Qed.

Lemma all_valid_map_Some (ks : list key) (ts : list Z) :
  all_valid ks = Some ts -> ks = map Some ts.
Proof.
  revert ts. induction ks as [|[t|] ks IH]; simpl; intros ts Hv.
  - injection Hv as <-. reflexivity.
  - destruct (all_valid ks) as [ts'|]; [|discriminate].
    injection Hv as <-. simpl. f_equal. apply IH. reflexivity.
  - discriminate.
Qed.

Lemma all_valid_NoDup (ks : list key) (ts : list Z) :
  all_valid ks = Some ts -> NoDup ks -> NoDup ts.
Proof.
  intros Hv Hnd. apply all_valid_map_Some in Hv. subst ks.
  eapply NoDup_map_inv. exact Hnd.
Qed.

Lemma all_valid_perm (ks ks' : list key) (ts : list Z) :
  Permutation ks ks' -> all_valid ks = Some ts ->
  exists ts', all_valid ks' = Some ts' /\ Permutation ts ts'.
Proof.
  intros Hp. revert ts. induction Hp; intros ts Hv.
  - exists ts. auto.
  - destruct x as [t|]; simpl in *; [|discriminate].
    destruct (all_valid l) as [ts0|]; [|discriminate]. injection Hv as <-.
    destruct (IHHp ts0 eq_refl) as [ts' [-> Hp']].
    exists (t :: ts'). auto.
  - destruct x as [a|], y as [b|]; simpl in *; try discriminate;
      destruct (all_valid l) as [ts0|]; try discriminate.
    injection Hv as <-.
    exists (a :: b :: ts0). split; [reflexivity | apply perm_swap].
  - destruct (IHHp1 ts Hv) as [ts1 [Hv1 Hp1']].
    destruct (IHHp2 ts1 Hv1) as [ts2 [Hv2 Hp2']].
    exists ts2. split; [assumption | etransitivity; eassumption].
Qed.

Section AggregationFacts.
Context {host : Host}.

Lemma collect_point_gstep (timeRange : string) (cutoffTime : JsDate)
  (buckets : JsMap.t key Bucket.t) (point : Sample.t) :
  collect_point timeRange cutoffTime buckets point
  = gstep key_eqb (sample_key timeRange cutoffTime) empty_bucket push_sample
      buckets point.
Proof.
  unfold collect_point, gstep, sample_key, empty_bucket.
  destruct (point_rejected point); [reflexivity|].
  destruct (bucket_time_of timeRange cutoffTime point) as [bucketTime|]; simpl;
    [|reflexivity].
  rewrite Date_of_time_getTime. reflexivity.
Qed.

Lemma fold_push_sample (samples : list Sample.t) (bucket : Bucket.t) :
  fold_left (fun b p => push_sample p b) samples bucket
  = Bucket.mk (Bucket.timestamp bucket)
      (Bucket.rx_values bucket ++ map rx_of samples)
      (Bucket.tx_values bucket ++ map tx_of samples)
      (Bucket.count bucket + List.length samples).
Proof.
  revert bucket. induction samples as [|p samples IH]; intros bucket; simpl.
  - rewrite !app_nil_r, Nat.add_0_r. destruct bucket; reflexivity.
  - rewrite IH. unfold push_sample. simpl. rewrite <- !app_assoc. simpl.
    f_equal. lia.
Qed.

Lemma group_bucket (timeRange : string) (cutoffTime : JsDate)
  (rawData : list Sample.t) (k : key) :
  group key_eqb (sample_key timeRange cutoffTime) empty_bucket push_sample k rawData
  = let samples := bucket_samples timeRange cutoffTime rawData k in
    Bucket.mk (Date_of_time k) (map rx_of samples) (map tx_of samples)
      (List.length samples).
Proof. unfold group. rewrite fold_push_sample. reflexivity. Qed.

Lemma collected_buckets (timeRange : string) (cutoffTime : JsDate)
  (rawData : list Sample.t) :
  fold_left (collect_point timeRange cutoffTime) rawData []
  = grouped key_eqb (sample_key timeRange cutoffTime) empty_bucket push_sample rawData.
Proof.
  rewrite <- (fold_gstep_grouped key_eqb key_eqb_spec).
  apply fold_left_ext_fun. apply collect_point_gstep.
Qed.

Lemma bucket_points (timeRange : string) (cutoffTime : JsDate)
  (rawData : list Sample.t) (ks : list key) :
  map_throwing bucket_point
    (map (fun k => group key_eqb (sample_key timeRange cutoffTime) empty_bucket
                     push_sample k rawData) ks)
  = match all_valid ks with
    | None => Throw
    | Some ts => Ok (map (point_at timeRange cutoffTime rawData) ts)
    end.
Proof.
  induction ks as [|[t|] ks IH]; simpl; [reflexivity| |].
  - rewrite IH, group_bucket. unfold bucket_point. simpl.
    destruct (all_valid ks); reflexivity.
  - rewrite group_bucket. reflexivity.
Qed.

(** The sorted series in terms of the input: one point per distinct bucket
    key, in ascending order; an exception when a kept sample has an invalid
    time. *)
Lemma aggregatedData_spec (now : Z) (rawData : list Sample.t) (timeRange : string) :
  aggregatedData now rawData timeRange
  = let cutoffTime := getTimeRangeCutoff (DateAt now) timeRange in
    match all_valid (bucket_keys timeRange cutoffTime rawData) with
    | None => Throw
    | Some ts => Ok (map (point_at timeRange cutoffTime rawData) (sort Z.leb ts))
    end.
Proof.
  unfold aggregatedData. simpl. rewrite collected_buckets.
  unfold grouped, JsMap.values. rewrite map_map. simpl.
  rewrite bucket_points. unfold bucket_keys.
  destruct (all_valid _) as [ts|]; [|reflexivity]. simpl. f_equal.
  rewrite sort_map. f_equal. apply sort_ext_in. intros a b _ _. simpl.
  destruct (Z.leb_spec (a - b) 0), (Z.leb_spec a b); try reflexivity; lia.
Qed.

End AggregationFacts.

(* ------------------------------------------------------------------ *)
(** * aggregateCombinedServerData builds one point per bucket *)

Section MapFacts.
Variables (K V : Type) (eqb : K -> K -> bool).
Hypothesis eqb_spec : forall a b, reflect (a = b) (eqb a b).

Lemma set_absent (k : K) (v : V) (m : JsMap.t K V) :
  JsMap.has eqb k m = false -> JsMap.set eqb k v m = m ++ [(k, v)].
Proof.
  induction m as [|[k' v'] m IH]; simpl; [reflexivity|].
  destruct (eqb k k'); [discriminate|].
  intros Hm. rewrite IH by assumption. reflexivity.
Qed.

Lemma has_app (k : K) (m m' : JsMap.t K V) :
  JsMap.has eqb k (m ++ m') = JsMap.has eqb k m || JsMap.has eqb k m'.
Proof.
  induction m as [|[k' v'] m IH]; simpl; [reflexivity|].
  destruct (eqb k k'); [reflexivity | exact IH].
Qed.

Lemma has_In (k : K) (m : JsMap.t K V) :
  JsMap.has eqb k m = true <-> In k (JsMap.keys m).
Proof.
  induction m as [|[k' v'] m IH]; simpl; [split; [discriminate | intros []]|].
  destruct (eqb_spec k k') as [->|Hne].
  - split; auto.
  - rewrite IH. split; [auto|]. intros [H|H]; [congruence | assumption].
Qed.

Lemma get_has (k : K) (m : JsMap.t K V) :
  JsMap.has eqb k m = match JsMap.get eqb k m with Some _ => true | None => false end.
Proof.
  induction m as [|[k' v'] m IH]; simpl; [reflexivity|].
  destruct (eqb k k'); [reflexivity | exact IH].
Qed.

End MapFacts.

Section CombinedFacts.
Context {host : Host}.

Lemma collect_servers_tagged (timeRange : string) (cutoffTime : JsDate)
  (allServerData : list (list Sample.t)) :
  forall (serverIndex : nat) (buckets : JsMap.t key CombinedBucket.t),
  collect_servers timeRange cutoffTime serverIndex allServerData buckets
  = fold_left
      (fun m x => collect_server_point timeRange cutoffTime (fst x) m (snd x))
      (tagged_from serverIndex allServerData) buckets.
Proof.
  induction allServerData as [|serverData rest IH]; intros i buckets; simpl;
    [reflexivity|].
  rewrite IH, fold_left_app. f_equal.
  generalize buckets. induction serverData as [|p ps IHp]; intros m; simpl;
    [reflexivity | apply IHp].
Qed.

Lemma collect_server_point_gstep (timeRange : string) (cutoffTime : JsDate)
  (buckets : JsMap.t key CombinedBucket.t) (x : nat * Sample.t) :
  collect_server_point timeRange cutoffTime (fst x) buckets (snd x)
  = gstep key_eqb (fun x => sample_key timeRange cutoffTime (snd x))
      empty_combined (fun x => push_combined (fst x) (snd x)) buckets x.
Proof.
  unfold collect_server_point, gstep, sample_key, empty_combined.
  destruct (point_rejected (snd x)); [reflexivity|].
  destruct (bucket_time_of timeRange cutoffTime (snd x)) as [bucketTime|]; simpl;
    [|reflexivity].
  rewrite Date_of_time_getTime. reflexivity.
Qed.

Lemma fold_push_combined (items : list (nat * Sample.t)) (bucket : CombinedBucket.t) :
  fold_left (fun b x => push_combined (fst x) (snd x) b) items bucket
  = CombinedBucket.mk (CombinedBucket.timestamp bucket)
      (fold_left server_step items (CombinedBucket.servers bucket))
      (CombinedBucket.total_rx bucket)
      (CombinedBucket.total_tx bucket)
      (CombinedBucket.server_count bucket).
Proof.
  revert bucket. induction items as [|x items IH]; intros bucket; simpl.
  - destruct bucket; reflexivity.
  - rewrite IH. reflexivity.
Qed.

Lemma fold_push_server_sample (samples : list Sample.t) (sb : ServerBucket.t) :
  fold_left (fun b p => push_server_sample p b) samples sb
  = ServerBucket.mk (ServerBucket.rx_values sb ++ map rx_of samples)
      (ServerBucket.tx_values sb ++ map tx_of samples).
Proof.
  revert sb. induction samples as [|p samples IH]; intros sb; simpl.
  - rewrite !app_nil_r. destruct sb; reflexivity.
  - rewrite IH. unfold push_server_sample. simpl. rewrite <- !app_assoc. reflexivity.
Qed.

(** One server's samples extend the entry of that server. *)
Lemma fold_server_step_entry (i : nat) (samples : list Sample.t)
  (m : JsMap.t nat ServerBucket.t) (sb : ServerBucket.t) :
  JsMap.has Nat.eqb i m = false ->
  fold_left server_step (map (pair i) samples) (m ++ [(i, sb)])
  = m ++ [(i, fold_left (fun b p => push_server_sample p b) samples sb)].
Proof.
  intros Hm. revert sb. induction samples as [|p samples IH]; intros sb; simpl;
    [reflexivity|].
  unfold server_step at 2. simpl.
  rewrite (has_app Nat.eqb), Hm. simpl. rewrite Nat.eqb_refl. simpl.
  rewrite (modify_app_absent Nat.eqb) by assumption. simpl. rewrite Nat.eqb_refl.
  apply IH.
Qed.

Lemma fold_server_step_server (i : nat) (samples : list Sample.t)
  (m : JsMap.t nat ServerBucket.t) :
  JsMap.has Nat.eqb i m = false ->
  fold_left server_step (map (pair i) samples) m
  = m ++ (if nonempty samples
          then [(i, ServerBucket.mk (map rx_of samples) (map tx_of samples))]
          else []).
Proof.
  intros Hm. destruct samples as [|p samples]; simpl.
  - rewrite app_nil_r. reflexivity.
  - unfold server_step at 2. simpl. rewrite Hm.
    rewrite (set_absent Nat.eqb) by assumption.
    rewrite (modify_app_absent Nat.eqb) by assumption. simpl. rewrite Nat.eqb_refl.
    rewrite fold_server_step_entry by assumption.
    rewrite fold_push_server_sample. reflexivity.
Qed.

Lemma fold_server_step_tagged (lists : list (list Sample.t)) :
  forall (i : nat) (m : JsMap.t nat ServerBucket.t),
  (forall j, In j (JsMap.keys m) -> (j < i)%nat) ->
  fold_left server_step (tagged_from i lists) m = m ++ server_entries i lists.
Proof.
  induction lists as [|samples rest IH]; intros i m Hm; simpl.
  - rewrite app_nil_r. reflexivity.
  - rewrite fold_left_app.
    assert (Habs : JsMap.has Nat.eqb i m = false).
    { destruct (JsMap.has Nat.eqb i m) eqn:Hh; [|reflexivity].
      apply (has_In Nat.eqb Nat.eqb_spec) in Hh. apply Hm in Hh. lia. }
    rewrite fold_server_step_server by assumption.
    rewrite IH.
    + rewrite <- app_assoc. reflexivity.
    + intros j. unfold JsMap.keys. rewrite map_app, in_app_iff. intros [H|H].
      * apply Hm in H. lia.
      * destruct (nonempty samples); simpl in H; [|contradiction].
        destruct H as [<-|[]]. lia.
Qed.

Lemma server_entries_values (lists : list (list Sample.t)) (i : nat) :
  JsMap.values (server_entries i lists)
  = map (fun samples => ServerBucket.mk (map rx_of samples) (map tx_of samples))
      (filter nonempty lists).
Proof.
  revert i. induction lists as [|samples rest IH]; intros i; simpl; [reflexivity|].
  unfold JsMap.values in *. rewrite map_app, IH.
  destruct (nonempty samples); reflexivity.
Qed.

Lemma fold_add_server (lists : list (list Sample.t)) :
  forall (totalRx totalTx : num) (serverCount : nat),
  Forall (fun samples => nonempty samples = true) lists ->
  fold_left add_server
    (map (fun samples => ServerBucket.mk (map rx_of samples) (map tx_of samples)) lists)
    (totalRx, totalTx, serverCount)
  = (fold_left PrimFloat.add (map (fun samples => mean (map rx_of samples)) lists) totalRx,
     fold_left PrimFloat.add (map (fun samples => mean (map tx_of samples)) lists) totalTx,
     (serverCount + List.length lists)%nat).
Proof.
  induction lists as [|samples rest IH]; intros a b n Hall; simpl.
  - rewrite Nat.add_0_r. reflexivity.
  - inversion Hall as [|? ? Hne Hall']; subst.
    destruct samples as [|p samples]; [discriminate|].
    simpl. rewrite IH by assumption. f_equal. lia.
Qed.

Lemma members_tagged (timeRange : string) (cutoffTime : JsDate) (k : key)
  (allServerData : list (list Sample.t)) (i : nat) :
  members key_eqb (fun x => sample_key timeRange cutoffTime (snd x)) k
    (tagged_from i allServerData)
  = tagged_from i
      (map (fun serverData => bucket_samples timeRange cutoffTime serverData k)
         allServerData).
Proof.
  revert i. induction allServerData as [|serverData rest IH]; intros i; simpl;
    [reflexivity|].
  unfold members in *. rewrite filter_app, IH. f_equal.
  unfold bucket_samples, members.
  induction serverData as [|p ps IHp]; simpl; [reflexivity|].
  change (selects key_eqb (fun x => sample_key timeRange cutoffTime (snd x)) k (i, p))
    with (selects key_eqb (sample_key timeRange cutoffTime) k p).
  destruct (selects key_eqb (sample_key timeRange cutoffTime) k p); simpl;
    rewrite IHp; reflexivity.
Qed.

Lemma first_keys_snd (timeRange : string) (cutoffTime : JsDate)
  (items : list (nat * Sample.t)) :
  first_keys key_eqb (fun x => sample_key timeRange cutoffTime (snd x)) items
  = bucket_keys timeRange cutoffTime (map snd items).
Proof.
  unfold bucket_keys, first_keys. generalize (@nil key).
  induction items as [|x items IH]; intros acc; simpl; [reflexivity|].
  rewrite IH. reflexivity.
Qed.

Lemma tagged_from_snd (allServerData : list (list Sample.t)) (i : nat) :
  map snd (tagged_from i allServerData) = List.concat allServerData.
Proof.
  revert i. induction allServerData as [|serverData rest IH]; intros i; simpl;
    [reflexivity|].
  rewrite map_app, IH, map_map. simpl. rewrite map_id. reflexivity.
Qed.

Lemma group_combined (timeRange : string) (cutoffTime : JsDate)
  (allServerData : list (list Sample.t)) (k : key) :
  group key_eqb (fun x => sample_key timeRange cutoffTime (snd x))
    empty_combined (fun x => push_combined (fst x) (snd x)) k
    (tagged_from 0 allServerData)
  = CombinedBucket.mk (Date_of_time k)
      (server_entries 0
         (map (fun serverData => bucket_samples timeRange cutoffTime serverData k)
            allServerData))
      zero zero 0%nat.
Proof.
  unfold group. rewrite fold_push_combined, members_tagged. simpl.
  rewrite fold_server_step_tagged by (intros j []). reflexivity.
Qed.

Lemma combined_point_group (timeRange : string) (cutoffTime : JsDate)
  (allServerData : list (list Sample.t)) (t : Z) :
  combined_point
    (group key_eqb (fun x => sample_key timeRange cutoffTime (snd x))
       empty_combined (fun x => push_combined (fst x) (snd x)) (Some t)
       (tagged_from 0 allServerData))
  = Ok (combined_point_at timeRange cutoffTime allServerData t).
Proof.
  rewrite group_combined. unfold combined_point. simpl.
  rewrite server_entries_values.
  rewrite fold_add_server.
  - reflexivity.
  - apply Forall_forall. intros samples Hin. apply filter_In in Hin. tauto.
Qed.

End CombinedFacts.

Section CombinedSeries.
Context {host : Host}.

Lemma combined_points (timeRange : string) (cutoffTime : JsDate)
  (allServerData : list (list Sample.t)) (ks : list key) :
  map_throwing combined_point
    (map (fun k => group key_eqb (fun x => sample_key timeRange cutoffTime (snd x))
                     empty_combined (fun x => push_combined (fst x) (snd x)) k
                     (tagged_from 0 allServerData)) ks)
  = match all_valid ks with
    | None => Throw
    | Some ts => Ok (map (combined_point_at timeRange cutoffTime allServerData) ts)
    end.
Proof.
  induction ks as [|[t|] ks IH]; simpl; [reflexivity| |].
  - rewrite IH, combined_point_group. simpl.
    destruct (all_valid ks); reflexivity.
  - rewrite group_combined. unfold combined_point. simpl.
    destruct (fold_left add_server _ _) as [[totalRx totalTx] serverCount].
    reflexivity.
Qed.

Lemma selects_sample_key (timeRange : string) (cutoffTime : JsDate)
  (p : Sample.t) (k : key) :
  selects key_eqb (sample_key timeRange cutoffTime) k p = true
  <-> sample_key timeRange cutoffTime p = Some k.
Proof.
  unfold selects. destruct (sample_key timeRange cutoffTime p) as [k'|].
  - destruct (key_eqb_spec k k'); split; congruence.
  - split; discriminate.
Qed.

Lemma bucket_samples_In (timeRange : string) (cutoffTime : JsDate)
  (rawData : list Sample.t) (k : key) (p : Sample.t) :
  In p (bucket_samples timeRange cutoffTime rawData k)
  <-> In p rawData /\ sample_key timeRange cutoffTime p = Some k.
Proof.
  unfold bucket_samples, members. rewrite filter_In, selects_sample_key. tauto.
Qed.

(** A bucket that exists has a contributing server. *)
Lemma contributing_nonempty (timeRange : string) (cutoffTime : JsDate)
  (allServerData : list (list Sample.t)) (k : key) :
  In k (bucket_keys timeRange cutoffTime (List.concat allServerData)) ->
  (0 < List.length (contributing timeRange cutoffTime allServerData k))%nat.
Proof.
  intros Hin. apply (first_keys_In key_eqb key_eqb_spec) in Hin.
  destruct Hin as [p [Hp Hk]]. apply in_concat in Hp.
  destruct Hp as [serverData [Hs Hp]].
  assert (Hc : In (bucket_samples timeRange cutoffTime serverData k)
                 (contributing timeRange cutoffTime allServerData k)).
  { unfold contributing. apply filter_In. split.
    - apply in_map_iff. exists serverData. auto.
    - assert (Hb : In p (bucket_samples timeRange cutoffTime serverData k))
        by (apply bucket_samples_In; auto).
      destruct (bucket_samples timeRange cutoffTime serverData k);
        [destruct Hb | reflexivity]. }
  destruct (contributing timeRange cutoffTime allServerData k); [destruct Hc|].
  simpl. lia.
Qed.

Lemma filter_all (A : Type) (f : A -> bool) (l : list A) :
  (forall x, In x l -> f x = true) -> filter f l = l.
Proof.
  induction l as [|a l IH]; simpl; [reflexivity|].
  intros Hall. rewrite (Hall a) by auto. f_equal. apply IH. auto.
Qed.

(** The sorted combined series in terms of the input. *)
Lemma combinedData_spec (now : Z) (allServerData : list (list Sample.t))
  (timeRange : string) :
  combinedData now allServerData timeRange
  = let cutoffTime := getTimeRangeCutoff (DateAt now) timeRange in
    match all_valid (bucket_keys timeRange cutoffTime (List.concat allServerData)) with
    | None => Throw
    | Some ts =>
        Ok (map (combined_point_at timeRange cutoffTime allServerData) (sort Z.leb ts))
    end.
Proof.
  unfold combinedData. simpl.
  set (cutoffTime := getTimeRangeCutoff (DateAt now) timeRange).
  rewrite collect_servers_tagged.
  rewrite (fold_left_ext_fun _ _ _ _ (collect_server_point_gstep timeRange cutoffTime)).
  rewrite (fold_gstep_grouped key_eqb key_eqb_spec).
  unfold grouped, JsMap.values. rewrite map_map. simpl.
  rewrite combined_points, first_keys_snd, tagged_from_snd.
  destruct (all_valid _) as [ts|] eqn:Hv; [|reflexivity]. simpl. f_equal.
  rewrite filter_all.
  - rewrite sort_map. f_equal. apply sort_ext_in. intros a b _ _. simpl.
    destruct (Z.leb_spec (a - b) 0), (Z.leb_spec a b); try reflexivity; lia.
  - intros point Hin. apply in_map_iff in Hin. destruct Hin as [t [<- Ht]].
    simpl. apply Nat.ltb_lt. apply contributing_nonempty.
    apply all_valid_map_Some in Hv. rewrite Hv. apply in_map. exact Ht.
Qed.

End CombinedSeries.

(* ------------------------------------------------------------------ *)
(** * normalizeTimestamp *)

Section NormalizeFacts.
Context {host : Host}.

Lemma utcToZonedTime_valid (t : Z) : utcToZonedTime (DateAt t) = Ok (DateAt t).
Proof. unfold utcToZonedTime, UTC. do 2 f_equal. lia. Qed.

(** The value returned for a field of a sample: [null] for a falsy
    argument and otherwise the date built in the [try] block, valid or
    not.  Nothing throws there, so the handler is not reached. *)
Lemma normalizeTimestamp_cases (timestamp : JsVal) :
  normalizeTimestamp timestamp
  = if truthy timestamp then Some (parsed_date timestamp) else None.
Proof.
  unfold normalizeTimestamp. destruct (truthy timestamp); simpl; [|reflexivity].
  destruct (parsed_date timestamp) as [|t]; [reflexivity|].
  rewrite utcToZonedTime_valid. reflexivity.
Qed.

Lemma normalizeTimestamp_Date (t : Z) :
  normalizeTimestamp (JDate (DateAt t)) = Some (DateAt t).
Proof. rewrite normalizeTimestamp_cases. reflexivity. Qed.

End NormalizeFacts.

Section NormalizeAnyFacts.
Context {host : Host}.



End NormalizeAnyFacts.




(* ------------------------------------------------------------------ *)
(** * Samples that are skipped *)

Section SkipFacts.
Context {host : Host}.

Lemma limit_points_nil (A : Type) (timeRange : string) :
  limit_points timeRange (@nil A) = [].
Proof.
  unfold limit_points. destruct (_ <? _)%nat; [|reflexivity].
  unfold slice_last. apply skipn_nil.
Qed.

(** The guard on the empty array returns what the general path returns. *)
Lemma aggregateDataByTime_bind (now : Z) (rawData : list Sample.t) (timeRange : string) :
  aggregateDataByTime now rawData timeRange
  = bind (aggregatedData now rawData timeRange) (fun data =>
    Ok (limit_points timeRange data)).
Proof.
  destruct rawData; [|reflexivity]. simpl. rewrite limit_points_nil. reflexivity.
Qed.

Lemma collect_point_skip (timeRange : string) (cutoffTime : JsDate)
  (buckets : JsMap.t key Bucket.t) (point : Sample.t) :
  sample_key timeRange cutoffTime point = None ->
  collect_point timeRange cutoffTime buckets point = buckets.
Proof. intros Hk. rewrite collect_point_gstep. unfold gstep. rewrite Hk. reflexivity. Qed.

(** A sample without a bucket key leaves no trace in the output. *)
Lemma aggregateDataByTime_skip (now : Z) (timeRange : string)
  (before after : list Sample.t) (point : Sample.t) :
  sample_key timeRange (getTimeRangeCutoff (DateAt now) timeRange) point = None ->
  aggregateDataByTime now (before ++ point :: after) timeRange
  = aggregateDataByTime now (before ++ after) timeRange.
Proof.
  intros Hk. rewrite !aggregateDataByTime_bind. unfold aggregatedData.
  rewrite !fold_left_app. simpl. rewrite collect_point_skip by assumption.
  reflexivity.
Qed.

(** NaN differs from every number, 0 included. *)
Lemma nan_is_not_zero (x : num) :
  PrimFloat.is_nan x = true -> PrimFloat.eqb x zero = false.
Proof.
  unfold PrimFloat.is_nan. rewrite !FloatAxioms.eqb_spec.
  unfold SFeqb, SFcompare.
  destruct (Prim2SF x) as [s|s| |s m e]; try reflexivity.
  - destruct s; discriminate.
  - destruct s; discriminate.
  - rewrite Z.compare_refl, Pos.compare_cont_refl. destruct s; discriminate.
Qed.

(** The guard on a rate, value by value. *)
Lemma rate_rejected_iff (rate : JsVal) :
  rate_rejected rate = true <-> rejected_rate rate.
Proof.
  unfold rate_rejected, rejected_rate. split.
  - destruct rate as [| |[|]|x|s| |]; simpl; try discriminate; auto.
    + unfold JsNumber.truthy, PrimFloat.is_zero. rewrite negb_involutive.
      intros H. apply andb_true_iff in H. destruct H as [H1 H2].
      apply negb_true_iff in H2. change PrimFloat.zero with zero in H1.
      rewrite H2, orb_false_r in H1. do 4 right. exists x. auto.
    + destruct s; [auto | discriminate].
  - intros [->|[->|[->|[->|[x [-> Hx]]]]]]; try reflexivity.
    simpl. unfold JsNumber.truthy. rewrite Hx, (nan_is_not_zero x Hx).
    reflexivity.
Qed.

Lemma sample_key_rejected (timeRange : string) (cutoffTime : JsDate) (point : Sample.t) :
  point_rejected point = true -> sample_key timeRange cutoffTime point = None.
Proof. unfold sample_key. intros ->. reflexivity. Qed.

Lemma add_scaled_exact (unit t n : Z) (amount : num) :
  to_Z amount = Some n -> add_scaled unit (DateAt t) amount = DateAt (t + n * unit).
Proof. unfold add_scaled. intros ->. reflexivity. Qed.

(** In a zone that keeps its offset a move by calendar days is a move by
    days of 24 hours. *)
Lemma addDays_fixed (offset t n : Z) (amount : num) :
  to_Z amount = Some n ->
  addDays_in (fixed_zone offset) (DateAt t) amount = DateAt (t + n * msPerDay).
Proof.
  unfold addDays_in. intros ->. simpl.
  destruct (Z.eqb_spec n 0) as [->|_]; f_equal; lia.
Qed.

Lemma getTimeRangeCutoff_duration (now : Z) (timeRange : string) :
  getTimeRangeCutoff (DateAt now) timeRange = DateAt (now - window_duration timeRange).
Proof.
  unfold getTimeRangeCutoff, getTimeRangeCutoff_in, window_duration, switch_range.
  unfold subHours, subDays_in, addHours.
  repeat match goal with
         | |- context [String.eqb timeRange ?s] => destruct (String.eqb timeRange s)
         end;
    (erewrite ?add_scaled_exact, ?addDays_fixed by reflexivity; f_equal;
     unfold msPerHour, msPerDay; lia).
Qed.

End SkipFacts.

(** C1 (as stated, refuted): a sample whose rx_rate is the text "n/a",
    which is not numeric, is not skipped: it enters its bucket with the
    value 0, so the mean of the bucket is (10 + 0) / 2 = 5 over 2 data
    points instead of the 10 of the valid sample alone. *)
Lemma non_numeric_rate_counts_as_zero :
  aggregateDataByTime (host := example_host) example_now
    [sample_at (example_now - 1000) (JNum 10%float) (JNum 4%float);
     sample_at (example_now - 1000) (JStr "n/a") (JNum 4%float)] "1h"
  = Ok [Point.mk (DateAt 1699999980000) 5%float 4%float 2%nat "Nov 14, 23:13:00"%string]
  /\ aggregateDataByTime (host := example_host) example_now
       [sample_at (example_now - 1000) (JNum 10%float) (JNum 4%float)] "1h"
     = Ok [Point.mk (DateAt 1699999980000) 10%float 4%float 1%nat "Nov 14, 23:13:00"%string].
Proof. split; vm_compute; reflexivity. Qed.

(** A kept sample whose time cannot be read ends the whole call: its
    bucket carries an Invalid Date, on which [format] throws. *)
Lemma invalid_time_aborts_the_call :
  aggregateDataByTime (host := example_host) example_now
    [sample_at (example_now - 1000) (JNum 10%float) (JNum 4%float);
     Sample.mk (JStr "not a date") (JNum 1%float) (JNum 1%float)] "1h"
  = Throw.
Proof. vm_compute. reflexivity. Qed.

Section CutoffFacts.
Context {host : Host}.

(** The callback leaves the map as it is for a sample that is earlier than
    the cutoff it was given. *)
Lemma sample_key_before_cutoff (timeRange : string) (cutoffTime : JsDate)
  (point : Sample.t) (t : Z) :
  normalizeTimestamp (Sample.timestamp point) = Some (DateAt t) ->
  date_lt (DateAt t) cutoffTime = true ->
  sample_key timeRange cutoffTime point = None.
Proof.
  intros Hnorm Hlt. unfold sample_key.
  destruct (point_rejected point); [reflexivity|].
  unfold bucket_time_of. rewrite Hnorm. cbn [date_of_nullable].
  rewrite Hlt. reflexivity.
Qed.

Lemma subHours_exact (now n : Z) (amount : num) :
  to_Z (PrimFloat.opp amount) = Some (- n) ->
  subHours (DateAt now) amount = DateAt (now - n * 3600000).
Proof.
  intros H. unfold subHours, addHours.
  rewrite (@add_scaled_exact msPerHour now (- n) _ H).
  f_equal. unfold msPerHour. lia.
Qed.

Lemma subDays_in_exact (zone : Zone) (now n : Z) (amount : num) :
  to_Z (PrimFloat.opp amount) = Some (- n) -> n <> 0 ->
  subDays_in zone (DateAt now) amount
  = DateAt (utc_of_local zone (now + offset_at zone now - n * 86400000)).
Proof.
  intros H Hn. unfold subDays_in, addDays_in. rewrite H.
  destruct (Z.eqb_spec (- n) 0); [lia|]. do 2 f_equal. unfold msPerDay. lia.
Qed.

End CutoffFacts.

(** C8 (as stated, refuted): in a zone that changed its offset thirty hours
    before [now], from four to five hours behind UTC, the cutoff of the 3d
    range is [now] minus 73 hours, not [now] minus 3 days of 24 hours: a
    sample 72.5 hours old is strictly earlier than [now] minus 3 days and
    is not earlier than the cutoff, so the filter keeps it. *)
Lemma cutoff_3d_across_offset_change :
  getTimeRangeCutoff_in example_zone (DateAt after_the_change) "3d"
  = DateAt (after_the_change - 73 * 3600000)
  /\ after_the_change - 261000000 < after_the_change - 3 * 86400000
  /\ date_lt (DateAt (after_the_change - 261000000))
       (getTimeRangeCutoff_in example_zone (DateAt after_the_change) "3d")
     = false.
Proof. repeat split; vm_compute; reflexivity. Qed.

(** C8 (amended): in every zone the cutoff is [now] minus 1, 6, 12 and 24
    hours for 1h, 6h, 12h and 1d, and [now] minus 1 hour for any other
    label; for 3d and 1w it is the instant whose local reading is the one
    of [now] moved back by 3 and by 7 calendar days, which is [now] minus
    72 and 168 hours when the zone has the same offset at both instants,
    as in a zone that keeps its offset.  A sample whose normalized
    timestamp is strictly earlier than the cutoff is dropped before
    bucketing, by the callback for whatever cutoff it was given: the series
    is the one obtained from the input without that sample. *)
Theorem samples_before_cutoff_are_excluded (host : Host) (zone : Zone) (now : Z)
  (timeRange : string) (before after : list Sample.t) (point : Sample.t) (t : Z) :
  normalizeTimestamp (Sample.timestamp point) = Some (DateAt t) ->
  date_lt (DateAt t) (getTimeRangeCutoff (DateAt now) timeRange) = true ->
  getTimeRangeCutoff_in zone (DateAt now) timeRange
  = DateAt
      (switch_range timeRange
         (now - 1 * 3600000)
         (now - 6 * 3600000)
         (now - 12 * 3600000)
         (now - 24 * 3600000)
         (utc_of_local zone (now + offset_at zone now - 3 * 86400000))
         (utc_of_local zone (now + offset_at zone now - 7 * 86400000))
         (now - 1 * 3600000))
  /\ (forall days,
        offset_at zone (now - days * 86400000) = offset_at zone now ->
        utc_of_local zone
          (now - days * 86400000 + offset_at zone (now - days * 86400000))
        = now - days * 86400000 ->
        utc_of_local zone (now + offset_at zone now - days * 86400000)
        = now - days * 86400000)
  /\ (forall offset,
        getTimeRangeCutoff_in (fixed_zone offset) (DateAt now) timeRange
        = DateAt (now - window_duration timeRange))
  /\ (forall cutoffTime buckets,
        date_lt (DateAt t) cutoffTime = true ->
        collect_point timeRange cutoffTime buckets point = buckets)
  /\ aggregateDataByTime now (before ++ point :: after) timeRange
     = aggregateDataByTime now (before ++ after) timeRange.
Proof.
  intros Hnorm Hlt. split; [|split; [|split; [|split]]].
  - unfold getTimeRangeCutoff_in, switch_range.
    repeat match goal with
           | |- context [String.eqb timeRange ?s] => destruct (String.eqb timeRange s)
           end;
      first [ apply subHours_exact; reflexivity
            | apply subDays_in_exact; [reflexivity | discriminate] ].
  - intros days Hoff Hback. rewrite <- Hoff.
    replace (now + offset_at zone (now - days * 86400000) - days * 86400000)
      with (now - days * 86400000 + offset_at zone (now - days * 86400000)) by lia.
    exact Hback.
  - intros offset. unfold window_duration, getTimeRangeCutoff_in, switch_range.
    unfold subHours, subDays_in, addHours.
    repeat match goal with
           | |- context [String.eqb timeRange ?s] => destruct (String.eqb timeRange s)
           end;
      (erewrite ?add_scaled_exact, ?addDays_fixed by reflexivity; f_equal;
       unfold msPerHour, msPerDay; lia).
  - intros cutoffTime buckets Hc. apply collect_point_skip.
    exact (sample_key_before_cutoff timeRange cutoffTime point Hnorm Hc).
  - apply aggregateDataByTime_skip.
    exact (sample_key_before_cutoff timeRange _ point Hnorm Hlt).
Qed.

Lemma samples_before_cutoff_are_excluded_witness :
  getTimeRangeCutoff_in example_zone (DateAt after_the_change) "3d"
  = DateAt
      (switch_range "3d"
         (after_the_change - 1 * 3600000)
         (after_the_change - 6 * 3600000)
         (after_the_change - 12 * 3600000)
         (after_the_change - 24 * 3600000)
         (utc_of_local example_zone
            (after_the_change + offset_at example_zone after_the_change
             - 3 * 86400000))
         (utc_of_local example_zone
            (after_the_change + offset_at example_zone after_the_change
             - 7 * 86400000))
         (after_the_change - 1 * 3600000))
  /\ (forall days,
        offset_at example_zone (after_the_change - days * 86400000)
        = offset_at example_zone after_the_change ->
        utc_of_local example_zone
          (after_the_change - days * 86400000
           + offset_at example_zone (after_the_change - days * 86400000))
        = after_the_change - days * 86400000 ->
        utc_of_local example_zone
          (after_the_change + offset_at example_zone after_the_change
           - days * 86400000)
        = after_the_change - days * 86400000)
  /\ (forall offset,
        getTimeRangeCutoff_in (fixed_zone offset) (DateAt after_the_change) "3d"
        = DateAt (after_the_change - window_duration "3d"))
  /\ (forall cutoffTime buckets,
        date_lt (DateAt (after_the_change - 4 * 86400000)) cutoffTime = true ->
        collect_point (host := example_host) "3d" cutoffTime buckets
          (sample_at (after_the_change - 4 * 86400000) (JNum 50%float) (JNum 50%float))
        = buckets)
  /\ aggregateDataByTime (host := example_host) after_the_change
       ([sample_at (after_the_change - 1000) (JNum 10%float) (JNum 4%float)]
        ++ sample_at (after_the_change - 4 * 86400000) (JNum 50%float) (JNum 50%float)
           :: []) "3d"
     = aggregateDataByTime (host := example_host) after_the_change
         ([sample_at (after_the_change - 1000) (JNum 10%float) (JNum 4%float)] ++ [])
         "3d".
Proof.
  apply (@samples_before_cutoff_are_excluded example_host example_zone
           after_the_change "3d"%string
           [sample_at (after_the_change - 1000) (JNum 10%float) (JNum 4%float)] []
           (sample_at (after_the_change - 4 * 86400000) (JNum 50%float) (JNum 50%float))
           (after_the_change - 4 * 86400000)).
  - reflexivity.
  - vm_compute. reflexivity.
Defined.

(* ------------------------------------------------------------------ *)
(** * Order and size of the series *)

Lemma getTargetDataPoints_60 (timeRange : string) :
  getTargetDataPoints timeRange = 60%nat.
Proof.
  unfold getTargetDataPoints, switch_range.
  repeat match goal with
         | |- context [String.eqb timeRange ?s] => destruct (String.eqb timeRange s)
         end; reflexivity.
Qed.

Lemma limit_points_skipn (A : Type) (timeRange : string) (data : list A) :
  limit_points timeRange data = skipn (List.length data - 60) data.
Proof.
  unfold limit_points, slice_last. rewrite getTargetDataPoints_60.
  destruct (Nat.ltb_spec 60 (List.length data)); [reflexivity|].
  replace (List.length data - 60)%nat with 0%nat by lia. reflexivity.
Qed.

Lemma In_limit_points (A : Type) (timeRange : string) (data : list A) (x : A) :
  In x (limit_points timeRange data) -> In x data.
Proof.
  rewrite limit_points_skipn. intros Hin.
  rewrite <- (firstn_skipn (List.length data - 60) data).
  apply in_or_app. right. exact Hin.
Qed.

Lemma limit_points_map (A B : Type) (g : A -> B) (timeRange : string) (data : list A) :
  map g (limit_points timeRange data) = limit_points timeRange (map g data).
Proof. rewrite !limit_points_skipn, length_map. symmetry. apply skipn_map. Qed.

Lemma limit_points_length (A : Type) (timeRange : string) (data : list A) :
  List.length (limit_points timeRange data) = Nat.min 60 (List.length data).
Proof. rewrite limit_points_skipn, length_skipn. lia. Qed.

Lemma ascending_times (ts : list Z) :
  StronglySorted Z.lt ts -> ascending (map DateAt ts).
Proof.
  unfold ascending. induction 1 as [|t ts Hs IH Hall]; simpl; constructor.
  - exact IH.
  - apply Forall_map. eapply Forall_impl; [|exact Hall].
    simpl. intros u Hu. apply Z.ltb_lt. exact Hu.
Qed.

Lemma ascending_limit (timeRange : string) (ds : list JsDate) :
  ascending ds -> ascending (limit_points timeRange ds).
Proof. rewrite limit_points_skipn. apply StronglySorted_skipn. Qed.

Section SeriesFacts.
Context {host : Host}.

Lemma aggregateCombinedServerData_bind (now : Z) (allServerData : list (list Sample.t))
  (timeRange : string) :
  aggregateCombinedServerData now allServerData timeRange
  = bind (combinedData now allServerData timeRange) (fun data =>
    Ok (limit_points timeRange data)).
Proof.
  destruct allServerData; [|reflexivity]. simpl. rewrite limit_points_nil. reflexivity.
Qed.

(** The two series, from the distinct bucket keys of the input. *)
Lemma aggregateDataByTime_series (now : Z) (rawData : list Sample.t)
  (timeRange : string) (out : list Point.t) :
  aggregateDataByTime now rawData timeRange = Ok out ->
  let cutoffTime := getTimeRangeCutoff (DateAt now) timeRange in
  exists ts,
    all_valid (bucket_keys timeRange cutoffTime rawData) = Some ts
    /\ NoDup ts
    /\ aggregatedData now rawData timeRange
       = Ok (map (point_at timeRange cutoffTime rawData) (sort Z.leb ts))
    /\ out = limit_points timeRange
               (map (point_at timeRange cutoffTime rawData) (sort Z.leb ts)).
Proof.
  rewrite aggregateDataByTime_bind, aggregatedData_spec. simpl.
  destruct (all_valid _) as [ts|] eqn:Hv; simpl; [|discriminate].
  intros Hout. injection Hout as <-. exists ts.
  repeat split; try reflexivity.
  eapply all_valid_NoDup; [exact Hv|]. apply (first_keys_NoDup key_eqb key_eqb_spec).
Qed.

Lemma aggregateCombinedServerData_series (now : Z)
  (allServerData : list (list Sample.t)) (timeRange : string)
  (out : list CombinedPoint.t) :
  aggregateCombinedServerData now allServerData timeRange = Ok out ->
  let cutoffTime := getTimeRangeCutoff (DateAt now) timeRange in
  exists ts,
    all_valid (bucket_keys timeRange cutoffTime (List.concat allServerData)) = Some ts
    /\ NoDup ts
    /\ combinedData now allServerData timeRange
       = Ok (map (combined_point_at timeRange cutoffTime allServerData) (sort Z.leb ts))
    /\ out = limit_points timeRange
               (map (combined_point_at timeRange cutoffTime allServerData)
                  (sort Z.leb ts)).
Proof.
  rewrite aggregateCombinedServerData_bind, combinedData_spec. simpl.
  destruct (all_valid _) as [ts|] eqn:Hv; simpl; [|discriminate].
  intros Hout. injection Hout as <-. exists ts.
  repeat split; try reflexivity.
  eapply all_valid_NoDup; [exact Hv|]. apply (first_keys_NoDup key_eqb key_eqb_spec).
Qed.

End SeriesFacts.

(** C5: the series returned by aggregateDataByTime and by
    aggregateCombinedServerData are strictly ascending in timestamp: every
    point is earlier than all the points after it, so no timestamp occurs
    twice. *)
Theorem series_strictly_ascending (host : Host) (now : Z) (timeRange : string)
  (rawData : list Sample.t) (allServerData : list (list Sample.t))
  (out : list Point.t) (combined : list CombinedPoint.t) :
  aggregateDataByTime now rawData timeRange = Ok out ->
  aggregateCombinedServerData now allServerData timeRange = Ok combined ->
  ascending (map Point.timestamp out)
  /\ ascending (map CombinedPoint.timestamp combined).
Proof.
  intros Hout Hcomb.
  apply aggregateDataByTime_series in Hout. destruct Hout as [ts [_ [Hnd [_ ->]]]].
  apply aggregateCombinedServerData_series in Hcomb.
  destruct Hcomb as [cs [_ [Hcnd [_ ->]]]].
  rewrite !limit_points_map, !map_map. simpl. split.
  - apply ascending_limit, ascending_times, sort_Z_strict, Hnd.
  - apply ascending_limit, ascending_times, sort_Z_strict, Hcnd.
Qed.

Lemma StronglySorted_app_cross (A : Type) (R : A -> A -> Prop) (l1 l2 : list A) :
  StronglySorted R (l1 ++ l2) -> forall x y, In x l1 -> In y l2 -> R x y.
Proof.
  induction l1 as [|a l1 IH]; simpl; intros Hs x y Hx Hy; [destruct Hx|].
  inversion Hs as [|a' l' Hs' Hall]; subst.
  destruct Hx as [<-|Hx].
  - rewrite Forall_forall in Hall. apply Hall, in_or_app. right. exact Hy.
  - exact (IH Hs' x y Hx Hy).
Qed.

(** The limit cuts a list that is in ascending order of time into the
    points it drops and the points it returns. *)
Lemma limit_points_split (A : Type) (time : A -> JsDate) (timeRange : string)
  (data : list A) :
  ascending (map time data) ->
  exists dropped,
    data = dropped ++ limit_points timeRange data
    /\ List.length (limit_points timeRange data) = Nat.min 60 (List.length data)
    /\ (forall p q, In p dropped -> In q (limit_points timeRange data) ->
        date_lt (time p) (time q) = true).
Proof.
  intros Hasc. exists (firstn (List.length data - 60) data).
  rewrite limit_points_skipn. split; [symmetry; apply firstn_skipn|].
  split; [rewrite length_skipn; lia|].
  intros p q Hp Hq. unfold ascending in Hasc.
  rewrite <- (firstn_skipn (List.length data - 60) data), map_app in Hasc.
  apply (@StronglySorted_app_cross _ _ _ _ Hasc); apply in_map; assumption.
Qed.

(** C6: both series have at most 60 points, the target of every label.
    The bucket points are first put in strictly ascending order of time;
    the series is that list without the points it drops at the front, the
    trailing 60 when there are more, so that every dropped point is earlier
    than every point returned. *)
Theorem series_limited_to_target (host : Host) (now : Z) (timeRange : string)
  (rawData : list Sample.t) (allServerData : list (list Sample.t))
  (out : list Point.t) (combined : list CombinedPoint.t) :
  aggregateDataByTime now rawData timeRange = Ok out ->
  aggregateCombinedServerData now allServerData timeRange = Ok combined ->
  getTargetDataPoints timeRange = 60%nat
  /\ (List.length out <= 60)%nat
  /\ (List.length combined <= 60)%nat
  /\ (exists data dropped,
        aggregatedData now rawData timeRange = Ok data
        /\ ascending (map Point.timestamp data)
        /\ data = dropped ++ out
        /\ List.length out = Nat.min 60 (List.length data)
        /\ (forall p q, In p dropped -> In q out ->
            date_lt (Point.timestamp p) (Point.timestamp q) = true))
  /\ (exists data dropped,
        combinedData now allServerData timeRange = Ok data
        /\ ascending (map CombinedPoint.timestamp data)
        /\ data = dropped ++ combined
        /\ List.length combined = Nat.min 60 (List.length data)
        /\ (forall p q, In p dropped -> In q combined ->
            date_lt (CombinedPoint.timestamp p) (CombinedPoint.timestamp q) = true)).
Proof.
  intros Hout Hcomb.
  apply aggregateDataByTime_series in Hout.
  destruct Hout as [ts [_ [Hnd [Hdata ->]]]].
  apply aggregateCombinedServerData_series in Hcomb.
  destruct Hcomb as [cs [_ [Hcnd [Hcdata ->]]]].
  set (cutoffTime := getTimeRangeCutoff (DateAt now) timeRange) in *.
  assert (Hasc : ascending
            (map Point.timestamp
               (map (point_at timeRange cutoffTime rawData) (sort Z.leb ts)))).
  { rewrite map_map. cbn [point_at Point.timestamp].
    apply ascending_times, sort_Z_strict, Hnd. }
  assert (Hcasc : ascending
            (map CombinedPoint.timestamp
               (map (combined_point_at timeRange cutoffTime allServerData)
                  (sort Z.leb cs)))).
  { rewrite map_map. cbn [combined_point_at CombinedPoint.timestamp].
    apply ascending_times, sort_Z_strict, Hcnd. }
  destruct (limit_points_split Point.timestamp timeRange _ Hasc)
    as [dropped [Hsplit [Hlen Hcross]]].
  destruct (limit_points_split CombinedPoint.timestamp timeRange _ Hcasc)
    as [cdropped [Hcsplit [Hclen Hccross]]].
  split; [apply getTargetDataPoints_60|].
  split; [rewrite Hlen; apply Nat.le_min_l|].
  split; [rewrite Hclen; apply Nat.le_min_l|].
  split.
  - eexists. exists dropped. split; [exact Hdata|].
    split; [exact Hasc|]. split; [exact Hsplit|]. split; [exact Hlen | exact Hcross].
  - eexists. exists cdropped. split; [exact Hcdata|].
    split; [exact Hcasc|]. split; [exact Hcsplit|].
    split; [exact Hclen | exact Hccross].
Qed.

(* ------------------------------------------------------------------ *)
(** * Reordering the input *)

Lemma Permutation_filter (A : Type) (f : A -> bool) (l l' : list A) :
  Permutation l l' -> Permutation (filter f l) (filter f l').
Proof.
  induction 1 as [|x l l' Hp IH|x y l|l l' l'' Hp1 IH1 Hp2 IH2]; simpl.
  - constructor.
  - destruct (f x); [constructor|]; exact IH.
  - destruct (f x), (f y); try reflexivity. apply perm_swap.
  - etransitivity; eassumption.
Qed.

Lemma nonempty_perm (A : Type) (l l' : list A) :
  Permutation l l' -> nonempty l = nonempty l'.
Proof.
  intros Hp. destruct l, l'; try reflexivity.
  - apply Permutation_nil in Hp. discriminate.
  - apply Permutation_sym, Permutation_nil in Hp. discriminate.
Qed.

Lemma Forall2_map_same (A B C : Type) (R : B -> C -> Prop) (f : A -> B) (g : A -> C)
  (l : list A) :
  (forall x, In x l -> R (f x) (g x)) -> Forall2 R (map f l) (map g l).
Proof.
  induction l as [|x l IH]; simpl; intros Hall; constructor.
  - apply Hall. auto.
  - apply IH. auto.
Qed.

Section ReorderFacts.
Context {host : Host}.

Lemma bucket_keys_perm (timeRange : string) (cutoffTime : JsDate)
  (rawData rawData' : list Sample.t) :
  Permutation rawData rawData' ->
  Permutation (bucket_keys timeRange cutoffTime rawData)
    (bucket_keys timeRange cutoffTime rawData').
Proof.
  intros Hp. unfold bucket_keys.
  apply NoDup_Permutation; try apply (first_keys_NoDup key_eqb key_eqb_spec).
  intros k. rewrite !(first_keys_In key_eqb key_eqb_spec).
  split; intros [p [Hin Hk]]; exists p; split; try assumption.
  - apply (Permutation_in _ Hp). exact Hin.
  - apply (Permutation_in _ (Permutation_sym Hp)). exact Hin.
Qed.

Lemma bucket_samples_perm (timeRange : string) (cutoffTime : JsDate)
  (rawData rawData' : list Sample.t) (k : key) :
  Permutation rawData rawData' ->
  Permutation (bucket_samples timeRange cutoffTime rawData k)
    (bucket_samples timeRange cutoffTime rawData' k).
Proof. apply Permutation_filter. Qed.

Lemma concat_perm (servers servers' : list (list Sample.t)) :
  Forall2 (@Permutation Sample.t) servers servers' ->
  Permutation (List.concat servers) (List.concat servers').
Proof.
  induction 1 as [|s s' l l' Hs Hl IH]; simpl; [constructor|].
  apply Permutation_app; assumption.
Qed.

Lemma contributing_perm (timeRange : string) (cutoffTime : JsDate)
  (servers servers' : list (list Sample.t)) (k : key) :
  Forall2 (@Permutation Sample.t) servers servers' ->
  Forall2 (@Permutation Sample.t)
    (contributing timeRange cutoffTime servers k)
    (contributing timeRange cutoffTime servers' k).
Proof.
  unfold contributing.
  induction 1 as [|s s' l l' Hs Hl IH]; simpl; [constructor|].
  assert (Hb := bucket_samples_perm timeRange cutoffTime k Hs).
  rewrite (nonempty_perm Hb).
  destruct (nonempty (bucket_samples timeRange cutoffTime s' k));
    [constructor|]; assumption.
Qed.

End ReorderFacts.

(** C9 (as stated, refuted): three samples of one bucket with rx rates
    0.1, 0.2 and 0.3, in this order and reversed.  The sums
    (0.1 + 0.2) + 0.3 and (0.3 + 0.2) + 0.1 round differently in binary64,
    so the two series differ in rx_rate. *)
Lemma reordering_changes_the_mean :
  Permutation
    [sample_at (example_now - 3000) (JNum 0x1.999999999999ap-4%float) (JNum 1%float);
     sample_at (example_now - 2000) (JNum 0x1.999999999999ap-3%float) (JNum 1%float);
     sample_at (example_now - 1000) (JNum 0x1.3333333333333p-2%float) (JNum 1%float)]
    [sample_at (example_now - 1000) (JNum 0x1.3333333333333p-2%float) (JNum 1%float);
     sample_at (example_now - 2000) (JNum 0x1.999999999999ap-3%float) (JNum 1%float);
     sample_at (example_now - 3000) (JNum 0x1.999999999999ap-4%float) (JNum 1%float)]
  /\ aggregateDataByTime (host := example_host) example_now
       [sample_at (example_now - 3000) (JNum 0x1.999999999999ap-4%float) (JNum 1%float);
        sample_at (example_now - 2000) (JNum 0x1.999999999999ap-3%float) (JNum 1%float);
        sample_at (example_now - 1000) (JNum 0x1.3333333333333p-2%float) (JNum 1%float)]
       "1h"
     = Ok [Point.mk (DateAt 1699999980000) 0x1.999999999999bp-3%float 1%float 3%nat
             "Nov 14, 23:13:00"%string]
  /\ aggregateDataByTime (host := example_host) example_now
       [sample_at (example_now - 1000) (JNum 0x1.3333333333333p-2%float) (JNum 1%float);
        sample_at (example_now - 2000) (JNum 0x1.999999999999ap-3%float) (JNum 1%float);
        sample_at (example_now - 3000) (JNum 0x1.999999999999ap-4%float) (JNum 1%float)]
       "1h"
     = Ok [Point.mk (DateAt 1699999980000) 0x1.9999999999999p-3%float 1%float 3%nat
             "Nov 14, 23:13:00"%string].
Proof.
  split; [|split; vm_compute; reflexivity].
  apply Permutation_rev with (l := [_; _; _]).
Qed.

(** C9 (amended): reordering the input array of aggregateDataByTime, or the
    samples within each server's array of aggregateCombinedServerData,
    yields a series over the same bucket starts in the same order.  The
    point of a bucket start has the same timestamp and label; its rates are
    the means of the values of the samples that the input sends to that
    bucket, taken in the order of that input, and its data_points their
    number; likewise each total is the sum, in server order, of the means
    of each contributing server's samples in the order of that server's
    array.  The samples of a bucket in the two inputs, and of each server
    in it, are the same up to order, so counts are equal and the rates
    differ at most by the order of the additions. *)
Theorem reordering_keeps_the_buckets (host : Host) (now : Z) (timeRange : string)
  (rawData rawData' : list Sample.t) (servers servers' : list (list Sample.t))
  (out : list Point.t) (combined : list CombinedPoint.t) :
  Permutation rawData rawData' ->
  Forall2 (@Permutation Sample.t) servers servers' ->
  aggregateDataByTime now rawData timeRange = Ok out ->
  aggregateCombinedServerData now servers timeRange = Ok combined ->
  let cutoffTime := getTimeRangeCutoff (DateAt now) timeRange in
  exists starts combined_starts : list Z,
    out = map (point_at timeRange cutoffTime rawData) starts
    /\ aggregateDataByTime now rawData' timeRange
       = Ok (map (point_at timeRange cutoffTime rawData') starts)
    /\ (forall t,
          Permutation (bucket_samples timeRange cutoffTime rawData (Some t))
            (bucket_samples timeRange cutoffTime rawData' (Some t)))
    /\ combined = map (combined_point_at timeRange cutoffTime servers) combined_starts
    /\ aggregateCombinedServerData now servers' timeRange
       = Ok (map (combined_point_at timeRange cutoffTime servers') combined_starts)
    /\ (forall t,
          Forall2 (@Permutation Sample.t)
            (contributing timeRange cutoffTime servers (Some t))
            (contributing timeRange cutoffTime servers' (Some t))).
Proof.
  intros Hp Hps Hout Hcomb cutoffTime.
  apply aggregateDataByTime_series in Hout. destruct Hout as [ts [Hv [_ [_ ->]]]].
  apply aggregateCombinedServerData_series in Hcomb.
  destruct Hcomb as [cs [Hcv [_ [_ ->]]]].
  fold cutoffTime in Hv, Hcv. fold cutoffTime.
  destruct (all_valid_perm (bucket_keys_perm timeRange cutoffTime Hp) Hv)
    as [ts' [Hv' Hts]].
  destruct (all_valid_perm (bucket_keys_perm timeRange cutoffTime (concat_perm Hps)) Hcv)
    as [cs' [Hcv' Hcs]].
  exists (limit_points timeRange (sort Z.leb ts)).
  exists (limit_points timeRange (sort Z.leb cs)).
  split; [symmetry; apply limit_points_map|].
  split.
  { rewrite aggregateDataByTime_bind, aggregatedData_spec. cbv zeta.
    fold cutoffTime. rewrite Hv'. cbn [bind].
    rewrite (sort_Z_perm_eq Hts), limit_points_map. reflexivity. }
  split; [intros t; apply bucket_samples_perm; exact Hp|].
  split; [symmetry; apply limit_points_map|].
  split.
  { rewrite aggregateCombinedServerData_bind, combinedData_spec. cbv zeta.
    fold cutoffTime. rewrite Hcv'. cbn [bind].
    rewrite (sort_Z_perm_eq Hcs), limit_points_map. reflexivity. }
  intros t. apply contributing_perm. exact Hps.
Qed.

(* ------------------------------------------------------------------ *)
(** * The examples, through the theorems *)

Lemma example_series_computed :
  aggregateDataByTime (host := example_host) example_now example_samples "1h"
  = Ok example_series.
Proof. vm_compute. reflexivity. Qed.

Lemma example_combined_computed :
  aggregateCombinedServerData (host := example_host) example_now example_servers "1h"
  = Ok example_combined.
Proof. vm_compute. reflexivity. Qed.

Lemma series_strictly_ascending_witness :
  ascending (map Point.timestamp example_series)
  /\ ascending (map CombinedPoint.timestamp example_combined).
Proof.
  apply (@series_strictly_ascending example_host example_now "1h"%string
           example_samples example_servers example_series example_combined);
    vm_compute; reflexivity.
Defined.

(** The crowded hour: 61 buckets, of which the series keeps the newest 60;
    the input has the newest sample first. *)
Lemma crowded_hour_computed :
  aggregateDataByTime (host := example_host) example_now crowded_samples "1h"
  = Ok crowded_series
  /\ aggregateCombinedServerData (host := example_host) example_now
       crowded_servers "1h"
     = Ok crowded_combined
  /\ List.length crowded_series = 60%nat
  /\ (exists data,
        aggregatedData (host := example_host) example_now crowded_samples "1h"
        = Ok data
        /\ List.length data = 61%nat
        /\ hd_error data
           = Some (Point.mk (DateAt 1699996380000) 60%float 1%float 1%nat
                     "Nov 14, 22:13:00"%string)).
Proof.
  split; [vm_compute; reflexivity|]. split; [vm_compute; reflexivity|].
  split; [reflexivity|]. eexists. split; [vm_compute; reflexivity|].
  split; reflexivity.
Qed.

Lemma series_limited_to_target_witness :
  getTargetDataPoints "1h" = 60%nat
  /\ (List.length crowded_series <= 60)%nat
  /\ (List.length crowded_combined <= 60)%nat
  /\ (exists data dropped,
        aggregatedData (host := example_host) example_now crowded_samples "1h"
        = Ok data
        /\ ascending (map Point.timestamp data)
        /\ data = dropped ++ crowded_series
        /\ List.length crowded_series = Nat.min 60 (List.length data)
        /\ (forall p q, In p dropped -> In q crowded_series ->
            date_lt (Point.timestamp p) (Point.timestamp q) = true))
  /\ (exists data dropped,
        combinedData (host := example_host) example_now crowded_servers "1h"
        = Ok data
        /\ ascending (map CombinedPoint.timestamp data)
        /\ data = dropped ++ crowded_combined
        /\ List.length crowded_combined = Nat.min 60 (List.length data)
        /\ (forall p q, In p dropped -> In q crowded_combined ->
            date_lt (CombinedPoint.timestamp p) (CombinedPoint.timestamp q) = true)).
Proof.
  apply (@series_limited_to_target example_host example_now "1h"%string
           crowded_samples crowded_servers crowded_series crowded_combined);
    vm_compute; reflexivity.
Defined.

Lemma reordering_keeps_the_buckets_witness :
  let cutoffTime := getTimeRangeCutoff (host := example_host) (DateAt example_now) "1h" in
  exists starts combined_starts : list Z,
    example_series
    = map (point_at (host := example_host) "1h" cutoffTime example_samples) starts
    /\ aggregateDataByTime (host := example_host) example_now (rev example_samples) "1h"
       = Ok (map (point_at (host := example_host) "1h" cutoffTime (rev example_samples))
               starts)
    /\ (forall t,
          Permutation
            (bucket_samples (host := example_host) "1h" cutoffTime example_samples
               (Some t))
            (bucket_samples (host := example_host) "1h" cutoffTime
               (rev example_samples) (Some t)))
    /\ example_combined
       = map (combined_point_at (host := example_host) "1h" cutoffTime example_servers)
           combined_starts
    /\ aggregateCombinedServerData (host := example_host) example_now
         (map (@rev Sample.t) example_servers) "1h"
       = Ok (map (combined_point_at (host := example_host) "1h" cutoffTime
                    (map (@rev Sample.t) example_servers))
               combined_starts)
    /\ (forall t,
          Forall2 (@Permutation Sample.t)
            (contributing (host := example_host) "1h" cutoffTime example_servers
               (Some t))
            (contributing (host := example_host) "1h" cutoffTime
               (map (@rev Sample.t) example_servers) (Some t))).
Proof.
  apply (@reordering_keeps_the_buckets example_host example_now "1h"%string
           example_samples (rev example_samples)
           example_servers (map (@rev Sample.t) example_servers)
           example_series example_combined).
  - apply Permutation_rev.
  - repeat constructor; apply Permutation_rev.
  - vm_compute. reflexivity.
  - vm_compute. reflexivity.
Defined.

(* ------------------------------------------------------------------ *)
(** * aggregateRealtimeData fills 30 buckets made in advance *)

Section FillingFacts.
Variables (K V X : Type) (eqb : K -> K -> bool).
Hypothesis eqb_spec : forall a b, reflect (a = b) (eqb a b).
Variables (sel : X -> option K) (upd : X -> V -> V).

Lemma fold_fstep_tabulated (l : list X) :
  forall (g : K -> V) (ks : list K),
  NoDup ks ->
  fold_left (fstep eqb sel upd) l (map (fun k => (k, g k)) ks)
  = map (fun k => (k, fold_left (fun v x => upd x v) (members eqb sel k l) (g k))) ks.
Proof.
  induction l as [|x l IH]; intros g ks Hnd; simpl; [reflexivity|].
  unfold fstep at 2. destruct (sel x) as [k0|] eqn:Hsel.
  - assert (Hhas := get_has eqb k0 (map (fun k => (k, g k)) ks)).
    rewrite has_tabulated in Hhas.
    destruct (JsMap.get eqb k0 (map (fun k => (k, g k)) ks)) as [v|].
    + rewrite (modify_tabulated eqb eqb_spec g
                 (fun k => if eqb k k0 then upd x (g k) else g k)) ; try assumption.
      * rewrite IH by assumption. apply map_ext. intros k.
        unfold selects. rewrite Hsel. destruct (eqb k k0); reflexivity.
      * rewrite (eqb_refl_true eqb eqb_spec). reflexivity.
      * intros k' Hne. destruct (eqb_spec k' k0); [contradiction | reflexivity].
    + rewrite IH by assumption. apply map_ext_in. intros k Hk.
      unfold selects. rewrite Hsel.
      destruct (eqb_spec k k0) as [->|]; [|reflexivity].
      apply (mem_In eqb eqb_spec) in Hk. congruence.
  - rewrite IH by assumption. apply map_ext. intros k.
    unfold selects. rewrite Hsel. reflexivity.
Qed.

End FillingFacts.

Lemma sort_sorted_id (A : Type) (le : A -> A -> bool) (l : list A) :
  StronglySorted (fun a b => le a b = true) l -> sort le l = l.
Proof.
  induction 1 as [|x l Hs IH Hall]; simpl; [reflexivity|].
  rewrite IH. destruct l as [|y l]; simpl; [reflexivity|].
  inversion Hall as [|? ? Hxy _]; subst. rewrite Hxy. reflexivity.
Qed.

Lemma seq_sorted (start len : nat) :
  StronglySorted (fun i j => (i < j)%nat) (seq start len).
Proof.
  revert start. induction len as [|len IH]; intros start; simpl; constructor.
  - apply IH.
  - apply Forall_forall. intros j Hj. apply in_seq in Hj. lia.
Qed.

Lemma StronglySorted_weaken (A : Type) (R R' : A -> A -> Prop) (l : list A) :
  (forall a b, R a b -> R' a b) -> StronglySorted R l -> StronglySorted R' l.
Proof.
  intros Himp. induction 1 as [|x l Hs IH Hall]; constructor; [assumption|].
  eapply Forall_impl; [|exact Hall]. intros b. apply Himp.
Qed.

Lemma small_multiple_exact (i : nat) :
  (i < 30)%nat -> to_Z (of_Z (Z.of_nat i * 30)) = Some (Z.of_nat i * 30).
Proof.
  intros Hi. do 30 (destruct i as [|i]; [reflexivity|]). lia.
Qed.

Section RealtimeFacts.
Context {host : Host}.

Lemma create_bucket_key (clock : Z) (buckets : JsMap.t key Bucket.t) (i : nat) :
  (i < 30)%nat ->
  create_bucket (DateAt (realtime_start clock)) buckets i
  = JsMap.set key_eqb (Some (realtime_bucket_start clock i))
      (empty_bucket (Some (realtime_bucket_start clock i))) buckets.
Proof.
  intros Hi. unfold create_bucket, addSeconds.
  erewrite add_scaled_exact by (apply small_multiple_exact; exact Hi). simpl.
  replace ((realtime_start clock + Z.of_nat i * 30 * msPerSecond) / 30000 * 30000)
    with (realtime_bucket_start clock i); [reflexivity|].
  unfold realtime_bucket_start, msPerSecond.
  replace (realtime_start clock + Z.of_nat i * 30 * 1000)
    with (realtime_start clock + Z.of_nat i * 30000) by lia.
  rewrite Z.div_add by lia. lia.
Qed.

Lemma bucket_start_injective (clock : Z) (i j : nat) :
  realtime_bucket_start clock i = realtime_bucket_start clock j -> i = j.
Proof. unfold realtime_bucket_start. lia. Qed.

Lemma created_buckets (clock : Z) (n : nat) :
  (n <= 30)%nat ->
  fold_left (create_bucket (DateAt (realtime_start clock))) (seq 0 n) []
  = map (fun k => (k, empty_bucket k))
      (map (fun i => Some (realtime_bucket_start clock i)) (seq 0 n)).
Proof.
  induction n as [|n IH]; intros Hn; [reflexivity|].
  rewrite seq_S, fold_left_app, !map_app. simpl.
  rewrite IH by lia. rewrite create_bucket_key by lia.
  apply set_tabulated_new.
  destruct (mem key_eqb _ _) eqn:Hm; [|reflexivity].
  apply (mem_In key_eqb key_eqb_spec) in Hm. apply in_map_iff in Hm.
  destruct Hm as [i [Heq Hi]]. apply in_seq in Hi.
  injection Heq as Heq. apply bucket_start_injective in Heq. lia.
Qed.

Lemma realtime_bucket_keys_NoDup (clock : Z) : NoDup (realtime_bucket_keys clock).
Proof.
  unfold realtime_bucket_keys. apply Finite.Injective_map_NoDup; [|apply seq_NoDup].
  intros i j Heq. injection Heq as Heq. apply bucket_start_injective in Heq. exact Heq.
Qed.

Lemma collect_realtime_fstep (startTime : JsDate)
  (buckets : JsMap.t key Bucket.t) (point : Sample.t) :
  collect_realtime startTime buckets point
  = fstep key_eqb (realtime_key startTime) push_sample buckets point.
Proof.
  unfold collect_realtime, fstep, realtime_key.
  destruct (point_rejected point); [reflexivity|].
  destruct (normalizeTimestamp (Sample.timestamp point)) as [pointTime|];
    [|reflexivity].
  destruct (date_lt pointTime startTime); reflexivity.
Qed.

Lemma realtime_start_time (clock : Z) :
  subMinutes (toDate (normalizeTimestamp (JDate (DateAt clock)))) 15%float
  = DateAt (realtime_start clock).
Proof.
  rewrite normalizeTimestamp_Date. unfold subMinutes, addMinutes, toDate.
  erewrite add_scaled_exact by reflexivity.
  unfold realtime_start, msPerMinute. f_equal; lia.
Qed.

(** The real-time series of a non-empty input, in terms of the input. *)
Lemma aggregateRealtimeData_spec (clock : Z) (rawData : list Sample.t) :
  rawData <> [] ->
  aggregateRealtimeData clock rawData
  = map (realtime_point_at clock rawData) (seq 0 30).
Proof.
  intros Hne. unfold aggregateRealtimeData.
  destruct rawData as [|p ps]; [contradiction|].
  set (rawData := p :: ps). clearbody rawData.
  rewrite realtime_start_time. unfold realtime_buckets.
  rewrite created_buckets by lia.
  rewrite (fold_left_ext_fun _ _ _ _ (collect_realtime_fstep (DateAt (realtime_start clock)))).
  rewrite (fold_fstep_tabulated key_eqb key_eqb_spec)
    by apply realtime_bucket_keys_NoDup.
  unfold JsMap.values. rewrite !map_map.
  rewrite sort_map. rewrite sort_sorted_id.
  - apply map_ext. intros i. cbn [snd]. rewrite fold_push_sample. reflexivity.
  - eapply StronglySorted_weaken; [|apply seq_sorted].
    intros i j Hij. cbv beta in Hij. cbn [snd]. rewrite !fold_push_sample.
    cbn [date_le RealtimePoint.timestamp realtime_point Bucket.timestamp
         empty_bucket Date_of_time].
    unfold realtime_bucket_start. apply Z.leb_le. lia.
Qed.

End RealtimeFacts.

(** C4 (as stated, refuted): on the empty sample array the real-time
    aggregator returns before any bucket is created: the series is empty,
    not 30 zero points. *)
Lemma realtime_empty_input_gives_no_points :
  aggregateRealtimeData (host := example_host) example_now [] = [].
Proof. reflexivity. Qed.

(** C4 (amended): for every non-empty sample array, whatever the age of its
    samples, the real-time aggregator returns 30 points in ascending order,
    the [i]-th at the window start (clock minus 15 minutes) rounded down to
    a multiple of 30 seconds plus [i] times 30 seconds; a bucket that
    received no sample appears with total_throughput 0 and data_points 0.
    On the empty array it returns the empty series. *)
Theorem realtime_series_has_30_points (host : Host) (clock : Z)
  (rawData : list Sample.t) :
  rawData <> [] ->
  aggregateRealtimeData clock rawData
  = map (realtime_point_at clock rawData) (seq 0 30)
  /\ List.length (aggregateRealtimeData clock rawData) = 30%nat
  /\ map RealtimePoint.timestamp (aggregateRealtimeData clock rawData)
     = map (fun i => DateAt (realtime_bucket_start clock i)) (seq 0 30)
  /\ (forall i,
        realtime_samples clock rawData (Some (realtime_bucket_start clock i)) = [] ->
        realtime_point_at clock rawData i
        = RealtimePoint.mk (DateAt (realtime_bucket_start clock i)) zero 0%nat)
  /\ aggregateRealtimeData clock [] = [].
Proof.
  intros Hne. rewrite (aggregateRealtimeData_spec clock Hne).
  split; [reflexivity|]. split; [rewrite length_map; apply length_seq|].
  split; [rewrite map_map; reflexivity|]. split; [|reflexivity].
  intros i Hnone. unfold realtime_point_at. cbv zeta. rewrite Hnone. reflexivity.
Qed.

Lemma realtime_series_has_30_points_witness :
  aggregateRealtimeData (host := example_host) example_now
    [sample_at (example_now - 3600000) (JNum 10%float) (JNum 4%float)]
  = map (realtime_point_at (host := example_host) example_now
           [sample_at (example_now - 3600000) (JNum 10%float) (JNum 4%float)])
      (seq 0 30)
  /\ List.length
       (aggregateRealtimeData (host := example_host) example_now
          [sample_at (example_now - 3600000) (JNum 10%float) (JNum 4%float)])
     = 30%nat
  /\ map RealtimePoint.timestamp
       (aggregateRealtimeData (host := example_host) example_now
          [sample_at (example_now - 3600000) (JNum 10%float) (JNum 4%float)])
     = map (fun i => DateAt (realtime_bucket_start example_now i)) (seq 0 30)
  /\ (forall i,
        realtime_samples (host := example_host) example_now
          [sample_at (example_now - 3600000) (JNum 10%float) (JNum 4%float)]
          (Some (realtime_bucket_start example_now i)) = [] ->
        realtime_point_at (host := example_host) example_now
          [sample_at (example_now - 3600000) (JNum 10%float) (JNum 4%float)] i
        = RealtimePoint.mk (DateAt (realtime_bucket_start example_now i)) zero 0%nat)
  /\ aggregateRealtimeData (host := example_host) example_now [] = [].
Proof.
  apply (@realtime_series_has_30_points example_host example_now
           [sample_at (example_now - 3600000) (JNum 10%float) (JNum 4%float)]).
  discriminate.
Defined.

Section RealtimeDrop.
Context {host : Host}.

Lemma realtime_samples_drop (clock : Z) (before after : list Sample.t)
  (point : Sample.t) (k : key) :
  realtime_key (DateAt (realtime_start clock)) point <> Some k ->
  realtime_samples clock (before ++ point :: after) k
  = realtime_samples clock (before ++ after) k.
Proof.
  intros Hk. unfold realtime_samples, members. rewrite !filter_app. simpl.
  unfold selects at 2.
  destruct (realtime_key (DateAt (realtime_start clock)) point) as [k'|];
    [|reflexivity].
  destruct (key_eqb_spec k k') as [->|]; [contradiction | reflexivity].
Qed.

End RealtimeDrop.

(** C10: a sample that passes the guard, whose normalized time is at or
    after the window start and whose 30-second key is none of the 30 keys
    created in advance, is dropped: the series is the 30 points computed
    from the other samples alone. *)
Theorem realtime_sample_without_bucket_is_dropped (host : Host) (clock : Z)
  (before after : list Sample.t) (point : Sample.t) (t : Z) :
  point_rejected point = false ->
  normalizeTimestamp (Sample.timestamp point) = Some (DateAt t) ->
  realtime_start clock <= t ->
  ~ In (Some (t / 30000 * 30000)) (realtime_bucket_keys clock) ->
  aggregateRealtimeData clock (before ++ point :: after)
  = map (realtime_point_at clock (before ++ after)) (seq 0 30).
Proof.
  intros Hguard Hnorm Hstart Hkey.
  rewrite aggregateRealtimeData_spec by (destruct before; discriminate).
  apply map_ext_in. intros i Hi. unfold realtime_point_at. cbv zeta.
  rewrite realtime_samples_drop; [reflexivity|].
  unfold realtime_key. rewrite Hguard, Hnorm. simpl.
  destruct (Z.ltb_spec t (realtime_start clock)); [discriminate|].
  intros Heq. injection Heq as Heq. apply Hkey.
  unfold realtime_bucket_keys. apply in_map_iff. exists i. split; [|exact Hi].
  f_equal. symmetry. exact Heq.
Qed.

Lemma realtime_sample_without_bucket_is_dropped_witness :
  aggregateRealtimeData (host := example_host) example_now
    ([sample_at (example_now - 32000) (JNum 5%float) (JNum 5%float)]
     ++ sample_at (example_now - 1000) (JNum 10%float) (JNum 1%float) :: [])
  = map (realtime_point_at (host := example_host) example_now
           ([sample_at (example_now - 32000) (JNum 5%float) (JNum 5%float)] ++ []))
      (seq 0 30).
Proof.
  apply (@realtime_sample_without_bucket_is_dropped example_host example_now
           [sample_at (example_now - 32000) (JNum 5%float) (JNum 5%float)] []
           (sample_at (example_now - 1000) (JNum 10%float) (JNum 1%float))
           (example_now - 1000)).
  - reflexivity.
  - reflexivity.
  - vm_compute. discriminate.
  - vm_compute. intuition discriminate.
Defined.

(* ------------------------------------------------------------------ *)
(** * The bucket key functions *)

Lemma below_in_range (n : nat) (x : Z) :
  0 <= x < Z.of_nat n -> In x (map Z.of_nat (seq 0 n)).
Proof.
  intros Hx. apply in_map_iff. exists (Z.to_nat x). split; [lia|].
  apply in_seq. lia.
Qed.

Lemma floor_multiple_minutes (w m : Z) :
  In w [6; 12; 24] -> 0 <= m < 60 ->
  to_Z (floor_multiple (of_Z m) (of_Z w)) = Some (m / w * w).
Proof.
  intros Hw Hm.
  assert (Hall : forallb (fun w => forallb (minutes_checked w) (map Z.of_nat (seq 0 60)))
                   [6; 12; 24] = true) by (vm_compute; reflexivity).
  rewrite forallb_forall in Hall. specialize (Hall w Hw).
  rewrite forallb_forall in Hall. specialize (Hall m (below_in_range 60 Hm)).
  unfold minutes_checked in Hall.
  destruct (to_Z (floor_multiple (of_Z m) (of_Z w))) as [r|]; [|discriminate].
  apply Z.eqb_eq in Hall. congruence.
Qed.

Lemma floor_multiple_hours (w : num) (table : list Z) (h : Z) :
  forallb (hours_checked w table) (map Z.of_nat (seq 0 24)) = true ->
  0 <= h < 24 ->
  to_Z (Math_floor (floor_multiple (of_Z h) w)) = Some (nth (Z.to_nat h) table 0).
Proof.
  intros Hall Hh. rewrite forallb_forall in Hall.
  specialize (Hall h (below_in_range 24 Hh)). unfold hours_checked in Hall.
  destruct (to_Z (Math_floor (floor_multiple (of_Z h) w))) as [r|]; [|discriminate].
  apply Z.eqb_eq in Hall. congruence.
Qed.

Section BucketKeyFacts.
Context {host : Host}.

Lemma startOfMinute_floor (t : Z) :
  startOfMinute (DateAt t) = DateAt (window_floor 60000 t).
Proof.
  unfold startOfMinute, set_below, window_floor, UTC, LocalTime, msPerMinute.
  f_equal. lia.
Qed.

Lemma minute_bucket_key (w t : Z) :
  In w [6; 12; 24] ->
  minute_bucket (of_Z w) (DateAt t)
  = DateAt (window_floor 3600000 t + local_minute t / w * w * 60000).
Proof.
  intros Hw. unfold minute_bucket, addMinutes, startOfHour, set_below, getMinutes,
    local_field.
  erewrite add_scaled_exact
    by (apply floor_multiple_minutes; [exact Hw | apply Z.mod_pos_bound; lia]).
  unfold window_floor, local_minute, UTC, LocalTime, msPerHour, msPerMinute.
  f_equal. lia.
Qed.

Lemma hour_bucket_key (w : num) (table : list Z) (t : Z) :
  forallb (hours_checked w table) (map Z.of_nat (seq 0 24)) = true ->
  hour_bucket w (DateAt t)
  = DateAt (window_floor 86400000 t
            + nth (Z.to_nat (local_hour t)) table 0 * 3600000).
Proof.
  intros Hall. unfold hour_bucket, addHours, startOfDay, set_below, getHours,
    local_field.
  erewrite add_scaled_exact
    by (apply floor_multiple_hours; [exact Hall | apply Z.mod_pos_bound; lia]).
  unfold window_floor, local_hour, UTC, LocalTime, msPerHour, msPerDay.
  f_equal. lia.
Qed.

(** A window of [w] minutes that divides the hour: hour start plus whole
    windows is the local time rounded down to the window. *)
Lemma hour_windows_floor (w t : Z) :
  In w [6; 12] ->
  window_floor 3600000 t + local_minute t / w * w * 60000
  = window_floor (w * 60000) t.
Proof.
  unfold window_floor, local_minute. generalize (t + tzOffset). intros l.
  intros [<-|[<-|[]]]; simpl; Z.div_mod_to_equations; lia.
Qed.

End BucketKeyFacts.




(* ================================================================== *)
(** * Further properties of the aggregation code *)

(* ------------------------------------------------------------------ *)
(** * Standardization and bucket starts *)

Lemma hour_table_facts (table : list Z) (span h : Z) :
  forallb (hour_table_bounded table span) (map Z.of_nat (seq 0 24)) = true ->
  0 <= h < 24 ->
  0 <= nth (Z.to_nat h) table 0 <= h /\ h < nth (Z.to_nat h) table 0 + span.
Proof.
  intros Hall Hh. rewrite forallb_forall in Hall.
  specialize (Hall h (below_in_range 24 Hh)). unfold hour_table_bounded in Hall.
  cbv zeta in Hall. apply andb_prop in Hall. destruct Hall as [Hall H3].
  apply andb_prop in Hall. destruct Hall as [H1 H2].
  apply Z.leb_le in H1, H2. apply Z.ltb_lt in H3. lia.
Qed.

Lemma hour_table_order (table : list Z) (h h' : Z) :
  forallb (hour_table_monotone table) (map Z.of_nat (seq 0 24)) = true ->
  0 <= h <= h' -> h' < 24 ->
  nth (Z.to_nat h) table 0 <= nth (Z.to_nat h') table 0.
Proof.
  intros Hall Hh Hh'. rewrite forallb_forall in Hall.
  assert (Hin : In h (map Z.of_nat (seq 0 24))) by (apply (below_in_range 24); lia).
  specialize (Hall h Hin). unfold hour_table_monotone in Hall.
  rewrite forallb_forall in Hall.
  assert (Hin' : In h' (map Z.of_nat (seq 0 24))) by (apply (below_in_range 24); lia).
  specialize (Hall h' Hin'). apply orb_prop in Hall. destruct Hall as [Hlt|Hle].
  - apply Z.ltb_lt in Hlt. lia.
  - apply Z.leb_le in Hle. exact Hle.
Qed.

Lemma floor_multiple_seconds (w s : Z) :
  In w [5; 30; 60] -> 0 <= s < 60 ->
  to_Z (floor_multiple (of_Z s) (of_Z w)) = Some (s / w * w).
Proof.
  intros Hw Hs.
  assert (Hall : forallb (fun w => forallb (minutes_checked w) (map Z.of_nat (seq 0 60)))
                   [5; 30; 60] = true) by (vm_compute; reflexivity).
  rewrite forallb_forall in Hall. specialize (Hall w Hw).
  rewrite forallb_forall in Hall. specialize (Hall s (below_in_range 60 Hs)).
  unfold minutes_checked in Hall.
  destruct (to_Z (floor_multiple (of_Z s) (of_Z w))) as [r|]; [|discriminate].
  apply Z.eqb_eq in Hall. congruence.
Qed.

Section StandardizeFacts.
Context {host : Host}.

Lemma standardize_with_interval (w t : Z) :
  In w [5; 30; 60] ->
  setSeconds (DateAt t) (floor_multiple (getSeconds (DateAt t)) (of_Z w))
  = DateAt (window_floor (w * 1000) t).
Proof.
  intros Hw. unfold setSeconds, getSeconds, local_field.
  rewrite floor_multiple_seconds
    by (try exact Hw; apply Z.mod_pos_bound; lia).
  unfold set_below, option_map, window_floor, UTC, LocalTime, msPerMinute, msPerSecond.
  f_equal. generalize (t + tzOffset). intros l.
  destruct Hw as [<-|[<-|[<-|[]]]]; Z.div_mod_to_equations; lia.
Qed.

Lemma standardizeTimestamp_floor (timeRange : string) (t : Z) :
  standardizeTimestamp (Some (DateAt t)) timeRange
  = DateAt (window_floor (standard_interval timeRange) t).
Proof.
  unfold standardizeTimestamp, standard_interval, switch_range, date_of_nullable.
  cbv zeta.
  repeat match goal with
         | |- context [String.eqb timeRange ?s] => destruct (String.eqb timeRange s)
         end;
    first [ exact (@standardize_with_interval 5 t (or_introl eq_refl))
          | exact (@standardize_with_interval 30 t (or_intror (or_introl eq_refl)))
          | exact (@standardize_with_interval 60 t
                     (or_intror (or_intror (or_introl eq_refl)))) ].
Qed.

Lemma getTimeBucketFunction_start (timeRange : string) (t : Z) :
  getTimeBucketFunction timeRange (DateAt t) = DateAt (bucket_start timeRange t).
Proof.
  unfold getTimeBucketFunction, bucket_start, switch_range.
  destruct (String.eqb timeRange "1h"); [apply startOfMinute_floor|].
  destruct (String.eqb timeRange "6h").
  { change 6%float with (of_Z 6). rewrite minute_bucket_key by (simpl; auto).
    rewrite (@hour_windows_floor host 6) by (simpl; auto). reflexivity. }
  destruct (String.eqb timeRange "12h").
  { change 12%float with (of_Z 12). rewrite minute_bucket_key by (simpl; auto).
    rewrite (@hour_windows_floor host 12) by (simpl; auto). reflexivity. }
  destruct (String.eqb timeRange "1d").
  { change 24%float with (of_Z 24). rewrite minute_bucket_key by (simpl; auto).
    f_equal. lia. }
  destruct (String.eqb timeRange "3d").
  { apply hour_bucket_key. vm_compute. reflexivity. }
  destruct (String.eqb timeRange "1w").
  { apply hour_bucket_key. vm_compute. reflexivity. }
  apply startOfMinute_floor.
Qed.

Lemma local_hour_range (t : Z) : 0 <= local_hour t < 24.
Proof. unfold local_hour. apply Z.mod_pos_bound. lia. Qed.

End StandardizeFacts.

Section BucketStartFacts.
Context {host : Host}.

Lemma hours_3d_facts (h : Z) :
  0 <= h < 24 ->
  0 <= nth (Z.to_nat h) hours_3d 0 <= h /\ h < nth (Z.to_nat h) hours_3d 0 + 2.
Proof. apply hour_table_facts. vm_compute. reflexivity. Qed.

Lemma hours_1w_facts (h : Z) :
  0 <= h < 24 ->
  0 <= nth (Z.to_nat h) hours_1w 0 <= h /\ h < nth (Z.to_nat h) hours_1w 0 + 4.
Proof. apply hour_table_facts. vm_compute. reflexivity. Qed.

Lemma hours_3d_order (h h' : Z) :
  0 <= h <= h' -> h' < 24 ->
  nth (Z.to_nat h) hours_3d 0 <= nth (Z.to_nat h') hours_3d 0.
Proof. apply hour_table_order. vm_compute. reflexivity. Qed.

Lemma hours_1w_order (h h' : Z) :
  0 <= h <= h' -> h' < 24 ->
  nth (Z.to_nat h) hours_1w 0 <= nth (Z.to_nat h') hours_1w 0.
Proof. apply hour_table_order. vm_compute. reflexivity. Qed.

(** The bucket start lies at or before the instant, less than the span of
    the range away. *)
Lemma bucket_start_bounds (timeRange : string) (t : Z) :
  bucket_start timeRange t <= t < bucket_start timeRange t + bucket_span timeRange.
Proof.
  unfold bucket_start, bucket_span, switch_range.
  assert (H3 := hours_3d_facts (local_hour_range t)).
  assert (H1 := hours_1w_facts (local_hour_range t)).
  set (k3 := nth (Z.to_nat (local_hour t)) hours_3d 0) in *. clearbody k3.
  set (k1 := nth (Z.to_nat (local_hour t)) hours_1w 0) in *. clearbody k1.
  unfold window_floor, local_minute, local_hour in *.
  remember (t + tzOffset) as l eqn:Hl.
  repeat match goal with
         | |- context [String.eqb timeRange ?s] => destruct (String.eqb timeRange s)
         end; Z.div_mod_to_equations; lia.
Qed.

(** A later instant never has an earlier bucket start. *)
Lemma bucket_start_monotone (timeRange : string) (t t' : Z) :
  t <= t' -> bucket_start timeRange t <= bucket_start timeRange t'.
Proof.
  intros Hle. unfold bucket_start, switch_range.
  assert (H3 := hours_3d_facts (local_hour_range t)).
  assert (H3' := hours_3d_facts (local_hour_range t')).
  assert (H1 := hours_1w_facts (local_hour_range t)).
  assert (H1' := hours_1w_facts (local_hour_range t')).
  assert (O3 := @hours_3d_order (local_hour t) (local_hour t')).
  assert (O1 := @hours_1w_order (local_hour t) (local_hour t')).
  assert (R := local_hour_range t). assert (R' := local_hour_range t').
  revert H3 H3' H1 H1' O3 O1 R R'.
  generalize (nth (Z.to_nat (local_hour t)) hours_3d 0).
  generalize (nth (Z.to_nat (local_hour t')) hours_3d 0).
  generalize (nth (Z.to_nat (local_hour t)) hours_1w 0).
  generalize (nth (Z.to_nat (local_hour t')) hours_1w 0).
  unfold window_floor, local_minute, local_hour.
  assert (Hl : t + tzOffset <= t' + tzOffset) by lia. revert Hl.
  generalize (t + tzOffset) (t' + tzOffset).
  intros l l' Hl k1' k1 k3' k3 H3 H3' H1 H1' O3 O1 R R'.
  repeat match goal with
         | |- context [String.eqb timeRange ?s] => destruct (String.eqb timeRange s)
         end;
    Z.div_mod_to_equations; lia.
Qed.

(** Standardizing an instant does not move it to another bucket. *)
Lemma bucket_start_standardized (timeRange : string) (t : Z) :
  bucket_start timeRange (window_floor (standard_interval timeRange) t)
  = bucket_start timeRange t.
Proof.
  unfold bucket_start, standard_interval, switch_range, window_floor,
    local_minute, local_hour.
  repeat match goal with
         | |- context [String.eqb timeRange ?s] => destruct (String.eqb timeRange s)
         end;
    match goal with
    | |- context [(t + tzOffset) / ?i * ?i - tzOffset + tzOffset] =>
        replace ((t + tzOffset) / i * i - tzOffset + tzOffset)
          with ((t + tzOffset) / i * i) by lia
    end;
    generalize (t + tzOffset); intros l;
    try (Z.div_mod_to_equations; lia);
    replace (l / 60000 * 60000 / 3600000) with (l / 3600000)
      by (Z.div_mod_to_equations; lia);
    replace (l / 60000 * 60000 / 86400000) with (l / 86400000)
      by (Z.div_mod_to_equations; lia);
    reflexivity.
Qed.

End BucketStartFacts.

(** X1: on a valid instant standardizeTimestamp rounds down to the
    interval of the range (5, 30 or 60 seconds, 5 seconds for an unknown
    label) of local time: the result is at most one interval before the
    instant and is a multiple of the interval in local time. *)
Theorem standardizeTimestamp_rounds_down (host : Host) (timeRange : string) (t : Z) :
  exists s,
    standardizeTimestamp (Some (DateAt t)) timeRange = DateAt s
    /\ s <= t < s + standard_interval timeRange
    /\ (s + tzOffset) mod standard_interval timeRange = 0
    /\ In (standard_interval timeRange) [5000; 30000; 60000].
Proof.
  exists (window_floor (standard_interval timeRange) t).
  split; [apply standardizeTimestamp_floor|].
  assert (Hin : In (standard_interval timeRange) [5000; 30000; 60000]).
  { unfold standard_interval, switch_range.
    repeat match goal with
           | |- context [String.eqb timeRange ?s] => destruct (String.eqb timeRange s)
           end; simpl; tauto. }
  unfold window_floor.
  replace ((t + tzOffset) / standard_interval timeRange * standard_interval timeRange
           - tzOffset + tzOffset)
    with ((t + tzOffset) / standard_interval timeRange * standard_interval timeRange)
    by lia.
  remember (t + tzOffset) as l eqn:Hl.
  destruct Hin as [Hi|[Hi|[Hi|[]]]]; rewrite <- Hi;
    (split; [Z.div_mod_to_equations; lia|]);
    (split; [Z.div_mod_to_equations; lia | simpl; tauto]).
Qed.

(** X2: standardizing an instant before it is bucketed never changes its
    bucket: the key function gives the same bucket start for the
    standardized instant and for the instant itself, for every label. *)
Theorem standardization_keeps_the_bucket (host : Host) (timeRange : string) (t : Z) :
  getTimeBucketFunction timeRange (standardizeTimestamp (Some (DateAt t)) timeRange)
  = getTimeBucketFunction timeRange (DateAt t).
Proof.
  rewrite standardizeTimestamp_floor, !getTimeBucketFunction_start.
  f_equal. apply bucket_start_standardized.
Qed.

(** X3: the bucket start returned for a valid instant is a valid instant at
    or before it and less than one span earlier: 1, 6, 12 and 24 minutes
    for 1h, 6h, 12h and 1d, 2 hours for 3d and 4 hours for 1w. *)
Theorem bucket_start_close_before (host : Host) (timeRange : string) (t : Z) :
  exists k,
    getTimeBucketFunction timeRange (DateAt t) = DateAt k
    /\ k <= t < k + bucket_span timeRange
    /\ map bucket_span ["1h"%string; "6h"%string; "12h"%string; "1d"%string;
                        "3d"%string; "1w"%string; "30d"%string]
       = [60000; 360000; 720000; 1440000; 7200000; 14400000; 60000].
Proof.
  exists (bucket_start timeRange t).
  split; [apply getTimeBucketFunction_start|].
  split; [apply bucket_start_bounds | reflexivity].
Qed.

(** X4: the key function keeps the order of time: a later instant never
    gets an earlier bucket start. *)
Theorem bucket_start_keeps_order (host : Host) (timeRange : string) (t t' : Z) :
  t <= t' ->
  exists k k',
    getTimeBucketFunction timeRange (DateAt t) = DateAt k
    /\ getTimeBucketFunction timeRange (DateAt t') = DateAt k'
    /\ k <= k'.
Proof.
  intros Hle. exists (bucket_start timeRange t), (bucket_start timeRange t').
  split; [apply getTimeBucketFunction_start|].
  split; [apply getTimeBucketFunction_start|].
  apply bucket_start_monotone. exact Hle.
Qed.

Lemma bucket_start_keeps_order_witness :
  exists k k',
    getTimeBucketFunction (host := example_host) "3d" (DateAt 3000000) = DateAt k
    /\ getTimeBucketFunction (host := example_host) "3d" (DateAt 4200000) = DateAt k'
    /\ k <= k'.
Proof.
  apply (@bucket_start_keeps_order example_host "3d"%string 3000000 4200000).
  lia.
Defined.

(* ------------------------------------------------------------------ *)
(** * Which samples reach which bucket *)

Section CountingFacts.
Variables (K X : Type) (eqb : K -> K -> bool).
Hypothesis eqb_spec : forall a b, reflect (a = b) (eqb a b).
Variable sel : X -> option K.

Lemma sum_with_one_more (f : K -> nat) (k0 : K) (ks : list K) :
  NoDup ks ->
  list_sum (map (fun k => (f k + (if eqb k k0 then 1 else 0))%nat) ks)
  = (list_sum (map f ks) + (if mem eqb k0 ks then 1 else 0))%nat.
Proof.
  induction 1 as [|k ks Hnotin Hnd IH]; simpl; [reflexivity|].
  rewrite IH. destruct (eqb_spec k k0) as [->|Hne].
  - rewrite (eqb_refl_true eqb eqb_spec). simpl.
    destruct (mem eqb k0 ks) eqn:Hm; [|lia].
    apply (mem_In eqb eqb_spec) in Hm. contradiction.
  - destruct (eqb_spec k0 k); [congruence|]. simpl. lia.
Qed.

(** Every selected item is in the group of exactly one key. *)
Lemma members_partition (l : list X) :
  list_sum (map (fun k => List.length (members eqb sel k l)) (first_keys eqb sel l))
  = List.length (filter (fun x => match sel x with Some _ => true | None => false end) l).
Proof.
  induction l as [|x l IH] using rev_ind; [reflexivity|].
  rewrite first_keys_snoc, filter_app, length_app. simpl.
  rewrite (map_ext _ (fun k => (List.length (members eqb sel k l)
                                + (if selects eqb sel k x then 1 else 0))%nat))
    by (intros k; rewrite members_snoc, length_app;
        destruct (selects eqb sel k x); reflexivity).
  unfold note_key, selects. destruct (sel x) as [k0|] eqn:Hsel; simpl.
  - destruct (mem eqb k0 (first_keys eqb sel l)) eqn:Hm.
    + rewrite sum_with_one_more by apply (first_keys_NoDup eqb eqb_spec).
      rewrite Hm, IH. reflexivity.
    + rewrite map_app, list_sum_app. simpl.
      rewrite sum_with_one_more by apply (first_keys_NoDup eqb eqb_spec).
      rewrite Hm, IH, (eqb_refl_true eqb eqb_spec).
      rewrite (@members_absent _ _ eqb eqb_spec sel k0 l Hm). simpl. lia.
  - rewrite (map_ext _ (fun k => List.length (members eqb sel k l)))
      by (intros k; lia).
    rewrite IH. lia.
Qed.

Lemma members_nonempty (l : list X) (k : K) :
  In k (first_keys eqb sel l) -> members eqb sel k l <> [].
Proof.
  intros Hin Hnil. apply (first_keys_In eqb eqb_spec) in Hin.
  destruct Hin as [x [Hx Hk]].
  assert (Hm : In x (members eqb sel k l)).
  { unfold members. apply filter_In. split; [exact Hx|].
    unfold selects. rewrite Hk. apply (eqb_refl_true eqb eqb_spec). }
  rewrite Hnil in Hm. destruct Hm.
Qed.

End CountingFacts.

Lemma all_valid_None (ks : list key) : all_valid ks = None <-> In None ks.
Proof.
  induction ks as [|[t|] ks IH]; simpl.
  - split; [discriminate | intros []].
  - destruct (all_valid ks) as [ts|]; simpl.
    + split; [discriminate|]. intros [H|H]; [discriminate|].
      apply IH in H. discriminate.
    + split; [intros _; right; apply IH; reflexivity | reflexivity].
  - split; auto.
Qed.

Lemma list_sum_perm (l l' : list nat) :
  Permutation l l' -> list_sum l = list_sum l'.
Proof. induction 1; simpl; lia. Qed.

Section MembershipFacts.
Context {host : Host}.

Lemma getTimeBucketFunction_invalid (timeRange : string) :
  getTimeBucketFunction timeRange InvalidDate = InvalidDate.
Proof.
  unfold getTimeBucketFunction, switch_range.
  repeat match goal with
         | |- context [String.eqb timeRange ?s] => destruct (String.eqb timeRange s)
         end; reflexivity.
Qed.

Lemma guard_passed_normalized (point : Sample.t) :
  point_rejected point = false ->
  exists d, normalizeTimestamp (Sample.timestamp point) = Some d.
Proof.
  unfold point_rejected. intros Hg.
  apply orb_false_elim in Hg. destruct Hg as [Hg _].
  apply orb_false_elim in Hg. destruct Hg as [Hg _].
  rewrite normalizeTimestamp_cases.
  destruct (truthy (Sample.timestamp point)); [eauto | discriminate].
Qed.

(** The key of a sample that passed the guard, from its normalized time. *)
Lemma sample_key_valid (timeRange : string) (cutoff t : Z) (point : Sample.t) :
  point_rejected point = false ->
  normalizeTimestamp (Sample.timestamp point) = Some (DateAt t) ->
  sample_key timeRange (DateAt cutoff) point
  = if t <? cutoff then None else Some (Some (bucket_start timeRange t)).
Proof.
  intros Hg Hn. unfold sample_key, bucket_time_of. rewrite Hg, Hn. simpl.
  destruct (t <? cutoff); [reflexivity|]. simpl.
  rewrite standardizeTimestamp_floor, getTimeBucketFunction_start. simpl.
  rewrite bucket_start_standardized. reflexivity.
Qed.

Lemma sample_key_invalid (timeRange : string) (cutoffTime : JsDate) (point : Sample.t) :
  point_rejected point = false ->
  normalizeTimestamp (Sample.timestamp point) = Some InvalidDate ->
  sample_key timeRange cutoffTime point = Some None.
Proof.
  intros Hg Hn. unfold sample_key, bucket_time_of. rewrite Hg, Hn. simpl.
  unfold standardizeTimestamp. simpl. rewrite getTimeBucketFunction_invalid.
  reflexivity.
Qed.

Lemma sample_key_None_iff (timeRange : string) (cutoff : Z) (point : Sample.t) :
  sample_key timeRange (DateAt cutoff) point = Some None
  <-> point_rejected point = false
      /\ normalizeTimestamp (Sample.timestamp point) = Some InvalidDate.
Proof.
  split.
  - intros Hk. destruct (point_rejected point) eqn:Hg.
    + rewrite sample_key_rejected in Hk by assumption. discriminate.
    + split; [reflexivity|].
      destruct (guard_passed_normalized point Hg) as [[|t] Hn]; [exact Hn|].
      rewrite (@sample_key_valid timeRange cutoff t point Hg Hn) in Hk.
      destruct (t <? cutoff); discriminate.
  - intros [Hg Hn]. apply sample_key_invalid; assumption.
Qed.

Lemma cutoff_is_valid (now : Z) (timeRange : string) :
  exists c, getTimeRangeCutoff (DateAt now) timeRange = DateAt c.
Proof. eexists. apply getTimeRangeCutoff_duration. Qed.

End MembershipFacts.

Section SeriesContent.
Context {host : Host}.

Lemma first_keys_nil_iff (timeRange : string) (cutoffTime : JsDate)
  (rawData : list Sample.t) :
  bucket_keys timeRange cutoffTime rawData = []
  <-> forall p, In p rawData -> kept timeRange cutoffTime p = false.
Proof.
  unfold bucket_keys, kept. split.
  - intros Hnil p Hp.
    destruct (sample_key timeRange cutoffTime p) as [k|] eqn:Hk; [|reflexivity].
    assert (Hin : In k (first_keys key_eqb (sample_key timeRange cutoffTime) rawData))
      by (apply (first_keys_In key_eqb key_eqb_spec); eauto).
    rewrite Hnil in Hin. destruct Hin.
  - intros Hall.
    destruct (first_keys key_eqb (sample_key timeRange cutoffTime) rawData)
      as [|k ks] eqn:Hks; [reflexivity|].
    assert (Hin : In k (first_keys key_eqb (sample_key timeRange cutoffTime) rawData))
      by (rewrite Hks; simpl; auto).
    apply (first_keys_In key_eqb key_eqb_spec) in Hin.
    destruct Hin as [p [Hp Hk]]. specialize (Hall p Hp). rewrite Hk in Hall.
    discriminate.
Qed.

Lemma point_at_data_points (timeRange : string) (cutoffTime : JsDate)
  (rawData : list Sample.t) (ts : list Z) :
  all_valid (bucket_keys timeRange cutoffTime rawData) = Some ts ->
  list_sum (map (fun t => Point.data_points (point_at timeRange cutoffTime rawData t)) ts)
  = List.length (filter (kept timeRange cutoffTime) rawData).
Proof.
  intros Hv. apply all_valid_map_Some in Hv.
  unfold kept. rewrite <- (members_partition key_eqb key_eqb_spec).
  fold (bucket_keys timeRange cutoffTime rawData). rewrite Hv, map_map.
  reflexivity.
Qed.

End SeriesContent.

(** X5: aggregateDataByTime throws exactly when some sample passes the
    guard with a timestamp that normalizes to an Invalid Date; one such
    sample ends the call whatever the other samples are. *)
Theorem aggregation_throws_iff_invalid_time (host : Host) (now : Z)
  (rawData : list Sample.t) (timeRange : string) :
  aggregateDataByTime now rawData timeRange = Throw
  <-> exists p, In p rawData
                /\ point_rejected p = false
                /\ normalizeTimestamp (Sample.timestamp p) = Some InvalidDate.
Proof.
  rewrite aggregateDataByTime_bind, aggregatedData_spec. cbv zeta.
  rewrite getTimeRangeCutoff_duration.
  set (cutoff := now - window_duration timeRange).
  destruct (all_valid (bucket_keys timeRange (DateAt cutoff) rawData)) as [ts|] eqn:Hv;
    simpl.
  - split; [discriminate|]. intros [p [Hp [Hg Hn]]].
    assert (Hin : In None (bucket_keys timeRange (DateAt cutoff) rawData)).
    { apply (first_keys_In key_eqb key_eqb_spec). exists p. split; [exact Hp|].
      apply sample_key_invalid; assumption. }
    apply all_valid_None in Hin. congruence.
  - split; [|reflexivity]. intros _. apply all_valid_None in Hv.
    apply (first_keys_In key_eqb key_eqb_spec) in Hv. destruct Hv as [p [Hp Hk]].
    exists p. split; [exact Hp|]. apply (sample_key_None_iff timeRange cutoff). exact Hk.
Qed.

Lemma aggregation_throws_iff_invalid_time_witness :
  aggregateDataByTime (host := example_host) example_now
    [sample_at (example_now - 1000) (JNum 10%float) (JNum 4%float);
     Sample.mk (JStr "not a date") (JNum 1%float) (JNum 1%float)] "1h"
  = Throw.
Proof.
  apply (proj2 (@aggregation_throws_iff_invalid_time example_host example_now
                  [sample_at (example_now - 1000) (JNum 10%float) (JNum 4%float);
                   Sample.mk (JStr "not a date") (JNum 1%float) (JNum 1%float)]
                  "1h"%string)).
  exists (Sample.mk (JStr "not a date") (JNum 1%float) (JNum 1%float)).
  split; [simpl; auto|]. split; reflexivity.
Defined.

(** X6: before the limit of 60 is applied every kept sample (one that
    passes the guard and the cutoff filter) is counted in exactly one
    point: the data_points of the sorted series add up to the number of
    kept samples. *)
Theorem data_points_count_the_kept_samples (host : Host) (now : Z)
  (rawData : list Sample.t) (timeRange : string) (data : list Point.t) :
  aggregatedData now rawData timeRange = Ok data ->
  list_sum (map Point.data_points data)
  = List.length
      (filter (kept timeRange (getTimeRangeCutoff (DateAt now) timeRange)) rawData).
Proof.
  rewrite aggregatedData_spec. cbv zeta.
  destruct (all_valid _) as [ts|] eqn:Hv; [|discriminate].
  intros Hdata. injection Hdata as <-. rewrite map_map.
  rewrite <- (point_at_data_points _ _ _ Hv).
  apply list_sum_perm, Permutation_map, sort_perm.
Qed.

Lemma data_points_count_the_kept_samples_witness :
  list_sum (map Point.data_points example_series)
  = List.length
      (filter (kept (host := example_host) "1h"
                 (getTimeRangeCutoff (host := example_host) (DateAt example_now) "1h"))
         example_samples).
Proof.
  apply (@data_points_count_the_kept_samples example_host example_now
           example_samples "1h"%string example_series).
  vm_compute. reflexivity.
Defined.

(** X7: aggregateDataByTime never returns a point of an empty bucket:
    every point stands for at least one sample, and its rates are the
    means of the values of its samples, not the fallback 0. *)
Theorem no_point_without_samples (host : Host) (now : Z)
  (rawData : list Sample.t) (timeRange : string) (out : list Point.t)
  (point : Point.t) :
  aggregateDataByTime now rawData timeRange = Ok out ->
  In point out ->
  exists samples,
    samples <> []
    /\ incl samples rawData
    /\ Point.data_points point = List.length samples
    /\ Point.rx_rate point = mean (map rx_of samples)
    /\ Point.tx_rate point = mean (map tx_of samples).
Proof.
  intros Hout Hin. apply aggregateDataByTime_series in Hout.
  destruct Hout as [ts [Hv [_ [_ ->]]]]. apply In_limit_points in Hin.
  apply in_map_iff in Hin. destruct Hin as [t [<- Ht]].
  set (cutoffTime := getTimeRangeCutoff (DateAt now) timeRange) in *.
  exists (bucket_samples timeRange cutoffTime rawData (Some t)).
  assert (Hne : bucket_samples timeRange cutoffTime rawData (Some t) <> []).
  { apply (members_nonempty key_eqb key_eqb_spec).
    apply all_valid_map_Some in Hv. fold (bucket_keys timeRange cutoffTime rawData).
    rewrite Hv. apply in_map. apply (Permutation_in _ (sort_perm Z.leb ts)). exact Ht. }
  split; [exact Hne|]. split; [apply incl_filter|]. split; [reflexivity|].
  unfold point_at. simpl.
  destruct (bucket_samples timeRange cutoffTime rawData (Some t)) as [|p ps];
    [contradiction|]. split; reflexivity.
Qed.

Lemma no_point_without_samples_witness :
  exists samples,
    samples <> []
    /\ incl samples example_samples
    /\ 3%nat = List.length samples
    /\ 20%float = mean (map (rx_of (host := example_host)) samples)
    /\ 2%float = mean (map (tx_of (host := example_host)) samples).
Proof.
  apply (@no_point_without_samples example_host example_now example_samples
           "1h"%string example_series
           (Point.mk (DateAt 1699999980000) 20%float 2%float 3%nat
              "Nov 14, 23:13:00"%string)).
  - vm_compute. reflexivity.
  - right. left. reflexivity.
Defined.

(** X8: the series is empty exactly when no sample is kept, that is, when
    every sample fails the guard or is older than the cutoff; this
    includes the empty input. *)
Theorem empty_series_iff_nothing_kept (host : Host) (now : Z)
  (rawData : list Sample.t) (timeRange : string) :
  aggregateDataByTime now rawData timeRange = Ok []
  <-> forall p, In p rawData ->
        kept timeRange (getTimeRangeCutoff (DateAt now) timeRange) p = false.
Proof.
  rewrite <- first_keys_nil_iff.
  rewrite aggregateDataByTime_bind, aggregatedData_spec. cbv zeta.
  set (cutoffTime := getTimeRangeCutoff (DateAt now) timeRange).
  split.
  - destruct (all_valid (bucket_keys timeRange cutoffTime rawData)) as [ts|] eqn:Hv;
      simpl; [|discriminate].
    intros Hout. injection Hout as Hout.
    apply (f_equal (@List.length Point.t)) in Hout.
    rewrite limit_points_length, length_map in Hout.
    rewrite (Permutation_length (sort_perm Z.leb ts)) in Hout.
    apply all_valid_map_Some in Hv. rewrite Hv.
    destruct ts; [reflexivity | simpl in Hout; lia].
  - intros ->. simpl. rewrite limit_points_nil. reflexivity.
Qed.

Lemma empty_series_iff_nothing_kept_witness :
  aggregateDataByTime (host := example_host) example_now
    [sample_at (example_now - 7200000) (JNum 50%float) (JNum 50%float);
     sample_at (example_now - 1000) JNull (JNum 4%float)] "1h"
  = Ok [].
Proof.
  apply (proj2 (@empty_series_iff_nothing_kept example_host example_now
                  [sample_at (example_now - 7200000) (JNum 50%float) (JNum 50%float);
                   sample_at (example_now - 1000) JNull (JNum 4%float)]
                  "1h"%string)).
  intros p [<-|[<-|[]]]; vm_compute; reflexivity.
Defined.

(** X9: before the limit is applied every kept sample is represented: a
    sample that passes the guard and whose normalized time [t] is not
    before the cutoff has a point in the sorted series whose timestamp is
    the bucket start of [t], at or before [t] and less than one span
    earlier. *)
Theorem kept_sample_has_its_point (host : Host) (now : Z)
  (rawData : list Sample.t) (timeRange : string) (data : list Point.t)
  (p : Sample.t) (t : Z) :
  aggregatedData now rawData timeRange = Ok data ->
  In p rawData ->
  point_rejected p = false ->
  normalizeTimestamp (Sample.timestamp p) = Some (DateAt t) ->
  now - window_duration timeRange <= t ->
  exists point k,
    In point data
    /\ Point.timestamp point = DateAt k
    /\ getTimeBucketFunction timeRange (DateAt t) = DateAt k
    /\ k <= t < k + bucket_span timeRange
    /\ (1 <= Point.data_points point)%nat.
Proof.
  intros Hdata Hp Hg Hn Hc. rewrite aggregatedData_spec in Hdata. cbv zeta in Hdata.
  rewrite getTimeRangeCutoff_duration in Hdata.
  set (cutoff := now - window_duration timeRange) in *.
  destruct (all_valid (bucket_keys timeRange (DateAt cutoff) rawData)) as [ts|] eqn:Hv;
    [|discriminate].
  injection Hdata as <-.
  assert (Hk : sample_key timeRange (DateAt cutoff) p
               = Some (Some (bucket_start timeRange t))).
  { rewrite (@sample_key_valid host timeRange cutoff t p Hg Hn).
    destruct (Z.ltb_spec t cutoff); [lia | reflexivity]. }
  assert (Hin : In (Some (bucket_start timeRange t))
                  (bucket_keys timeRange (DateAt cutoff) rawData))
    by (apply (first_keys_In key_eqb key_eqb_spec); eauto).
  apply all_valid_map_Some in Hv. rewrite Hv in Hin.
  apply in_map_iff in Hin. destruct Hin as [t0 [Ht0 Hts]]. injection Ht0 as ->.
  exists (point_at timeRange (DateAt cutoff) rawData (bucket_start timeRange t)).
  exists (bucket_start timeRange t).
  split; [apply in_map; apply (Permutation_in _ (Permutation_sym (sort_perm Z.leb ts)));
          exact Hts|].
  split; [reflexivity|]. split; [apply getTimeBucketFunction_start|].
  split; [apply bucket_start_bounds|]. simpl.
  assert (Hm : In p (bucket_samples timeRange (DateAt cutoff) rawData
                       (Some (bucket_start timeRange t))))
    by (apply bucket_samples_In; auto).
  destruct (bucket_samples timeRange (DateAt cutoff) rawData
              (Some (bucket_start timeRange t))); [destruct Hm | simpl; lia].
Qed.

Lemma kept_sample_has_its_point_witness :
  exists point k,
    In point example_series
    /\ Point.timestamp point = DateAt k
    /\ getTimeBucketFunction (host := example_host) "1h" (DateAt (example_now - 61000))
       = DateAt k
    /\ k <= example_now - 61000 < k + bucket_span "1h"
    /\ (1 <= Point.data_points point)%nat.
Proof.
  apply (@kept_sample_has_its_point example_host example_now example_samples
           "1h"%string example_series
           (sample_at (example_now - 61000) (JNum 7%float) (JNum 1%float))
           (example_now - 61000)).
  - vm_compute. reflexivity.
  - left. reflexivity.
  - reflexivity.
  - reflexivity.
  - vm_compute. discriminate.
Defined.

(* ------------------------------------------------------------------ *)
(** * The combined view against the single view *)

Section CombinedAgainstSingle.
Context {host : Host}.

Lemma contributing_skip_empty (timeRange : string) (cutoffTime : JsDate)
  (before after : list (list Sample.t)) (k : key) :
  contributing timeRange cutoffTime (before ++ [] :: after) k
  = contributing timeRange cutoffTime (before ++ after) k.
Proof. unfold contributing. rewrite !map_app, !filter_app. reflexivity. Qed.

Lemma contributing_single (timeRange : string) (cutoffTime : JsDate)
  (rawData : list Sample.t) (k : key) :
  In k (bucket_keys timeRange cutoffTime rawData) ->
  contributing timeRange cutoffTime [rawData] k
  = [bucket_samples timeRange cutoffTime rawData k].
Proof.
  intros Hin. unfold contributing. simpl.
  assert (Hne := members_nonempty key_eqb key_eqb_spec _ _ _ Hin).
  fold (bucket_samples timeRange cutoffTime rawData k) in Hne.
  destruct (bucket_samples timeRange cutoffTime rawData k); [contradiction | reflexivity].
Qed.

End CombinedAgainstSingle.

(** X10: a server whose sample array is empty has no effect on the
    combined series: the result is the same as without that server (the
    servers after it move up by one index). *)
Theorem empty_server_array_is_ignored (host : Host) (now : Z) (timeRange : string)
  (before after : list (list Sample.t)) :
  aggregateCombinedServerData now (before ++ [] :: after) timeRange
  = aggregateCombinedServerData now (before ++ after) timeRange.
Proof.
  rewrite !aggregateCombinedServerData_bind, !combinedData_spec. cbv zeta.
  rewrite !concat_app. simpl.
  destruct (all_valid _) as [ts|]; [|reflexivity]. simpl. do 2 f_equal.
  apply map_ext. intros t. unfold combined_point_at.
  rewrite contributing_skip_empty. reflexivity.
Qed.

(** X11: the combined series of a single server is the series of that
    server: the same buckets in the same order, server_count 1 and totals
    equal to the rates added to 0; it throws when the single series
    throws. *)
Theorem combined_single_server (host : Host) (now : Z) (timeRange : string)
  (rawData : list Sample.t) :
  aggregateCombinedServerData now [rawData] timeRange
  = bind (aggregateDataByTime now rawData timeRange) (fun out =>
    Ok (map single_server_point out)).
Proof.
  rewrite aggregateCombinedServerData_bind, combinedData_spec.
  rewrite aggregateDataByTime_bind, aggregatedData_spec. cbv zeta.
  simpl List.concat. rewrite app_nil_r.
  set (cutoffTime := getTimeRangeCutoff (DateAt now) timeRange).
  destruct (all_valid (bucket_keys timeRange cutoffTime rawData)) as [ts|] eqn:Hv;
    [|reflexivity].
  simpl. f_equal. rewrite limit_points_map, map_map. f_equal.
  apply map_ext_in. intros t Ht.
  assert (Hin : In (Some t) (bucket_keys timeRange cutoffTime rawData)).
  { apply all_valid_map_Some in Hv. rewrite Hv. apply in_map.
    apply (Permutation_in _ (sort_perm Z.leb ts)). exact Ht. }
  assert (Hne := members_nonempty key_eqb key_eqb_spec _ _ _ Hin).
  fold (bucket_samples timeRange cutoffTime rawData (Some t)) in Hne.
  unfold combined_point_at, single_server_point, point_at.
  rewrite (contributing_single _ _ _ _ Hin). simpl.
  destruct (bucket_samples timeRange cutoffTime rawData (Some t)); [contradiction|].
  reflexivity.
Qed.

(** X12: the buckets of the combined series are those of the series of all
    the samples put together: the combined call and aggregateDataByTime on
    the concatenated arrays return the same timestamps and labels, and one
    throws when the other does. *)
Theorem combined_buckets_of_all_samples (host : Host) (now : Z) (timeRange : string)
  (allServerData : list (list Sample.t)) :
  bind (aggregateCombinedServerData now allServerData timeRange) (fun combined =>
    Ok (map (fun p => (CombinedPoint.timestamp p, CombinedPoint.timestamp_formatted p))
          combined))
  = bind (aggregateDataByTime now (List.concat allServerData) timeRange) (fun out =>
    Ok (map (fun p => (Point.timestamp p, Point.timestamp_formatted p)) out)).
Proof.
  rewrite aggregateCombinedServerData_bind, combinedData_spec.
  rewrite aggregateDataByTime_bind, aggregatedData_spec. cbv zeta.
  destruct (all_valid _) as [ts|]; [|reflexivity].
  simpl. f_equal. rewrite !limit_points_map, !map_map. reflexivity.
Qed.

(* ------------------------------------------------------------------ *)
(** * Normalized timestamps *)

Section HistoryFacts.
Context {host : Host}.

Lemma normalizeTimestamp_JDate (d : JsDate) : normalizeTimestamp (JDate d) = Some d.
Proof. destruct d as [|t]; [reflexivity | apply normalizeTimestamp_Date]. Qed.

Lemma history_sample_normalized (point : Sample.t) :
  truthy (Sample.timestamp point) = true ->
  normalizeTimestamp (Sample.timestamp (history_sample point))
  = normalizeTimestamp (Sample.timestamp point)
  /\ truthy (Sample.timestamp (history_sample point)) = true.
Proof.
  intros Ht. unfold history_sample. cbn [Sample.timestamp].
  destruct (normalizeTimestamp (Sample.timestamp point)) as [d|] eqn:Hn.
  - split; [apply normalizeTimestamp_JDate | reflexivity].
  - rewrite normalizeTimestamp_cases, Ht in Hn. discriminate.
Qed.

Lemma history_sample_key (timeRange : string) (cutoffTime : JsDate) (point : Sample.t) :
  sample_key timeRange cutoffTime (history_sample point)
  = sample_key timeRange cutoffTime point.
Proof.
  unfold sample_key, bucket_time_of, point_rejected.
  change (Sample.rx_rate (history_sample point)) with (Sample.rx_rate point).
  change (Sample.tx_rate (history_sample point)) with (Sample.tx_rate point).
  destruct (truthy (Sample.timestamp point)) eqn:Ht.
  - destruct (history_sample_normalized point Ht) as [-> ->]. reflexivity.
  - assert (Hf : truthy (Sample.timestamp (history_sample point)) = false).
    { unfold history_sample. cbn [Sample.timestamp].
      rewrite normalizeTimestamp_cases, Ht. reflexivity. }
    rewrite Hf. reflexivity.
Qed.

Lemma collect_history_sample (timeRange : string) (cutoffTime : JsDate)
  (rawData : list Sample.t) :
  forall buckets,
  fold_left (collect_point timeRange cutoffTime) (map history_sample rawData) buckets
  = fold_left (collect_point timeRange cutoffTime) rawData buckets.
Proof.
  induction rawData as [|p ps IH]; intros buckets; simpl; [reflexivity|].
  rewrite IH. f_equal. rewrite !collect_point_gstep. unfold gstep.
  rewrite history_sample_key. reflexivity.
Qed.

End HistoryFacts.

(** X14: normalizing the timestamps ahead of time, as getServerHistory does
    when it replaces each timestamp by its normalized Date or null, does
    not change the series: aggregateDataByTime normalizes again and finds
    the same instants. *)
Theorem prenormalized_samples_give_the_same_series (host : Host) (now : Z)
  (rawData : list Sample.t) (timeRange : string) :
  aggregateDataByTime now (map history_sample rawData) timeRange
  = aggregateDataByTime now rawData timeRange.
Proof.
  rewrite !aggregateDataByTime_bind. unfold aggregatedData.
  rewrite collect_history_sample. reflexivity.
Qed.

(* ------------------------------------------------------------------ *)
(** * The real-time buckets as intervals *)

Section RealtimeIntervals.
Context {host : Host}.

Lemma realtime_selects_interval (clock : Z) (i : nat) (point : Sample.t) :
  selects key_eqb (realtime_key (DateAt (realtime_start clock)))
    (Some (realtime_bucket_start clock i)) point
  = in_realtime_bucket clock i point.
Proof.
  unfold selects, realtime_key, in_realtime_bucket.
  destruct (point_rejected point); [reflexivity|].
  cbn [negb andb].
  destruct (normalizeTimestamp (Sample.timestamp point)) as [[|t]|];
    try reflexivity.
  cbn [date_lt getTime floor_30s option_map]. unfold realtime_bucket_start.
  destruct (Z.ltb_spec t (realtime_start clock)) as [Hlt|Hge].
  - destruct (Z.leb_spec (realtime_start clock) t); [lia|reflexivity].
  - destruct (Z.leb_spec (realtime_start clock) t); [|lia].
    cbn [andb key_eqb].
    destruct (Z.eqb_spec
                (realtime_start clock / 30000 * 30000 + 30000 * Z.of_nat i)
                (t / 30000 * 30000)),
             (Z.leb_spec
                (realtime_start clock / 30000 * 30000 + 30000 * Z.of_nat i) t),
             (Z.ltb_spec t
                (realtime_start clock / 30000 * 30000 + 30000 * Z.of_nat i
                 + 30000));
      try reflexivity; exfalso; Z.div_mod_to_equations; lia.
Qed.

End RealtimeIntervals.

(** X15: for a non-empty input the [i]-th real-time point is computed from
    exactly the samples that pass the guard and whose normalized time is a
    valid instant, not before the window start (the clock minus 15
    minutes), within the 30 seconds that begin at the bucket start; its
    data_points is their number and its value the sum of the means of
    their rx and tx rates. *)
Theorem realtime_point_of_its_interval (host : Host) (clock : Z)
  (rawData : list Sample.t) :
  rawData <> [] ->
  aggregateRealtimeData clock rawData
  = map (fun i =>
           let samples := filter (in_realtime_bucket clock i) rawData in
           RealtimePoint.mk (DateAt (realtime_bucket_start clock i))
             (PrimFloat.add (mean_or_zero (map rx_of samples))
                (mean_or_zero (map tx_of samples)))
             (List.length samples))
      (seq 0 30).
Proof.
  intros Hne. rewrite aggregateRealtimeData_spec by exact Hne.
  apply map_ext. intros i. unfold realtime_point_at, realtime_samples, members.
  cbv zeta.
  rewrite (filter_ext _ _ (realtime_selects_interval clock i)). reflexivity.
Qed.

Lemma realtime_point_of_its_interval_witness :
  aggregateRealtimeData (host := example_host) example_now
    [sample_at (example_now - 32000) (JNum 5%float) (JNum 5%float)]
  = map (fun i =>
           let samples :=
             filter (in_realtime_bucket (host := example_host) example_now i)
               [sample_at (example_now - 32000) (JNum 5%float) (JNum 5%float)] in
           RealtimePoint.mk (DateAt (realtime_bucket_start example_now i))
             (PrimFloat.add (mean_or_zero (map (rx_of (host := example_host)) samples))
                (mean_or_zero (map (tx_of (host := example_host)) samples)))
             (List.length samples))
      (seq 0 30).
Proof.
  apply (@realtime_point_of_its_interval example_host example_now
           [sample_at (example_now - 32000) (JNum 5%float) (JNum 5%float)]).
  discriminate.
Defined.

(* ------------------------------------------------------------------ *)
(** * retryRequest and the response interceptor *)

Section RetryFacts.
Variable A : Type.
Variable requestFn : nat -> outcome A JsError.t.
Variable retries : Z.


Lemma in_step_start : in_step retries (Z.to_nat retries) 0.
Proof.
  unfold in_step. destruct (Z.to_nat retries) eqn:E; [left; reflexivity|].
  right. lia.
Qed.

Lemma in_step_next (rest i : nat) :
  in_step retries (S rest) i -> in_step retries rest (S i).
Proof. unfold in_step. intros [H|H]; [discriminate|]. right. lia. Qed.

Lemma in_step_last (rest i : nat) :
  in_step retries (S rest) i -> (Z.of_nat i =? retries - 1) = false -> rest <> O.
Proof.
  unfold in_step. intros [H|H]; [discriminate|].
  intros Hne ->. apply Z.eqb_neq in Hne. lia.
Qed.

Lemma in_step_not_last (rest i : nat) :
  in_step retries (S rest) i -> rest <> O -> (Z.of_nat i =? retries - 1) = false.
Proof.
  unfold in_step. intros [H|H]; [discriminate|].
  intros Hne. apply Z.eqb_neq. lia.
Qed.

Lemma retry_loop_calls_positive (remaining i : nat) (delay : num) :
  remaining <> O ->
  calls (retry_loop requestFn retries remaining i delay) <> O.
Proof.
  destruct remaining as [|rest]; [congruence|]. intros _. cbn [retry_loop].
  destruct (requestFn i) as [a|error]; [discriminate|].
  destruct (_ && _); [discriminate|].
  destruct (_ =? _); discriminate.
Qed.

Lemma retry_loop_waits (remaining i : nat) (delay : num) :
  in_step retries remaining i ->
  (calls (retry_loop requestFn retries remaining i delay) <= remaining)%nat
  /\ waits (retry_loop requestFn retries remaining i delay)
     = backoff delay
         (Nat.pred (calls (retry_loop requestFn retries remaining i delay))).
Proof.
  revert i delay. induction remaining as [|rest IH]; intros i delay Hstep.
  - split; [apply Nat.le_refl|reflexivity].
  - cbn [retry_loop]. destruct (requestFn i) as [a|error].
    + split; [cbn; lia|reflexivity].
    + destruct (code_is_ECONNABORTED (JsError.code error) && (0 <? Z.of_nat i)).
      { split; [cbn; lia|reflexivity]. }
      destruct (Z.of_nat i =? retries - 1) eqn:Elast.
      { split; [cbn; lia|reflexivity]. }
      destruct (IH (S i) (PrimFloat.mul delay 1.5%float)
                  (in_step_next Hstep)) as [Hc Hw].
      pose proof (@retry_loop_calls_positive rest (S i)
                    (PrimFloat.mul delay 1.5%float)
                    (in_step_last Hstep Elast)) as Hpos.
      cbn [calls waits settlement]. split; [lia|].
      rewrite Hw. cbn [Nat.pred].
      destruct (calls (retry_loop requestFn retries rest (S i)
                         (PrimFloat.mul delay 1.5%float))) as [|c];
        [congruence|reflexivity].
Qed.

Lemma retry_loop_defined (remaining i : nat) (delay : num) :
  in_step retries remaining i -> remaining <> O ->
  settlement (retry_loop requestFn retries remaining i delay)
  <> Fulfilled None.
Proof.
  revert i delay. induction remaining as [|rest IH]; intros i delay Hstep Hne;
    [congruence|].
  cbn [retry_loop]. destruct (requestFn i) as [a|error]; [discriminate|].
  destruct (_ && _); [discriminate|].
  destruct (Z.of_nat i =? retries - 1) eqn:Elast; [discriminate|].
  cbn [settlement]. apply IH; [exact (in_step_next Hstep)|].
  exact (in_step_last Hstep Elast).
Qed.

(** A loop with an iteration left settles as the last call it makes. *)
Lemma retry_loop_last (remaining i : nat) (delay : num) :
  in_step retries remaining i -> remaining <> O ->
  exists last,
    calls (retry_loop requestFn retries remaining i delay) = S last
    /\ match requestFn (i + last)%nat with
       | Returns a =>
           settlement (retry_loop requestFn retries remaining i delay)
           = Fulfilled (Some a)
       | Fails error =>
           settlement (retry_loop requestFn retries remaining i delay)
           = Rejected error
       end.
Proof.
  revert i delay. induction remaining as [|rest IH]; intros i delay Hstep Hne;
    [congruence|].
  cbn [retry_loop]. destruct (requestFn i) as [a|error] eqn:Ei.
  - exists O. rewrite Nat.add_0_r, Ei. split; reflexivity.
  - destruct (code_is_ECONNABORTED (JsError.code error) && (0 <? Z.of_nat i)).
    { exists O. rewrite Nat.add_0_r, Ei. split; reflexivity. }
    destruct (Z.of_nat i =? retries - 1) eqn:Elast.
    { exists O. rewrite Nat.add_0_r, Ei. split; reflexivity. }
    destruct (IH (S i) (PrimFloat.mul delay 1.5%float) (in_step_next Hstep)
                (in_step_last Hstep Elast)) as [last [Hc Hs]].
    exists (S last). cbn [calls settlement]. split; [congruence|].
    replace (i + S last)%nat with (S i + last)%nat by lia. exact Hs.
Qed.

(** Skipping [k] failed attempts that are answered by a wait. *)
Lemma retry_loop_skip (k rest i : nat) (delay : num) :
  in_step retries (k + S rest) i ->
  (forall j, (j < k)%nat ->
     exists error, requestFn (i + j)%nat = Fails error
                   /\ retried_at (i + j) error = true) ->
  exists delay',
    let later := retry_loop requestFn retries (S rest) (i + k) delay' in
    retry_loop requestFn retries (k + S rest) i delay
    = mk_run (settlement later) (k + calls later)
        (backoff delay k ++ waits later).
Proof.
  revert i delay. induction k as [|k IH]; intros i delay Hstep Hfail.
  - exists delay. cbv zeta. rewrite Nat.add_0_r. cbn [Nat.add backoff app].
    destruct (retry_loop requestFn retries (S rest) i delay); reflexivity.
  - destruct (Hfail O ltac:(lia)) as [error [Hf Hr]].
    rewrite Nat.add_0_r in Hf, Hr.
    destruct (IH (S i) (PrimFloat.mul delay 1.5%float)) as [delay' IH'].
    { apply in_step_next. exact Hstep. }
    { intros j Hj. destruct (Hfail (S j) ltac:(lia)) as [e [He Hre]].
      exists e. replace (S i + j)%nat with (i + S j)%nat by lia. auto. }
    exists delay'. cbv zeta in *.
    replace (i + S k)%nat with (S i + k)%nat by lia.
    change (S k + S rest)%nat with (S (k + S rest)).
    cbn [retry_loop]. rewrite Hf.
    unfold retried_at in Hr. apply negb_true_iff in Hr. rewrite Hr.
    assert (Hlast : (Z.of_nat i =? retries - 1) = false).
    { apply (@in_step_not_last (k + S rest) i); [exact Hstep|lia]. }
    rewrite Hlast, IH'. reflexivity.
Qed.


Lemma retryRequest_skip (k : nat) (delay : num) :
  Z.of_nat k < retries ->
  (forall j, (j < k)%nat ->
     exists error, requestFn j = Fails error /\ retried_at j error = true) ->
  exists rest delay',
    Z.to_nat retries = (k + S rest)%nat /\
    retryRequest requestFn retries delay
    = mk_run (settlement (retry_loop requestFn retries (S rest) k delay'))
        (k + calls (retry_loop requestFn retries (S rest) k delay'))
        (backoff delay k
         ++ waits (retry_loop requestFn retries (S rest) k delay')).
Proof.
  intros Hk Hfail.
  assert (Hsplit : Z.to_nat retries = (k + S (Z.to_nat retries - S k))%nat)
    by lia.
  destruct (@retry_loop_skip k (Z.to_nat retries - S k) O delay)
    as [delay' Hskip].
  - rewrite <- Hsplit. apply in_step_start.
  - exact Hfail.
  - exists (Z.to_nat retries - S k)%nat, delay'. split; [exact Hsplit|].
    unfold retryRequest. rewrite Hsplit at 1. exact Hskip.
Qed.

End RetryFacts.

(** X16: [retryRequest] calls the request function at most [retries]
    times, and it waits once before every call after the first: [delay]
    milliseconds, then 1.5 times the wait before. *)
Theorem retryRequest_calls_and_waits (A : Type)
  (requestFn : nat -> outcome A JsError.t) (retries : Z) (delay : num) :
  (calls (retryRequest requestFn retries delay) <= Z.to_nat retries)%nat
  /\ waits (retryRequest requestFn retries delay)
     = backoff delay (Nat.pred (calls (retryRequest requestFn retries delay))).
Proof. apply retry_loop_waits, in_step_start. Qed.

(** X17: the request function is never called exactly when [retries] is
    zero or negative, and exactly then the loop ends without a return or a
    throw.  With at least one attempt allowed the promise settles as the
    last call made did: fulfilled with the value that call returned, or
    rejected with the error it threw. *)
Theorem retryRequest_settles_as_the_last_call (A : Type)
  (requestFn : nat -> outcome A JsError.t) (retries : Z) (delay : num) :
  (calls (retryRequest requestFn retries delay) = O <-> retries <= 0)
  /\ (settlement (retryRequest requestFn retries delay) = Fulfilled None
      <-> retries <= 0)
  /\ (0 < retries ->
      exists last,
        calls (retryRequest requestFn retries delay) = S last
        /\ match requestFn last with
           | Returns a =>
               settlement (retryRequest requestFn retries delay)
               = Fulfilled (Some a)
           | Fails error =>
               settlement (retryRequest requestFn retries delay)
               = Rejected error
           end).
Proof.
  unfold retryRequest. split; [|split].
  - split.
    + intros H. destruct (Z.to_nat retries) eqn:E; [lia|]. exfalso.
      revert H. apply retry_loop_calls_positive. discriminate.
    + intros H. replace (Z.to_nat retries) with O by lia. reflexivity.
  - split.
    + intros H. destruct (Z.to_nat retries) eqn:E; [lia|]. exfalso.
      revert H. apply retry_loop_defined; [|discriminate].
      rewrite <- E. apply in_step_start.
    + intros H. replace (Z.to_nat retries) with O by lia. reflexivity.
  - intros Hpos.
    destruct (@retry_loop_last A requestFn retries (Z.to_nat retries) O delay
                (in_step_start retries) ltac:(lia)) as [last [Hc Hs]].
    exists last. split; [exact Hc | exact Hs].
Qed.

Lemma retryRequest_settles_as_the_last_call_witness :
  exists last,
    calls (retryRequest timeout_then_value 2 2000%float) = S last
    /\ match timeout_then_value last with
       | Returns a =>
           settlement (retryRequest timeout_then_value 2 2000%float)
           = Fulfilled (Some a)
       | Fails error =>
           settlement (retryRequest timeout_then_value 2 2000%float)
           = Rejected error
       end.
Proof.
  apply (proj2 (proj2 (@retryRequest_settles_as_the_last_call nat
                         timeout_then_value 2 2000%float))).
  lia.
Defined.

(** X18: when call [k] is the first to succeed, [k] is below [retries],
    and no earlier failure was a timeout after the first attempt, the
    promise resolves to the value of call [k] after [k + 1] calls and [k]
    waits.  A timeout of the very first attempt is retried. *)
Theorem first_success_is_returned (A : Type)
  (requestFn : nat -> outcome A JsError.t) (retries : Z) (delay : num)
  (k : nat) (a : A) :
  Z.of_nat k < retries ->
  requestFn k = Returns a ->
  (forall j, (j < k)%nat ->
     exists error, requestFn j = Fails error /\ retried_at j error = true) ->
  retryRequest requestFn retries delay
  = mk_run (Fulfilled (Some a)) (S k) (backoff delay k).
Proof.
  intros Hk Ha Hfail.
  destruct (@retryRequest_skip A requestFn retries k delay Hk Hfail)
    as [rest [delay' [_ ->]]].
  cbn [retry_loop]. rewrite Ha. cbn [settlement calls waits].
  rewrite app_nil_r. f_equal. lia.
Qed.

Lemma first_success_is_returned_witness :
  retryRequest timeout_then_value 2 2000%float
  = mk_run (Fulfilled (Some 7%nat)) 2 (backoff 2000%float 1).
Proof.
  apply (@first_success_is_returned nat timeout_then_value 2 2000%float
           1%nat 7%nat).
  - lia.
  - reflexivity.
  - intros j Hj. destruct j as [|j]; [|lia].
    exists timeout_error. split; reflexivity.
Defined.

(** X19: a timeout (code ECONNABORTED) of any attempt after the first is
    thrown at once, however many attempts are left. *)
Theorem later_timeout_ends_the_retries (A : Type)
  (requestFn : nat -> outcome A JsError.t) (retries : Z) (delay : num)
  (k : nat) (error : JsError.t) :
  (0 < k)%nat ->
  Z.of_nat k < retries ->
  requestFn k = Fails error ->
  JsError.code error = Some "ECONNABORTED"%string ->
  (forall j, (j < k)%nat ->
     exists e, requestFn j = Fails e /\ retried_at j e = true) ->
  retryRequest requestFn retries delay
  = mk_run (Rejected error) (S k) (backoff delay k).
Proof.
  intros Hpos Hk Hf Hcode Hfail.
  destruct (@retryRequest_skip A requestFn retries k delay Hk Hfail)
    as [rest [delay' [_ ->]]].
  cbn [retry_loop]. rewrite Hf, Hcode.
  replace (0 <? Z.of_nat k) with true by (symmetry; apply Z.ltb_lt; lia).
  cbn [code_is_ECONNABORTED]. rewrite String.eqb_refl.
  cbn [andb settlement calls waits].
  rewrite app_nil_r. f_equal. lia.
Qed.

Lemma later_timeout_ends_the_retries_witness :
  retryRequest error_then_timeouts 5 2000%float
  = mk_run (Rejected timeout_error) 2 (backoff 2000%float 1).
Proof.
  apply (@later_timeout_ends_the_retries nat error_then_timeouts 5
           2000%float 1%nat timeout_error).
  - lia.
  - lia.
  - reflexivity.
  - reflexivity.
  - intros j Hj. destruct j as [|j]; [|lia].
    exists other_error. split; reflexivity.
Defined.

(** X20: with two attempts, the default that every caller uses, the error
    code plays no part: any failure of the first call is followed by one
    wait of [delay] and a second call, whose failure is thrown. *)
Theorem two_attempts_ignore_the_error_code (A : Type)
  (requestFn : nat -> outcome A JsError.t) (delay : num) :
  retryRequest requestFn 2 delay
  = match requestFn 0%nat with
    | Returns a => mk_run (Fulfilled (Some a)) 1 []
    | Fails _ =>
        match requestFn 1%nat with
        | Returns a => mk_run (Fulfilled (Some a)) 2 [delay]
        | Fails error => mk_run (Rejected error) 2 [delay]
        end
    end.
Proof.
  unfold retryRequest. change (Z.to_nat 2) with 2%nat. cbn [retry_loop].
  destruct (requestFn 0%nat) as [a|e0]; [reflexivity|].
  change (0 <? Z.of_nat 0) with false. rewrite andb_false_r.
  change (Z.of_nat 0 =? 2 - 1) with false. cbv iota.
  destruct (requestFn 1%nat) as [a|e1]; [reflexivity|].
  change (Z.of_nat 1 =? 2 - 1) with true.
  destruct (code_is_ECONNABORTED (JsError.code e1) && (0 <? Z.of_nat 1));
    reflexivity.
Qed.

Lemma response_interceptor_no_code (error : AxiosError.t) :
  JsError.code (response_interceptor error) = None.
Proof.
  unfold response_interceptor.
  destruct (code_is_ECONNABORTED _); [reflexivity|].
  destruct (AxiosError.response error); [reflexivity|].
  destruct (AxiosError.request error); reflexivity.
Qed.

Lemma client_loop_step (A : Type)
  (attempt : nat -> outcome A AxiosError.t) (retries : Z)
  (rest i : nat) (delay : num) :
  retry_loop (through_client attempt) retries (S rest) i delay
  = match attempt i with
    | Returns a => mk_run (Fulfilled (Some a)) 1 []
    | Fails error =>
        if Z.of_nat i =? retries - 1
        then mk_run (Rejected (response_interceptor error)) 1 []
        else
          mk_run
            (settlement (retry_loop (through_client attempt) retries rest
                           (S i) (PrimFloat.mul delay 1.5%float)))
            (S (calls (retry_loop (through_client attempt) retries rest
                         (S i) (PrimFloat.mul delay 1.5%float))))
            (delay :: waits (retry_loop (through_client attempt) retries rest
                               (S i) (PrimFloat.mul delay 1.5%float)))
    end.
Proof.
  cbn [retry_loop]. unfold through_client at 1.
  destruct (attempt i) as [a|error]; [reflexivity|].
  rewrite response_interceptor_no_code. reflexivity.
Qed.

Lemma client_loop_rejection (A : Type)
  (attempt : nat -> outcome A AxiosError.t) (retries : Z)
  (remaining i : nat) (delay : num) (e : JsError.t) :
  in_step retries remaining i ->
  settlement (retry_loop (through_client attempt) retries remaining i delay)
  = Rejected e ->
  calls (retry_loop (through_client attempt) retries remaining i delay)
  = remaining
  /\ (forall j, (i <= j < i + remaining)%nat ->
        exists error, attempt j = Fails error)
  /\ exists error, attempt (Nat.pred (i + remaining)) = Fails error
                   /\ e = response_interceptor error.
Proof.
  revert i delay. induction remaining as [|rest IH]; intros i delay Hstep;
    [discriminate|].
  rewrite client_loop_step.
  destruct (attempt i) as [a|error] eqn:Ei; [discriminate|].
  destruct (Z.of_nat i =? retries - 1) eqn:Elast.
  - cbn [settlement calls]. intros Hrej.
    assert (rest = O) as ->.
    { destruct Hstep as [H|H]; [discriminate|]. apply Z.eqb_eq in Elast. lia. }
    split; [reflexivity|]. split.
    + intros j Hj. replace j with i by lia. eauto.
    + exists error. rewrite Nat.add_1_r. cbn [Nat.pred].
      split; [exact Ei|congruence].
  - cbn [settlement calls]. intros Hrej.
    destruct (IH (S i) _ (in_step_next Hstep) Hrej) as [Hc [Hall Hlast]].
    split; [congruence|]. split.
    + intros j Hj. destruct (Nat.eq_dec j i) as [->|Hne]; [eauto|].
      apply Hall. lia.
    + replace (i + S rest)%nat with (S i + rest)%nat by lia. exact Hlast.
Qed.

(** X21: for requests made through the client, whose errors the response
    interceptor replaces by new errors without a code, [retryRequest]
    rejects only after all [retries] attempts have failed, timeouts
    included, and with the intercepted error of the last attempt. *)
Theorem client_rejection_only_after_all_attempts (A : Type)
  (attempt : nat -> outcome A AxiosError.t) (retries : Z) (delay : num)
  (e : JsError.t) :
  settlement (retryRequest (through_client attempt) retries delay)
  = Rejected e ->
  calls (retryRequest (through_client attempt) retries delay)
  = Z.to_nat retries
  /\ (forall j, (j < Z.to_nat retries)%nat ->
        exists error, attempt j = Fails error)
  /\ exists error, attempt (Nat.pred (Z.to_nat retries)) = Fails error
                   /\ e = response_interceptor error.
Proof.
  intros Hrej.
  destruct (@client_loop_rejection A attempt retries (Z.to_nat retries) O
              delay e (in_step_start retries) Hrej) as [Hc [Hall Hlast]].
  split; [exact Hc|]. split; [|exact Hlast].
  intros j Hj. apply Hall. lia.
Qed.

Lemma client_rejection_only_after_all_attempts_witness :
  calls (retryRequest (through_client client_timeouts) 3 2000%float)
  = Z.to_nat 3
  /\ (forall j, (j < Z.to_nat 3)%nat ->
        exists error, client_timeouts j = Fails error)
  /\ exists error,
       client_timeouts (Nat.pred (Z.to_nat 3)) = Fails error
       /\ response_interceptor
            (AxiosError.mk (Some "ECONNABORTED"%string)
               "timeout of 30000ms exceeded" None true)
          = response_interceptor error.
Proof.
  apply (@client_rejection_only_after_all_attempts nat client_timeouts 3
           2000%float).
  reflexivity.
Defined.

(* ------------------------------------------------------------------ *)
(** * The backend's reading of the range, and formatTimestamp *)

Lemma leading_digits_then (digits tail : string) (c : ascii) :
  all_digits digits = true -> is_digit c = false ->
  leading_digits (digits ++ String c tail) = (digits, String c tail).
Proof.
  intros Hd Hc. induction digits as [|d digits IH].
  - cbn [append leading_digits]. rewrite Hc. reflexivity.
  - cbn [all_digits] in Hd. apply andb_true_iff in Hd as [Hd1 Hd2].
    cbn [append leading_digits]. rewrite Hd1, (IH Hd2). reflexivity.
Qed.

Lemma unit_is_no_digit (c : ascii) : is_unit c = true -> is_digit c = false.
Proof.
  unfold is_unit. intros H.
  repeat (apply orb_true_iff in H as [H|H]);
    apply Ascii.eqb_eq in H; subst c; reflexivity.
Qed.

Lemma match_range_digits_unit (digits : string) (unit : ascii) :
  digits <> EmptyString -> all_digits digits = true -> is_unit unit = true ->
  match_range (digits ++ String unit EmptyString) = Some (digits, unit).
Proof.
  intros Hne Hd Hu. unfold match_range.
  rewrite (@leading_digits_then digits EmptyString unit Hd (@unit_is_no_digit unit Hu)).
  destruct digits as [|d digits]; [congruence|]. rewrite Hu. reflexivity.
Qed.

(** X22: for a range made of one or more digits and a unit letter the
    backend answers the number written by the digits, taken as hours for
    [h], times 24 for [d], times 24 times 7 for [w], times 24 times 30 for
    [m] (months: there is no unit of minutes) and times 24 times 365 for
    [y]. *)
Theorem parseTimeRangeToHours_by_unit (digits : string) :
  digits <> EmptyString -> all_digits digits = true ->
  let value := parseInt_digits digits in
  parseTimeRangeToHours (Some (digits ++ "h")%string) = value
  /\ parseTimeRangeToHours (Some (digits ++ "d")%string)
     = PrimFloat.mul value 24%float
  /\ parseTimeRangeToHours (Some (digits ++ "w")%string)
     = PrimFloat.mul (PrimFloat.mul value 24%float) 7%float
  /\ parseTimeRangeToHours (Some (digits ++ "m")%string)
     = PrimFloat.mul (PrimFloat.mul value 24%float) 30%float
  /\ parseTimeRangeToHours (Some (digits ++ "y")%string)
     = PrimFloat.mul (PrimFloat.mul value 24%float) 365%float.
Proof.
  intros Hne Hd value.
  assert (Hs : forall unit, is_unit unit = true ->
            parseTimeRangeToHours (Some (digits ++ String unit EmptyString)%string)
            = match match_range (digits ++ String unit EmptyString) with
              | Some (ds, u) =>
                  (if Ascii.eqb u "h" then parseInt_digits ds
                   else if Ascii.eqb u "d"
                        then PrimFloat.mul (parseInt_digits ds) 24%float
                   else if Ascii.eqb u "w"
                        then PrimFloat.mul (PrimFloat.mul (parseInt_digits ds) 24%float) 7%float
                   else if Ascii.eqb u "m"
                        then PrimFloat.mul (PrimFloat.mul (parseInt_digits ds) 24%float) 30%float
                   else if Ascii.eqb u "y"
                        then PrimFloat.mul (PrimFloat.mul (parseInt_digits ds) 24%float) 365%float
                   else 24%float)%char
              | None => 24%float
              end).
  { intros unit Hu. unfold parseTimeRangeToHours.
    destruct digits as [|d ds]; [congruence|]. cbn [append].
    destruct (match_range _) as [[? ?]|]; reflexivity. }
  repeat split; rewrite Hs by reflexivity;
    rewrite match_range_digits_unit by (auto; reflexivity); reflexivity.
Qed.

Lemma parseTimeRangeToHours_by_unit_witness :
  let value := parseInt_digits "75" in
  parseTimeRangeToHours (Some ("75" ++ "h")%string) = value
  /\ parseTimeRangeToHours (Some ("75" ++ "d")%string)
     = PrimFloat.mul value 24%float
  /\ parseTimeRangeToHours (Some ("75" ++ "w")%string)
     = PrimFloat.mul (PrimFloat.mul value 24%float) 7%float
  /\ parseTimeRangeToHours (Some ("75" ++ "m")%string)
     = PrimFloat.mul (PrimFloat.mul value 24%float) 30%float
  /\ parseTimeRangeToHours (Some ("75" ++ "y")%string)
     = PrimFloat.mul (PrimFloat.mul value 24%float) 365%float.
Proof.
  apply (@parseTimeRangeToHours_by_unit "75"%string).
  - discriminate.
  - reflexivity.
Defined.

(** X23: the hours the backend looks back when it is sent the range that
    [getBackendTimeRange] chooses: 8, 15, 30, 96 and 240 hours for 6h, 12h,
    1d, 3d and 1w, and 54000 hours for 1h and every other label, whose
    [75m] is read as 75 months.  In each case this is at least the
    displayed window. *)
Theorem backend_reads_the_range (timeRange : string) :
  parseTimeRangeToHours (Some (getBackendTimeRange timeRange))
  = of_Z (backend_hours timeRange)
  /\ window_duration timeRange <= backend_hours timeRange * 3600000.
Proof.
  unfold getBackendTimeRange, backend_hours, window_duration, switch_range.
  repeat match goal with |- context [String.eqb ?a ?b] =>
    destruct (String.eqb a b) end;
    (split; [vm_compute; reflexivity | lia]).
Qed.

Section FormatFacts.
Context {host : Host}.

(** X24: [formatTimestamp] answers [Unknown] for a falsy timestamp, and
    it throws exactly when the timestamp is truthy and the date built in
    the [try] block of [normalizeTimestamp] is invalid, whether or not
    [new Date(timestamp)] could read the value. *)
Theorem formatTimestamp_outcomes (timestamp : JsVal) :
  (truthy timestamp = false -> formatTimestamp timestamp = Ok "Unknown"%string)
  /\ (formatTimestamp timestamp = Throw
      <-> truthy timestamp = true /\ parsed_date timestamp = InvalidDate).
Proof.
  unfold formatTimestamp. rewrite normalizeTimestamp_cases.
  destruct (truthy timestamp).
  - split; [discriminate|].
    destruct (parsed_date timestamp) as [|t]; cbn [format].
    + split; auto.
    + split; [discriminate|]. intros [_ H]. discriminate.
  - split; [reflexivity|]. split; [discriminate|]. intros [H _]. discriminate.
Qed.

End FormatFacts.

Lemma formatTimestamp_outcomes_witness :
  formatTimestamp (host := example_host) (JStr "soon") = Throw.
Proof.
  apply (proj2 (proj2 (@formatTimestamp_outcomes example_host (JStr "soon")))).
  split; reflexivity.
Defined.

(* ------------------------------------------------------------------ *)
(** * getAllData *)

(** X25: [getAllData] rejects only when both requests failed; its own
    error is then caught by its own handler and wrapped again, so that the
    message carries the words [Failed to fetch data: ] twice, followed by
    the message of the servers request alone.  When one request failed the
    other's value is returned, with an empty list of servers or the
    all-zero aggregate in place of the missing one. *)
Theorem getAllData_outcomes (Server Aggregate : Type)
  (empty_aggregate : Aggregate)
  (serversResult : outcome (list Server) JsError.t)
  (aggregateResult : outcome Aggregate JsError.t) :
  getAllData empty_aggregate serversResult aggregateResult
  = match serversResult, aggregateResult with
    | Returns servers, Returns aggregate =>
        Returns (AllData.mk servers aggregate)
    | Returns servers, Fails _ =>
        Returns (AllData.mk servers empty_aggregate)
    | Fails _, Returns aggregate => Returns (AllData.mk [] aggregate)
    | Fails reason, Fails _ =>
        Fails (new_Error
                 ("Failed to fetch data: Failed to fetch data: "
                  ++ reason_message reason))
    end.
Proof.
  destruct serversResult, aggregateResult; reflexivity.
Qed.

(* ================================================================== *)
(** * The guard on the rates, and what the accepted samples contribute *)

Section GuardFacts.
Context {host : Host}.

Lemma accepted_sample_iff (point : Sample.t) :
  point_rejected point = false <-> accepted_sample point.
Proof.
  unfold point_rejected, accepted_sample. rewrite <- !rate_rejected_iff.
  destruct (truthy (Sample.timestamp point)),
           (rate_rejected (Sample.rx_rate point)),
           (rate_rejected (Sample.tx_rate point)); simpl; split;
    try discriminate;
    try (intros _; repeat split; discriminate);
    try (intros [H1 [H2 H3]]; try discriminate;
         exfalso; first [apply H2; reflexivity | apply H3; reflexivity]).
Qed.

(** The samples of a bucket: those that the guard accepts, whose
    normalized time is a valid instant not before the cutoff, and that the
    key function sends to the start of the bucket. *)
Lemma in_bucket_iff (timeRange : string) (cutoff t : Z)
  (rawData : list Sample.t) (p : Sample.t) :
  In p (bucket_samples timeRange (DateAt cutoff) rawData (Some t))
  <-> In p rawData
      /\ accepted_sample p
      /\ exists u,
           normalizeTimestamp (Sample.timestamp p) = Some (DateAt u)
           /\ date_lt (DateAt u) (DateAt cutoff) = false
           /\ getTimeBucketFunction timeRange (DateAt u) = DateAt t.
Proof.
  rewrite bucket_samples_In, <- accepted_sample_iff. split.
  - intros [Hin Hk]. split; [exact Hin|].
    destruct (point_rejected p) eqn:Hg.
    { rewrite sample_key_rejected in Hk by assumption. discriminate. }
    split; [reflexivity|].
    destruct (guard_passed_normalized p Hg) as [[|u] Hn].
    { rewrite sample_key_invalid in Hk by assumption. discriminate. }
    rewrite (@sample_key_valid host timeRange cutoff u p Hg Hn) in Hk.
    exists u. split; [exact Hn|]. cbn [date_lt].
    destruct (u <? cutoff); [discriminate|]. split; [reflexivity|].
    rewrite getTimeBucketFunction_start. congruence.
  - intros [Hin [Hg [u [Hn [Hc Hb]]]]]. split; [exact Hin|].
    rewrite (@sample_key_valid host timeRange cutoff u p Hg Hn).
    cbn [date_lt] in Hc. rewrite Hc.
    rewrite getTimeBucketFunction_start in Hb. injection Hb as <-. reflexivity.
Qed.

Lemma rate_value_cases (value : JsVal) :
  rate_value value
  = if PrimFloat.is_nan (ToNumber value) || PrimFloat.is_zero (ToNumber value)
    then zero else ToNumber value.
Proof.
  unfold rate_value, or_zero, JsNumber.truthy.
  destruct (PrimFloat.is_nan (ToNumber value) || PrimFloat.is_zero (ToNumber value));
    reflexivity.
Qed.

(** A sample that is accepted and not older than the cutoff is among the
    samples of the point of its bucket, before the limit is applied. *)
Lemma accepted_sample_point (now : Z) (timeRange : string)
  (rawData : list Sample.t) (data : list Point.t) (point : Sample.t) (t : Z) :
  In point rawData ->
  accepted_sample point ->
  normalizeTimestamp (Sample.timestamp point) = Some (DateAt t) ->
  date_lt (DateAt t) (getTimeRangeCutoff (DateAt now) timeRange) = false ->
  aggregatedData now rawData timeRange = Ok data ->
  exists start,
    In (point_at timeRange (getTimeRangeCutoff (DateAt now) timeRange) rawData start)
      data
    /\ getTimeBucketFunction timeRange (DateAt t) = DateAt start
    /\ In point
         (bucket_samples timeRange (getTimeRangeCutoff (DateAt now) timeRange)
            rawData (Some start)).
Proof.
  intros Hin Hacc Hn Hc Hdata. rewrite aggregatedData_spec in Hdata.
  cbv zeta in Hdata. rewrite getTimeRangeCutoff_duration in *.
  set (cutoff := now - window_duration timeRange) in *.
  destruct (all_valid (bucket_keys timeRange (DateAt cutoff) rawData)) as [ts|] eqn:Hv;
    [|discriminate].
  injection Hdata as <-.
  exists (bucket_start timeRange t).
  assert (Hm : In point (bucket_samples timeRange (DateAt cutoff) rawData
                           (Some (bucket_start timeRange t)))).
  { apply in_bucket_iff. split; [exact Hin|]. split; [exact Hacc|].
    exists t. split; [exact Hn|]. split; [exact Hc|].
    apply getTimeBucketFunction_start. }
  split; [|split; [apply getTimeBucketFunction_start | exact Hm]].
  apply in_map. apply (Permutation_in _ (Permutation_sym (sort_perm Z.leb ts))).
  apply bucket_samples_In in Hm. destruct Hm as [_ Hk].
  assert (Hkey : In (Some (bucket_start timeRange t))
                   (bucket_keys timeRange (DateAt cutoff) rawData))
    by (apply (first_keys_In key_eqb key_eqb_spec); eauto).
  apply all_valid_map_Some in Hv. rewrite Hv in Hkey.
  apply in_map_iff in Hkey. destruct Hkey as [t0 [[= ->] Ht0]]. exact Ht0.
Qed.

End GuardFacts.

(** C1 (amended): the guard rejects a rate exactly when it is missing,
    [null], [false], the empty text or NaN.  A sample with such an rx_rate
    or tx_rate is skipped entirely: the series is the one obtained from the
    input without that sample.  A sample with any other rates (and a truthy
    timestamp) passes the guard: when its normalized time is a valid
    instant not before the cutoff, it is one of the samples of the point of
    its bucket, whose data_points is the number of those samples and whose
    rates are the means of [Number(value) || 0] over them, a value that
    reads as NaN or as zero counting as 0. *)
Theorem rejected_rate_sample_is_skipped (host : Host) (now : Z) (timeRange : string)
  (before after : list Sample.t) (point : Sample.t) :
  (forall rate, rate_rejected rate = true <-> rejected_rate rate)
  /\ (rejected_rate (Sample.rx_rate point) \/ rejected_rate (Sample.tx_rate point) ->
      aggregateDataByTime now (before ++ point :: after) timeRange
      = aggregateDataByTime now (before ++ after) timeRange)
  /\ (forall t data,
        accepted_sample point ->
        normalizeTimestamp (Sample.timestamp point) = Some (DateAt t) ->
        date_lt (DateAt t) (getTimeRangeCutoff (DateAt now) timeRange) = false ->
        aggregatedData now (before ++ point :: after) timeRange = Ok data ->
        exists bucket start samples,
          samples
          = bucket_samples timeRange (getTimeRangeCutoff (DateAt now) timeRange)
              (before ++ point :: after) (Some start)
          /\ In point samples
          /\ In bucket data
          /\ Point.timestamp bucket = DateAt start
          /\ getTimeBucketFunction timeRange (DateAt t) = DateAt start
          /\ Point.data_points bucket = List.length samples
          /\ Point.rx_rate bucket
             = mean (map (fun p => rate_value (Sample.rx_rate p)) samples)
          /\ Point.tx_rate bucket
             = mean (map (fun p => rate_value (Sample.tx_rate p)) samples))
  /\ (forall value,
        rate_value value
        = if PrimFloat.is_nan (ToNumber value) || PrimFloat.is_zero (ToNumber value)
          then zero else ToNumber value).
Proof.
  split; [apply rate_rejected_iff|]. split; [|split; [|apply rate_value_cases]].
  - intros Hrate. apply aggregateDataByTime_skip, sample_key_rejected.
    unfold point_rejected.
    destruct Hrate as [H|H]; apply rate_rejected_iff in H; rewrite H;
      rewrite ?orb_true_r; reflexivity.
  - intros t data Hacc Hn Hc Hdata.
    destruct (@accepted_sample_point host now timeRange (before ++ point :: after)
                data point t) as [start [Hin [Hb Hm]]]; try assumption.
    { apply in_or_app. right. left. reflexivity. }
    eexists. exists start. eexists. split; [reflexivity|].
    split; [exact Hm|]. split; [exact Hin|]. split; [reflexivity|].
    split; [exact Hb|]. split; [reflexivity|].
    cbn [point_at Point.rx_rate Point.tx_rate].
    destruct (bucket_samples timeRange _ (before ++ point :: after) (Some start));
      [destruct Hm | split; reflexivity].
Qed.

Lemma rejected_rate_sample_is_skipped_witness :
  aggregateDataByTime (host := example_host) example_now
    ([sample_at (example_now - 1000) (JNum 10%float) (JNum 4%float)]
     ++ sample_at (example_now - 1000) JNull (JNum 4%float) :: []) "1h"
  = aggregateDataByTime (host := example_host) example_now
      ([sample_at (example_now - 1000) (JNum 10%float) (JNum 4%float)] ++ []) "1h".
Proof.
  apply (proj1 (proj2 (@rejected_rate_sample_is_skipped example_host example_now
                         "1h"%string
                         [sample_at (example_now - 1000) (JNum 10%float) (JNum 4%float)]
                         []
                         (sample_at (example_now - 1000) JNull (JNum 4%float))))).
  left. right. left. reflexivity.
Defined.

(** C2 (as stated, refuted): the only sample of the second server has the
    rx_rate "n/a", which is no number, so that server has no valid sample
    in the bucket.  It is counted all the same: server_count is 2 and its
    tx rate 6 is part of total_tx, where the first server alone gives
    server_count 1 and total_tx 4. *)
Lemma server_without_numeric_rate_is_counted :
  PrimFloat.is_nan (ToNumber (host := example_host) (JStr "n/a")) = true
  /\ aggregateCombinedServerData (host := example_host) example_now
       [[sample_at (example_now - 1000) (JNum 10%float) (JNum 4%float)];
        [sample_at (example_now - 1000) (JStr "n/a") (JNum 6%float)]] "1h"
     = Ok [CombinedPoint.mk (DateAt 1699999980000) 10%float 10%float 2%nat
             "Nov 14, 23:13:00"%string]
  /\ aggregateCombinedServerData (host := example_host) example_now
       [[sample_at (example_now - 1000) (JNum 10%float) (JNum 4%float)]] "1h"
     = Ok [CombinedPoint.mk (DateAt 1699999980000) 10%float 4%float 1%nat
             "Nov 14, 23:13:00"%string].
Proof. repeat split; vm_compute; reflexivity. Qed.

(** C2 (amended): every point of the combined series belongs to a bucket
    start [t].  The samples of a server in the bucket are those of its
    array that the guard accepts (truthy timestamp, rates neither missing,
    [null], [false], empty nor NaN), whose normalized time is a valid
    instant not before the cutoff, and that the key function sends to [t].
    total_rx is the sum, over the servers that have at least one such
    sample and in server order, of the mean of [Number(rx_rate) || 0] over
    that server's samples in the bucket, total_tx likewise, and
    server_count is the number of those servers (at least one); nothing is
    pooled across servers. *)
Theorem combined_point_sums_server_means (host : Host) (now : Z) (timeRange : string)
  (allServerData : list (list Sample.t)) (combined : list CombinedPoint.t)
  (point : CombinedPoint.t) :
  aggregateCombinedServerData now allServerData timeRange = Ok combined ->
  In point combined ->
  exists t,
    let cutoffTime := getTimeRangeCutoff (DateAt now) timeRange in
    let in_bucket := fun serverData : list Sample.t =>
      bucket_samples timeRange cutoffTime serverData (Some t) in
    let servers := filter nonempty (map in_bucket allServerData) in
    CombinedPoint.timestamp point = DateAt t
    /\ servers <> []
    /\ CombinedPoint.total_rx point
       = sum (map (fun samples =>
                     mean (map (fun p => rate_value (Sample.rx_rate p)) samples))
                servers)
    /\ CombinedPoint.total_tx point
       = sum (map (fun samples =>
                     mean (map (fun p => rate_value (Sample.tx_rate p)) samples))
                servers)
    /\ CombinedPoint.server_count point = List.length servers
    /\ (forall serverData p,
          In p (in_bucket serverData)
          <-> In p serverData
              /\ accepted_sample p
              /\ exists u,
                   normalizeTimestamp (Sample.timestamp p) = Some (DateAt u)
                   /\ date_lt (DateAt u) cutoffTime = false
                   /\ getTimeBucketFunction timeRange (DateAt u) = DateAt t).
Proof.
  intros Hcomb Hin.
  apply aggregateCombinedServerData_series in Hcomb.
  destruct Hcomb as [ts [Hv [_ [_ ->]]]].
  apply In_limit_points in Hin.
  apply in_map_iff in Hin. destruct Hin as [t [<- Ht]].
  exists t. cbv zeta.
  split; [reflexivity|]. split.
  { assert (Hlen : (0 < List.length
                      (contributing timeRange (getTimeRangeCutoff (DateAt now) timeRange)
                         allServerData (Some t)))%nat).
    { apply contributing_nonempty. apply all_valid_map_Some in Hv. rewrite Hv.
      apply in_map. apply (Permutation_in _ (sort_perm Z.leb ts)). exact Ht. }
    unfold contributing in Hlen. intros Hnil. rewrite Hnil in Hlen.
    simpl in Hlen. lia. }
  split; [reflexivity|]. split; [reflexivity|]. split; [reflexivity|].
  intros serverData p. rewrite getTimeRangeCutoff_duration. apply in_bucket_iff.
Qed.

Lemma combined_point_sums_server_means_witness :
  exists t,
    let cutoffTime := getTimeRangeCutoff (host := example_host) (DateAt example_now) "1h" in
    let in_bucket := fun serverData : list Sample.t =>
      bucket_samples (host := example_host) "1h" cutoffTime serverData (Some t) in
    let servers := filter nonempty (map in_bucket example_servers) in
    DateAt 1699999980000 = DateAt t
    /\ servers <> []
    /\ 17%float
       = sum (map (fun samples =>
                     mean (map (fun p => rate_value (host := example_host)
                                           (Sample.rx_rate p)) samples))
                servers)
    /\ 4%float
       = sum (map (fun samples =>
                     mean (map (fun p => rate_value (host := example_host)
                                           (Sample.tx_rate p)) samples))
                servers)
    /\ 2%nat = List.length servers
    /\ (forall serverData p,
          In p (in_bucket serverData)
          <-> In p serverData
              /\ accepted_sample p
              /\ exists u,
                   normalizeTimestamp (host := example_host) (Sample.timestamp p)
                   = Some (DateAt u)
                   /\ date_lt (DateAt u) cutoffTime = false
                   /\ getTimeBucketFunction (host := example_host) "1h" (DateAt u)
                      = DateAt t).
Proof.
  apply (@combined_point_sums_server_means example_host example_now "1h"%string
           example_servers example_combined
           (CombinedPoint.mk (DateAt 1699999980000) 17%float 4%float 2%nat
              "Nov 14, 23:13:00"%string)).
  - vm_compute. reflexivity.
  - left. reflexivity.
Defined.
